(** * Versioned machine-document store: import, recall, export, deactivate

    A shallow embedding of [app/ui_machine_history.py].  The screen keeps
    program and print files of a (line, machine) pair under a storage root,
    with one ledger row per revision.  The file system and the two ledger
    tables are explicit state; every handler of the screen is a function on
    that state in a small state-and-exception monad.

    Conventions.
    - Python [str] values are [string]s whose characters are code points
      below 256; file contents are [list byte].
    - Python [int]s that are row ids or revision numbers are [N].
    - POSIX path rules ([os.sep = "/"], [os.altsep = None]); a
      [pathlib.Path] is the list of its components. *)

From Stdlib Require Import ZArith NArith Lia List Ascii String.
From Stdlib.Strings Require Import Byte.
From stdpp Require Import base tactics option list gmap strings pretty.

Local Open Scope Z_scope.

(** ** [hashlib.sha256] (FIPS 180-4), on bytes *)

Module Sha256.

Definition w32 (x : Z) : Z := x mod 2 ^ 32.
Definition add32 (x y : Z) : Z := w32 (x + y).
Definition rotr (n x : Z) : Z :=
  Z.lor (Z.shiftr x n) (w32 (Z.shiftl x (32 - n))).
Definition shr (n x : Z) : Z := Z.shiftr x n.
Definition not32 (x : Z) : Z := 2 ^ 32 - 1 - x.

Definition Ch (x y z : Z) : Z := Z.lxor (Z.land x y) (Z.land (not32 x) z).
Definition Maj (x y z : Z) : Z :=
  Z.lxor (Z.land x y) (Z.lxor (Z.land x z) (Z.land y z)).
Definition Sigma0 (x : Z) : Z := Z.lxor (rotr 2 x) (Z.lxor (rotr 13 x) (rotr 22 x)).
Definition Sigma1 (x : Z) : Z := Z.lxor (rotr 6 x) (Z.lxor (rotr 11 x) (rotr 25 x)).
Definition sigma0 (x : Z) : Z := Z.lxor (rotr 7 x) (Z.lxor (rotr 18 x) (shr 3 x)).
Definition sigma1 (x : Z) : Z := Z.lxor (rotr 17 x) (Z.lxor (rotr 19 x) (shr 10 x)).

(** The round constants and the initial state are the fractional bits of
    the cube and square roots of the first primes. *)
Definition primes64 : list Z :=
  [2; 3; 5; 7; 11; 13; 17; 19; 23; 29; 31; 37; 41; 43; 47; 53;
   59; 61; 67; 71; 73; 79; 83; 89; 97; 101; 103; 107; 109; 113; 127; 131;
   137; 139; 149; 151; 157; 163; 167; 173; 179; 181; 191; 193; 197; 199;
   211; 223; 227; 229; 233; 239; 241; 251; 257; 263; 269; 271; 277; 281;
   283; 293; 307; 311].

(** Largest [r] in [[lo, hi)] with [r^3 <= x], by bisection. *)
Fixpoint cbrt_bisect (fuel : nat) (x lo hi : Z) : Z :=
  match fuel with
  | O => lo
  | S fuel' =>
      if hi - lo <=? 1 then lo
      else let mid := (lo + hi) / 2 in
           if mid * mid * mid <=? x then cbrt_bisect fuel' x mid hi
           else cbrt_bisect fuel' x lo mid
  end.
Definition icbrt (x : Z) : Z := cbrt_bisect 200 x 0 (2 ^ 40).

Definition K : list Z :=
  Eval vm_compute in map (fun p => w32 (icbrt (p * 2 ^ 96))) primes64.
Definition H0 : list Z :=
  Eval vm_compute in map (fun p => w32 (Z.sqrt (p * 2 ^ 64))) (firstn 8 primes64).

(** Big-endian encoding of [x] on [n] bytes. *)
Fixpoint be_bytes (n : nat) (x : Z) : list Z :=
  match n with
  | O => []
  | S n' => (x / 256 ^ Z.of_nat n') mod 256 :: be_bytes n' x
  end.

Definition pad (msg : list Z) : list Z :=
  let len := Z.of_nat (length msg) in
  let zeros := Z.to_nat ((55 - len) mod 64) in
  msg ++ [128] ++ repeat 0 zeros ++ be_bytes 8 (8 * len).

Fixpoint words (fuel : nat) (bs : list Z) : list Z :=
  match fuel, bs with
  | S fuel', b0 :: b1 :: b2 :: b3 :: rest =>
      (((b0 * 256 + b1) * 256 + b2) * 256 + b3) :: words fuel' rest
  | _, _ => []
  end.

Definition nthw (ws : list Z) (i : nat) : Z := nth i ws 0.

(** Message schedule; [rev_ws] holds W_{t-1}, W_{t-2}, ... *)
Fixpoint schedule (n : nat) (rev_ws : list Z) : list Z :=
  match n with
  | O => rev_ws
  | S n' =>
      let w := add32 (add32 (sigma1 (nthw rev_ws 1)) (nthw rev_ws 6))
                     (add32 (sigma0 (nthw rev_ws 14)) (nthw rev_ws 15)) in
      schedule n' (w :: rev_ws)
  end.

Definition round (st : list Z) (kw : Z * Z) : list Z :=
  match st with
  | [a; b; c; d; e; f; g; h] =>
      let t1 := add32 (add32 (add32 h (Sigma1 e)) (add32 (Ch e f g) (fst kw))) (snd kw) in
      let t2 := add32 (Sigma0 a) (Maj a b c) in
      [add32 t1 t2; a; b; c; add32 d t1; e; f; g]
  | _ => st
  end.

Definition compress (st block : list Z) : list Z :=
  let ws := rev (schedule 48 (rev block)) in
  let st' := fold_left round (combine K ws) st in
  map (fun p => add32 (fst p) (snd p)) (combine st st').

Fixpoint blocks (fuel : nat) (ws : list Z) : list (list Z) :=
  match fuel, ws with
  | S fuel', _ :: _ => firstn 16 ws :: blocks fuel' (skipn 16 ws)
  | _, _ => []
  end.

Definition digest (msg : list Z) : list Z :=
  let bs := pad msg in
  let ws := words (length bs) bs in
  fold_left compress (blocks (length ws) ws) H0.

Definition hex_digit (d : Z) : ascii :=
  ascii_of_N (Z.to_N (if d <? 10 then 48 + d else 87 + d)).

Fixpoint hex (n : nat) (x : Z) : string :=
  match n with
  | O => EmptyString
  | S n' => String (hex_digit ((x / 16 ^ Z.of_nat n') mod 16)) (hex n' x)
  end.

Definition hexdigest (msg : list byte) : string :=
  fold_right (fun w s => hex 8 w +:+ s) EmptyString
             (digest (map (fun b => Z.of_N (Byte.to_N b)) msg)).

End Sha256.

(** ** Python [str] methods used by the screen *)

Module Py.

(** [str.isspace] on one character, for code points below 256. *)
Definition is_space (c : ascii) : bool :=
  let n := N_of_ascii c in
  ((9 <=? n) && (n <=? 13) || (28 <=? n) && (n <=? 32)
   || (n =? 133) || (n =? 160))%N.

(** [s.replace(a, b)] for one-character [a] and [b]. *)
Fixpoint replace (a b : ascii) (s : string) : string :=
  match s with
  | EmptyString => EmptyString
  | String c s' => String (if Ascii.eqb c a then b else c) (replace a b s')
  end.

Fixpoint lstrip (s : string) : string :=
  match s with
  | EmptyString => EmptyString
  | String c s' => if is_space c then lstrip s' else s
  end.

Fixpoint rstrip (s : string) : string :=
  match s with
  | EmptyString => EmptyString
  | String c s' =>
      match rstrip s' with
      | EmptyString => if is_space c then EmptyString else String c EmptyString
      | r => String c r
      end
  end.

(** [s.strip()] *)
Definition strip (s : string) : string := rstrip (lstrip s).

(** The next character, if any, is whitespace: a word ends here. *)
Definition at_break (s : string) : bool :=
  match s with
  | EmptyString => true
  | String c _ => is_space c
  end.

(** [s.split()]: the maximal runs of non-whitespace characters. *)
Fixpoint split (s : string) : list string :=
  match s with
  | EmptyString => []
  | String c s' =>
      if is_space c then split s'
      else if at_break s' then String c EmptyString :: split s'
      else match split s' with
           | w :: ws => String c w :: ws
           | [] => [String c EmptyString]
           end
  end.

(** [sep.join(parts)] *)
Fixpoint join (sep : string) (parts : list string) : string :=
  match parts with
  | [] => EmptyString
  | [p] => p
  | p :: rest => p +:+ sep +:+ join sep rest
  end.

(** [s.split(sep)] for a one-character [sep]: always at least one field. *)
Fixpoint fields (sep : ascii) (s : string) : list string :=
  match s with
  | EmptyString => [EmptyString]
  | String c s' =>
      if Ascii.eqb c sep then EmptyString :: fields sep s'
      else match fields sep s' with
           | f :: fs => String c f :: fs
           | [] => [String c EmptyString]
           end
  end.

(** [s.rfind(c)], [None] standing for [-1]. *)
Fixpoint rfind (c : ascii) (s : string) : option nat :=
  match s with
  | EmptyString => None
  | String c' s' =>
      match rfind c s' with
      | Some i => Some (S i)
      | None => if Ascii.eqb c' c then Some O else None
      end
  end.

Fixpoint take (n : nat) (s : string) : string :=
  match n, s with
  | S n', String c s' => String c (take n' s')
  | _, _ => EmptyString
  end.

Fixpoint drop (n : nat) (s : string) : string :=
  match n, s with
  | S n', String _ s' => drop n' s'
  | _, _ => s
  end.

Definition starts_with (c : ascii) (s : string) : bool :=
  match s with
  | String c' _ => Ascii.eqb c' c
  | EmptyString => false
  end.

End Py.

(** ** [os.path] and [pathlib] on POSIX *)

Module PathLib.

(** A path is the tuple [Path.parts]; an absolute path starts with the
    part ["/"].  [".."] is an ordinary part (pathlib does not resolve it),
    links are not modelled, and a path with exactly two leading slashes is
    read like one with a single slash. *)
Definition Path := list string.

Definition kept_part (p : string) : bool :=
  negb (String.eqb p "" || String.eqb p ".").

(** [Path(s)] *)
Definition parse (s : string) : Path :=
  (if Py.starts_with "/" s then ["/"%string] else [])
    ++ List.filter kept_part (Py.fields "/" s).

(** [p / s] *)
Definition div (p : Path) (s : string) : Path :=
  if Py.starts_with "/" s then parse s else p ++ List.filter kept_part (Py.fields "/" s).

(** [str(p)] *)
Definition str (p : Path) : string :=
  match p with
  | [] => "."
  | r :: rest => if String.eqb r "/" then "/" +:+ Py.join "/" rest
                 else Py.join "/" p
  end.

(** [p.name] *)
Definition name (p : Path) : string :=
  match List.rev p with
  | [] => ""
  | n :: _ => if String.eqb n "/" then "" else n
  end.

(** The position of the dot that starts the suffix of a file name. *)
Definition suffix_dot (nm : string) : option nat :=
  match Py.rfind "." nm with
  | Some i => if ((0 <? i) && (i <? String.length nm - 1))%nat then Some i else None
  | None => None
  end.

(** [p.suffix] and [p.stem], by the rule of Python up to 3.13: the last dot
    starts the suffix unless it is the first or the last character. *)
Definition suffix (p : Path) : string :=
  match suffix_dot (name p) with
  | Some i => Py.drop i (name p)
  | None => ""
  end.

Definition stem (p : Path) : string :=
  match suffix_dot (name p) with
  | Some i => Py.take i (name p)
  | None => name p
  end.

(** [p.parent] *)
Definition parent (p : Path) : Path := List.removelast p.

Fixpoint strip_prefix (base p : Path) : option Path :=
  match base, p with
  | [], _ => Some p
  | b :: base', x :: p' => if String.eqb b x then strip_prefix base' p' else None
  | _ :: _, [] => None
  end.

(** [os.path.basename(s)] *)
Definition basename (s : string) : string :=
  match Py.rfind "/" s with
  | Some i => Py.drop (S i) s
  | None => s
  end.

End PathLib.

(** ** The module-level helpers of the screen *)

Definition _normalize_doc_name (filename : string) : string :=
  let base := PathLib.stem (PathLib.parse filename) in
  let base := Py.strip (Py.replace "_" " " base) in
  Py.join " " (Py.split base).

Definition _safe_folder_name (value : string) : string :=
  let safe := Py.replace "/" "_" value in
  let safe := Py.replace " " "_" safe in
  if String.eqb safe "" then "document"%string else safe.

(** ** Persistent state: file system and ledger *)

Inductive DocType := Program | Print.

Definition doc_type_str (t : DocType) : string :=
  match t with Program => "program" | Print => "print" end.

Global Instance DocType_eq_dec : EqDecision DocType.
Proof. solve_decision. Defined.

(** Row of [documents(id, line, machine, doc_type, name, created_by,
    created_at, active)]. *)
Record Document := mkDocument {
  doc_id : N;
  doc_line : string;
  doc_machine : string;
  doc_type : DocType;
  doc_name : string;
  doc_created_by : string;
  doc_created_at : N;
  doc_active : bool
}.

(** Row of [revisions(id, document_id, revision_number, stored_path,
    original_filename, content_hash, created_by, created_at, notes)]. *)
Record Revision := mkRevision {
  rev_id : N;
  document_id : N;
  revision_number : N;
  stored_path : string;
  original_filename : string;
  content_hash : string;
  rev_created_by : string;
  rev_created_at : N;
  notes : option string
}.

(** What [tkinter.messagebox] showed to the user. *)
Inductive dialog :=
| ShowInfo (title text : string)
| ShowWarning (title text : string)
| ShowError (title text : string).

Inductive exn :=
| FileNotFoundError
| FileExistsError
| NotADirectoryError
| IsADirectoryError
| SameFileError
| ValueError
| TclError
| ConflictError
| DuplicateDocumentError.

(** [type(exc).__name__] *)
Definition exn_str (e : exn) : string :=
  match e with
  | FileNotFoundError => "FileNotFoundError"
  | FileExistsError => "FileExistsError"
  | NotADirectoryError => "NotADirectoryError"
  | IsADirectoryError => "IsADirectoryError"
  | SameFileError => "SameFileError"
  | ValueError => "ValueError"
  | TclError => "TclError"
  | ConflictError => "ConflictError"
  | DuplicateDocumentError => "DuplicateDocumentError"
  end.

(** Regular files with their bytes, the directories, the two tables in
    insertion order, and the message boxes shown so far. *)
Record World := mkWorld {
  files : gmap PathLib.Path (list byte);
  dirs : gset PathLib.Path;
  documents : list Document;
  revisions : list Revision;
  dialogs : list dialog
}.

Definition set_files (f : gmap PathLib.Path (list byte)) (w : World) : World :=
  mkWorld f (dirs w) (documents w) (revisions w) (dialogs w).
Definition set_dirs (d : gset PathLib.Path) (w : World) : World :=
  mkWorld (files w) d (documents w) (revisions w) (dialogs w).
Definition set_documents (d : list Document) (w : World) : World :=
  mkWorld (files w) (dirs w) d (revisions w) (dialogs w).
Definition set_revisions (r : list Revision) (w : World) : World :=
  mkWorld (files w) (dirs w) (documents w) r (dialogs w).
Definition set_dialogs (d : list dialog) (w : World) : World :=
  mkWorld (files w) (dirs w) (documents w) (revisions w) d.

(** ** State with exceptions *)

Inductive res (A : Type) :=
| Ok (a : A) (w : World)
| Raise (e : exn) (w : World).
Arguments Ok {A} a w.
Arguments Raise {A} e w.

Definition M (A : Type) : Type := World -> res A.

Definition ret {A} (a : A) : M A := fun w => Ok a w.
Definition raise {A} (e : exn) : M A := fun w => Raise e w.
Definition bind {A B} (c : M A) (k : A -> M B) : M B :=
  fun w => match c w with
           | Ok a w' => k a w'
           | Raise e w' => Raise e w'
           end.
Definition get_world : M World := fun w => Ok w w.
Definition modify (f : World -> World) : M unit := fun w => Ok tt (f w).

(** [try: c  except Exception as exc: h exc] *)
Definition try_except {A} (c : M A) (h : exn -> M A) : M A :=
  fun w => match c w with
           | Ok a w' => Ok a w'
           | Raise e w' => h e w'
           end.

(** With these instances [x ← c; k] and [c;; k] sequence computations. *)
Global Instance M_ret : MRet M := @ret.
Global Instance M_bind : MBind M := fun A B k c => bind c k.

Fixpoint for_each {A} (xs : list A) (body : A -> M unit) : M unit :=
  match xs with
  | [] => ret tt
  | x :: xs' => body x;; for_each xs' body
  end.

(** The world a computation leaves behind, returned or raised. *)
Definition final {A} (r : res A) : World :=
  match r with Ok _ w => w | Raise _ w => w end.

(** The exception it raised, if any, and the value it returned. *)
Definition raised {A} (r : res A) : option exn :=
  match r with Ok _ _ => None | Raise e _ => Some e end.

Definition returned {A} (d : A) (r : res A) : A :=
  match r with Ok a _ => a | Raise _ _ => d end.

Definition showinfo (title text : string) : M unit :=
  modify (fun w => set_dialogs (dialogs w ++ [ShowInfo title text]) w).
Definition showwarning (title text : string) : M unit :=
  modify (fun w => set_dialogs (dialogs w ++ [ShowWarning title text]) w).
Definition showerror (title text : string) : M unit :=
  modify (fun w => set_dialogs (dialogs w ++ [ShowError title text]) w).

(** ** File-system calls

    The state keeps files and directories under their paths.  A call on a
    [Path] looks at the place its parts name; a call on a [str] walks the
    text as the system does, see [locate] below. *)

Module Fs.
Import PathLib.

Definition is_file (w : World) (p : Path) : bool :=
  bool_decide (is_Some (files w !! p)).

(** The working directory and the root always exist. *)
Definition is_dir (w : World) (p : Path) : bool :=
  bool_decide (p = []) || bool_decide (p = ["/"%string]) || bool_decide (p ∈ dirs w).

(** [Path.exists] *)
Definition exists_ (w : World) (p : Path) : bool := is_file w p || is_dir w p.

(** The non-empty prefixes of a path, shortest first. *)
Fixpoint prefixes (p : Path) : list Path :=
  match p with
  | [] => []
  | x :: p' => [x] :: List.map (cons x) (prefixes p')
  end.

(** [d.mkdir(parents=True, exist_ok=True)] *)
Definition mkdir_p (d : Path) : M unit := fun w =>
  if is_file w d then Raise FileExistsError w
  else if List.existsb (is_file w) (prefixes d) then Raise NotADirectoryError w
  else Ok tt (set_dirs (dirs w ∪ list_to_set (prefixes d)) w).

(** [shutil.copy2(src, dst)] for two paths: into [dst] when it is a
    directory, refusing to copy a file onto itself, replacing an existing
    file. *)
Definition copy2 (src dst : Path) : M unit := fun w =>
  let dst' := if is_dir w dst then dst ++ [name src] else dst in
  match files w !! src with
  | None => Raise (if is_dir w src then IsADirectoryError else FileNotFoundError) w
  | Some data =>
      if bool_decide (src = dst') then Raise SameFileError w
      else if is_dir w dst' then Raise IsADirectoryError w
      else if is_file w (parent dst') then Raise NotADirectoryError w
      else if is_dir w (parent dst') then Ok tt (set_files (<[dst' := data]> (files w)) w)
      else Raise FileNotFoundError w
  end.

(** *** Path texts

    [open] and the source of [shutil.copy2] in [_store_file] are [str]
    texts, which the system reads component by component: an empty
    component and [.] stay where they are, [..] goes to the parent, a
    name goes below; the place left must be a directory each time. *)

(** The parent: the root is its own parent, and above the working
    directory a path keeps its [..] parts. *)
Definition up (p : Path) : Path :=
  match List.rev p with
  | [] => [".."%string]
  | x :: _ => if String.eqb x "/" then p
              else if String.eqb x ".." then p ++ [".."%string]
              else List.removelast p
  end.

Definition step (cur : Path) (c : string) : Path :=
  if String.eqb c "" || String.eqb c "." then cur
  else if String.eqb c ".." then up cur
  else cur ++ [c].

Fixpoint walk (w : World) (cur : Path) (comps : list string) : exn + Path :=
  match comps with
  | [] => inr cur
  | c :: rest =>
      if is_file w cur then inl NotADirectoryError
      else if is_dir w cur then walk w (step cur c) rest
      else inl FileNotFoundError
  end.

(** The place a text names, whether or not something is there, or the
    error of the walk; the empty text names nothing. *)
Definition locate (w : World) (text : string) : exn + Path :=
  if String.eqb text "" then inl FileNotFoundError
  else walk w (if Py.starts_with "/" text then ["/"%string] else [])
              (Py.fields "/" text).

(** The bytes of the regular file a text names. *)
Definition content (w : World) (text : string) : option (list byte) :=
  match locate w text with
  | inr p => files w !! p
  | inl _ => None
  end.

(** [open(path, "rb")] followed by reads; the handle is the unread
    remainder of the file. *)
Definition open_rb (path : string) : M (list byte) := fun w =>
  match locate w path with
  | inl e => Raise e w
  | inr p =>
      match files w !! p with
      | Some data => Ok data w
      | None => Raise (if is_dir w p then IsADirectoryError else FileNotFoundError) w
      end
  end.

(** [shutil.copy2(src, dst)] for a text [src] and a path [dst]: when
    [dst] is a directory the target is [os.path.join(dst,
    os.path.basename(src))], one step from [dst]; the same-file test comes
    first, then [src] is opened, then the target. *)
Definition copy2_from (src : string) (dst : Path) : M unit := fun w =>
  let dst' := if is_dir w dst then step dst (basename src) else dst in
  match locate w src with
  | inl e => Raise e w
  | inr p =>
      if bool_decide (p = dst') && exists_ w p then Raise SameFileError w
      else
        match files w !! p with
        | None => Raise (if is_dir w p then IsADirectoryError else FileNotFoundError) w
        | Some data =>
            if is_dir w dst' then Raise IsADirectoryError w
            else if is_file w (parent dst') then Raise NotADirectoryError w
            else if is_dir w (parent dst') then
              Ok tt (set_files (<[dst' := data]> (files w)) w)
            else Raise FileNotFoundError w
        end
  end.
End Fs.

(** ** [_hash_file] *)

Definition CHUNK : nat := 1024 * 1024.

(** The loop [for chunk in iter(lambda: handle.read(size), b"")]: [fed] is
    what [digest.update] has received so far. *)
Fixpoint feed_chunks (size fuel : nat) (handle fed : list byte) : list byte :=
  match fuel with
  | O => fed
  | S fuel' =>
      match List.firstn size handle with
      | [] => fed
      | chunk => feed_chunks size fuel' (List.skipn size handle) (fed ++ chunk)
      end
  end.

Definition _hash_file (path : string) : M string :=
  handle ← Fs.open_rb path;
  ret (Sha256.hexdigest (feed_chunks CHUNK (S (length handle)) handle [])).

(** ** The ledger calls of [app.db] *)

Module Db.

Definition same_target (line machine : string) (t : DocType) (d : Document) : bool :=
  String.eqb (doc_line d) line && String.eqb (doc_machine d) machine
  && bool_decide (doc_type d = t).

Definition has_hash (w : World) (h : string) (d : Document) : bool :=
  List.existsb (fun r => N.eqb (document_id r) (doc_id d) && String.eqb (content_hash r) h)
               (revisions w).

Definition by_name (w : World) (line machine : string) (t : DocType) (nm : string)
  : option Document :=
  List.find (fun d => same_target line machine t d && String.eqb (doc_name d) nm)
            (documents w).

Definition by_hash (w : World) (line machine : string) (t : DocType) (h : string)
  : option Document :=
  List.find (fun d => same_target line machine t d && has_hash w h d) (documents w).

(** Modelled from the spec: [find_machine_document_by_name_or_hash] of
    [app/db.py], which is not among the sources.  The catalog looks up
    (a) the exact (line, machine, doc_type, normalized_name) and, if
    absent, (b) a document of (line, machine, doc_type) with the content
    hash. *)
Definition resolve (w : World) (line machine : string) (t : DocType) (nm h : string)
  : option Document :=
  match by_name w line machine t nm with
  | Some d => Some d
  | None => by_hash w line machine t h
  end.

Definition find_machine_document_by_name_or_hash
    (line machine : string) (t : DocType) (nm h : string) : M (option Document) :=
  fun w => Ok (resolve w line machine t nm h) w.

Definition max_of (ns : list N) : N := List.fold_right N.max 0%N ns.

Definition fresh_document_id (w : World) : N :=
  (max_of (List.map doc_id (documents w)) + 1)%N.

Definition fresh_revision_id (w : World) : N :=
  (max_of (List.map rev_id (revisions w)) + 1)%N.

(** Modelled from the spec: [create_machine_document] of [app/db.py].  It
    allocates a new identity, active by default, and fails if an identical
    identity already exists. *)
Definition create_machine_document
    (now : N) (line machine : string) (t : DocType) (nm user : string) : M N :=
  fun w => match by_name w line machine t nm with
           | Some _ => Raise DuplicateDocumentError w
           | None =>
               let id := fresh_document_id w in
               Ok id (set_documents
                        (documents w ++ [mkDocument id line machine t nm user now true]) w)
           end.

Definition revisions_of (w : World) (id : N) : list Revision :=
  List.filter (fun r => N.eqb (document_id r) id) (revisions w).

(** Modelled from the spec: [get_next_machine_document_revision_number] of
    [app/db.py]: one plus the maximum existing revision_number of the
    document, or 1 if none exist, computed from the ledger. *)
Definition next_revision_number (w : World) (id : N) : N :=
  match revisions_of w id with
  | [] => 1%N
  | rs => (max_of (List.map revision_number rs) + 1)%N
  end.

Definition get_next_machine_document_revision_number (id : N) : M N :=
  fun w => Ok (next_revision_number w id) w.

(** Modelled from the spec: [add_machine_document_revision] of
    [app/db.py]: a pure append that fails if revision_number is not exactly
    one greater than the current maximum. *)
Definition add_machine_document_revision
    (now : N) (id number : N) (path original hash user : string)
    (note : option string) : M N :=
  fun w => if N.eqb number (next_revision_number w id) then
             let rid := fresh_revision_id w in
             Ok rid (set_revisions
                       (revisions w ++ [mkRevision rid id number path original hash
                                                   user now note]) w)
           else Raise ConflictError w.

(** Modelled from the spec: [list_machine_document_revisions] of
    [app/db.py]: the revisions of a document, most recent first.  The
    ledger is in insertion order, so the most recent row is the last. *)
Definition list_machine_document_revisions (id : N) : M (list Revision) :=
  fun w => Ok (List.rev (revisions_of w id)) w.

Definition with_active (flag : bool) (d : Document) : Document :=
  mkDocument (doc_id d) (doc_line d) (doc_machine d) (doc_type d) (doc_name d)
             (doc_created_by d) (doc_created_at d) flag.

(** Modelled from the spec: [set_machine_document_active] of [app/db.py]:
    sets the flag of the document and touches neither revisions nor
    stored files. *)
Definition set_machine_document_active (id : N) (flag : bool) : M unit :=
  modify (fun w => set_documents
                     (List.map (fun d => if N.eqb (doc_id d) id then with_active flag d else d)
                               (documents w)) w).

End Db.

(** ** The screen *)

(** The widgets and attributes a handler reads.  [doc_tree] maps the item
    id of a row (the document id) to its first column, the document name;
    the selections are the selected item ids.  [refresh_documents] and
    [_load_document_details], which handlers call last, rebuild the widgets
    from the ledger and write neither the ledger nor the files: the widgets
    are inputs of a handler here, not part of the state. *)
Record Ui := mkUi {
  readonly : bool;
  controller_user : string;
  os_login : option string;
  line_var : string;
  machine_var : string;
  _selected_document_id : option N;
  _selected_doc_type : option DocType;
  doc_tree : list (N * string);
  doc_tree_selection : list N;
  rev_tree_selection : list N
}.

(** The arguments of a pending [add_machine_document_revision] call. *)
Record Append := mkAppend {
  ap_document_id : N;
  ap_revision_number : N;
  ap_stored_path : string;
  ap_original_filename : string;
  ap_file_hash : string;
  ap_created_by : string;
  ap_notes : option string
}.

Definition _get_username (ui : Ui) : string :=
  if negb (String.eqb (controller_user ui) "") then controller_user ui
  else match os_login ui with
       | Some u => u
       | None => "Unknown"%string
       end.

(** [self.doc_tree.item(str(id), "values")[0]]; Tk raises when there is no
    such item. *)
Definition doc_tree_name (ui : Ui) : M string :=
  match _selected_document_id ui with
  | None => raise TclError
  | Some id =>
      match List.find (fun row => N.eqb (fst row) id) (doc_tree ui) with
      | Some row => ret (snd row)
      | None => raise TclError
      end
  end.

Section Screen.

(** [DATA_DIR] of [app.config], the storage root. *)
Variable DATA_DIR : string.

(** [str(exc)], the text of an exception.  An exception is kept here by
    its class, without its arguments, so its text is left open. *)
Variable str_exc : exn -> string.

Definition _require_line_machine (ui : Ui) : M (option (string * string)) :=
  let line := Py.strip (line_var ui) in
  let machine := Py.strip (machine_var ui) in
  if String.eqb line "" || String.eqb machine "" then
    showwarning "Selection required" "Select both a line and machine first.";;
    ret None
  else ret (Some (line, machine)).

Definition target_dir_of (line machine : string) (t : DocType) (name : string)
  : PathLib.Path :=
  PathLib.div (PathLib.div (PathLib.div (PathLib.div (PathLib.div
    (PathLib.parse DATA_DIR) "storage") (_safe_folder_name line))
    (_safe_folder_name machine)) (doc_type_str t)) (_safe_folder_name name).

(** [now] is the clock reading [datetime.now()] as the number
    YYYYMMDDHHMMSS, whose decimal digits are the [strftime] text. *)
Definition _store_file (now : N) (source_path line machine : string) (t : DocType)
    (name : string) (number : N) : M string :=
  let timestamp := pretty now in
  let ext := PathLib.suffix (PathLib.parse source_path) in
  let target_dir := target_dir_of line machine t name in
  Fs.mkdir_p target_dir;;
  let target_path :=
    PathLib.div target_dir ("rev_" +:+ pretty number +:+ "_" +:+ timestamp +:+ ext) in
  Fs.copy2_from source_path target_path;;
  match PathLib.strip_prefix (PathLib.parse DATA_DIR) target_path with
  | Some rel => ret (PathLib.str rel)
  | None => raise ValueError
  end.

Definition append_revision (now : N) (a : Append) : M N :=
  Db.add_machine_document_revision now (ap_document_id a) (ap_revision_number a)
    (ap_stored_path a) (ap_original_filename a) (ap_file_hash a) (ap_created_by a)
    (ap_notes a).

Definition _save_document (now : N) (source_path line machine : string) (t : DocType)
    (user : string) : M unit :=
  let name := _normalize_doc_name (PathLib.basename source_path) in
  file_hash ← _hash_file source_path;
  existing ← Db.find_machine_document_by_name_or_hash line machine t name file_hash;
  id ← match existing with
       | Some d => ret (doc_id d)
       | None => Db.create_machine_document now line machine t name user
       end;
  number ← Db.get_next_machine_document_revision_number id;
  path ← _store_file now source_path line machine t name number;
  Db.add_machine_document_revision now id number path (PathLib.basename source_path)
    file_hash user None;;
  ret tt.

(** [_save_document] up to and including the copy, and its last call; a
    second writer of the same ledger can run between the two. *)
Definition save_until_copied (now : N) (source_path line machine : string)
    (t : DocType) (user : string) : M Append :=
  let name := _normalize_doc_name (PathLib.basename source_path) in
  file_hash ← _hash_file source_path;
  existing ← Db.find_machine_document_by_name_or_hash line machine t name file_hash;
  id ← match existing with
       | Some d => ret (doc_id d)
       | None => Db.create_machine_document now line machine t name user
       end;
  number ← Db.get_next_machine_document_revision_number id;
  path ← _store_file now source_path line machine t name number;
  ret (mkAppend id number path (PathLib.basename source_path) file_hash user None).

Definition save_append (now : N) (a : Append) : M unit :=
  append_revision now a;; ret tt.

(** [picked] is what the file dialog returned, each path with the clock
    reading at the time it is stored. *)
Definition _import_documents (ui : Ui) (t : DocType) (picked : list (string * N))
  : M unit :=
  if readonly ui then ret tt
  else
    selection ← _require_line_machine ui;
    match selection with
    | None => ret tt
    | Some (line, machine) =>
        match picked with
        | [] => ret tt
        | _ =>
            let user := _get_username ui in
            for_each picked (fun p =>
              try_except
                (_save_document (snd p) (fst p) line machine t user)
                (fun exc => showerror "Import Failed"
                   ("Failed to import " +:+ fst p +:+ String "010" (str_exc exc))))
        end
    end.

Definition _import_programs (ui : Ui) (picked : list (string * N)) : M unit :=
  _import_documents ui Program picked.

Definition _import_prints (ui : Ui) (picked : list (string * N)) : M unit :=
  _import_documents ui Print picked.

Definition _selected_revision (ui : Ui) : M (option Revision) :=
  match _selected_document_id ui with
  | None => ret None
  | Some id =>
      match rev_tree_selection ui with
      | [] => ret None
      | revision_id :: _ =>
          revs ← Db.list_machine_document_revisions id;
          ret (List.find (fun r => N.eqb (rev_id r) revision_id) revs)
      end
  end.

Definition _get_current_revision (ui : Ui) : M (option Revision) :=
  match _selected_document_id ui with
  | None => ret None
  | Some id =>
      revs ← Db.list_machine_document_revisions id;
      ret (List.head revs)
  end.

Definition _resolve_path (stored : string) : PathLib.Path :=
  PathLib.div (PathLib.parse DATA_DIR) stored.

(** [target_dir] is what the folder dialog returned, empty when the user
    cancelled. *)
Definition _export_revision (ui : Ui) (revision : Revision) (target_dir : string)
  : M unit :=
  if String.eqb target_dir "" then ret tt
  else
    let stored := _resolve_path (stored_path revision) in
    w ← get_world;
    if negb (Fs.exists_ w stored) then
      showerror "Export Failed" "Stored file not found."
    else
      let ext := PathLib.suffix stored in
      name ← doc_tree_name ui;
      let filename := name +:+ "_rev" +:+ pretty (revision_number revision) +:+ ext in
      let target_path := PathLib.div (PathLib.parse target_dir) filename in
      Fs.copy2 stored target_path;;
      showinfo "Exported" ("Exported to " +:+ PathLib.str target_path).

Definition _export_current (ui : Ui) (target_dir : string) : M unit :=
  revision ← _get_current_revision ui;
  match revision with
  | None => showinfo "Export" "Select a document first."
  | Some r => _export_revision ui r target_dir
  end.

Definition _export_selected_revision (ui : Ui) (target_dir : string) : M unit :=
  revision ← _selected_revision ui;
  match revision with
  | None => showinfo "Export" "Select a revision first."
  | Some r => _export_revision ui r target_dir
  end.

Definition _recall_selected (ui : Ui) (now : N) : M unit :=
  if readonly ui then ret tt
  else
    revision ← _selected_revision ui;
    match revision, _selected_document_id ui with
    | None, _ => showinfo "Recall" "Select a revision to recall."
    | Some _, None => ret tt
    | Some revision, Some id =>
        let stored := _resolve_path (stored_path revision) in
        w ← get_world;
        if negb (Fs.exists_ w stored) then
          showerror "Recall Failed" "Stored file not found."
        else
          line_machine ← _require_line_machine ui;
          match line_machine with
          | None => ret tt
          | Some (line, machine) =>
              name ← doc_tree_name ui;
              let user := _get_username ui in
              number ← Db.get_next_machine_document_revision_number id;
              new_path ← _store_file now (PathLib.str stored) line machine
                           (default Program (_selected_doc_type ui)) name number;
              file_hash ← _hash_file (PathLib.str stored);
              Db.add_machine_document_revision now id number new_path
                (original_filename revision) file_hash user
                (Some "Recalled previous revision"%string);;
              ret tt
          end
    end.

(** [confirm] is the answer to the yes/no box. *)
Definition _delete_document (ui : Ui) (confirm : bool) : M unit :=
  if readonly ui then ret tt
  else
    match doc_tree_selection ui with
    | [] => showinfo "Delete" "Select a document first."
    | id :: _ =>
        if negb confirm then ret tt
        else Db.set_machine_document_active id false
    end.

End Screen.

(** [MachineHistoryUI.__init__]: the attributes before the first refresh;
    [can_edit_screen] is the controller's method. *)
Definition __init__ (can_edit_screen : string -> bool) (user : string)
    (login : option string) : Ui :=
  mkUi (negb (can_edit_screen "Master Data")) user login "" "" None None [] [] [].

(** ** Sequences of user actions *)

Inductive Action :=
| ImportDocuments (ui : Ui) (t : DocType) (picked : list (string * N))
| RecallSelected (ui : Ui) (now : N)
| ExportCurrent (ui : Ui) (target_dir : string)
| ExportSelected (ui : Ui) (target_dir : string)
| DeleteDocument (ui : Ui) (confirm : bool).

Definition run (DATA_DIR : string) (str_exc : exn -> string) (w : World) (a : Action)
  : World :=
  match a with
  | ImportDocuments ui t picked => final (_import_documents DATA_DIR str_exc ui t picked w)
  | RecallSelected ui now => final (_recall_selected DATA_DIR ui now w)
  | ExportCurrent ui d => final (_export_current DATA_DIR ui d w)
  | ExportSelected ui d => final (_export_selected_revision DATA_DIR ui d w)
  | DeleteDocument ui c => final (_delete_document ui c w)
  end.

Definition run_all (DATA_DIR : string) (str_exc : exn -> string) (acts : list Action)
    (w : World) : World :=
  List.fold_left (run DATA_DIR str_exc) acts w.

(** The revision numbers of a document, in ledger order. *)
Definition numbers_of (w : World) (id : N) : list N :=
  List.map revision_number (Db.revisions_of w id).

(** [1; 2; ...; n] *)
Definition one_to (n : nat) : list N := List.map N.of_nat (List.seq 1 n).

(** Each row of [new], appended in turn to the ledger of [w], carries the
    number that [get_next_machine_document_revision_number] gives for its
    document at that moment. *)
Fixpoint numbered_next (w : World) (new : list Revision) : Prop :=
  match new with
  | [] => True
  | r :: rest =>
      revision_number r = Db.next_revision_number w (document_id r)
      /\ numbered_next (set_revisions (revisions w ++ [r]) w) rest
  end.

(** ** Name normalization as the specification words it *)

Module NameSpec.

Definition starts_space (s : string) : bool :=
  match s with
  | String c _ => Py.is_space c
  | EmptyString => false
  end.

(** Every maximal run of whitespace becomes one space. *)
Fixpoint collapse_ws (s : string) : string :=
  match s with
  | EmptyString => EmptyString
  | String c s' =>
      if Py.is_space c then
        if starts_space s' then collapse_ws s' else String " " (collapse_ws s')
      else String c (collapse_ws s')
  end.

Definition trim (s : string) : string := Py.strip s.

Definition strip_extension (filename : string) : string :=
  PathLib.stem (PathLib.parse filename).

(** Path-separator-like characters: the slash and the backslash. *)
Definition separators_to_spaces (s : string) : string :=
  Py.replace "/" " " (Py.replace "\" " " s).

(** Strip extension, replace path-separator-like characters and
    underscores with single spaces, collapse internal whitespace, trim. *)
Definition normalize_as_specified (filename : string) : string :=
  trim (collapse_ws (Py.replace "_" " " (separators_to_spaces (strip_extension filename)))).

(** The same without the replacement of separators. *)
Definition normalize_underscores_only (filename : string) : string :=
  trim (collapse_ws (Py.replace "_" " " (strip_extension filename))).

End NameSpec.

(** The row [_selected_revision] returns, as a function of the ledger. *)
Definition selected_revision_of (ui : Ui) (w : World) : option Revision :=
  match _selected_document_id ui, rev_tree_selection ui with
  | Some id, revision_id :: _ =>
      List.find (fun r => N.eqb (rev_id r) revision_id) (List.rev (Db.revisions_of w id))
  | _, _ => None
  end.

(** ** Concrete worlds *)

Module Scenario.

Definition bytes_of (s : string) : list byte := String.list_byte_of_string s.

Definition DATA : string := "/data".

Definition T0 : N := 20240101120000.
Definition T1 : N := 20240101120500.

(** Two source files named [a.txt] with different bytes, an empty ledger. *)
Definition w0 : World :=
  mkWorld (list_to_map [(PathLib.parse "/in/a.txt", bytes_of "G0 X1");
                        (PathLib.parse "/in2/a.txt", bytes_of "G0 X2")])
          (list_to_set [PathLib.parse "/in"; PathLib.parse "/in2";
                        PathLib.parse "/data"; PathLib.parse "/out"])
          [] [] [].

Definition ui_on (line : string) : Ui :=
  mkUi false "op" None line "M" None None [] [] [].

(** Document 1 of line ["L 1"] is selected, with its revision 1. *)
Definition ui_sel : Ui :=
  mkUi false "op" None "L 1" "M" (Some 1%N) (Some Program)
       [(1%N, "a"%string)] [1%N] [1%N].

Definition ui_readonly : Ui :=
  mkUi true "op" None "L 1" "M" (Some 1%N) (Some Program)
       [(1%N, "a"%string)] [1%N] [1%N].

(** [a.txt] imported for line ["L 1"], then the other [a.txt] for line
    ["L_1"] within the same second. *)
Definition w1 : World :=
  final (_import_documents DATA exn_str (ui_on "L 1") Program [("/in/a.txt"%string, T0)] w0).
Definition w2 : World :=
  final (_import_documents DATA exn_str (ui_on "L_1") Program [("/in2/a.txt"%string, T0)] w1).

(** Two sessions import [/in/a.txt] for the same target: the first has
    copied its file when the second runs from start to end. *)
Definition first_copied : res Append :=
  save_until_copied DATA T0 "/in/a.txt" "L 1" "M" Program "op" w0.
Definition first_pending : Append :=
  match first_copied with
  | Ok a _ => a
  | Raise _ _ => mkAppend 0 0 "" "" "" "" None
  end.
Definition after_second : World :=
  final (_save_document DATA T1 "/in/a.txt" "L 1" "M" Program "op" (final first_copied)).
Definition first_appends : res unit := save_append T0 first_pending after_second.

(** The document folder of ["L 1"/"M"/program/"a"] is taken by a regular
    file. *)
Definition w_blocked : World :=
  mkWorld (<[PathLib.parse "/data/storage/L_1/M/program/a" := bytes_of "x"]> (files w0))
          (dirs w0 ∪ list_to_set (Fs.prefixes (PathLib.parse "/data/storage/L_1/M/program")))
          [] [] [].

(** The bytes of the only stored revision of [w1] were changed behind
    the back of the ledger. *)
Definition stored1 : PathLib.Path :=
  PathLib.parse "/data/storage/L_1/M/program/a/rev_1_20240101120000.txt".
Definition w_tampered : World :=
  set_files (<[stored1 := bytes_of "G0 X9"]> (files w1)) w1.

Definition no_revision : Revision := mkRevision 0 0 0 "" "" "" "" 0 None.

(** The revision selected in [ui_sel]. *)
Definition selected_in (w : World) : Revision :=
  default no_revision (selected_revision_of ui_sel w).

(** The stored file of that revision is gone. *)
Definition w_lost : World := set_files (delete stored1 (files w1)) w1.

End Scenario.

(** ** Predicates used in the statements *)

Fixpoint has_char (c : ascii) (s : string) : bool :=
  match s with
  | EmptyString => false
  | String c' s' => Ascii.eqb c' c || has_char c s'
  end.

Definition is_digit (c : ascii) : bool :=
  ((48 <=? N_of_ascii c) && (N_of_ascii c <=? 57))%N.

Fixpoint all_digits (s : string) : bool :=
  match s with
  | EmptyString => true
  | String c s' => is_digit c && all_digits s'
  end.

(** A part that [pathlib] keeps as it is: no slash, neither empty nor a
    single dot. *)
Definition good_part (p : string) : bool :=
  negb (has_char "/" p) && PathLib.kept_part p.

(** The paths that [Path(...)] and [/] build. *)
Definition wf_path (p : PathLib.Path) : Prop :=
  match p with
  | [] => True
  | r :: cs => if String.eqb r "/" then Forall (fun c => good_part c = true) cs
               else Forall (fun c => good_part c = true) p
  end.

(** The file name [_store_file] gives to a revision. *)
Definition rev_file_name (number now : N) (ext : string) : string :=
  "rev_" +:+ pretty number +:+ "_" +:+ pretty now +:+ ext.

(** The folders below the storage root, as [pathlib] joins them. *)
Definition folder_parts (line machine : string) (t : DocType) (name : string)
  : list string :=
  List.filter PathLib.kept_part
    ["storage"%string; _safe_folder_name line; _safe_folder_name machine;
     doc_type_str t; _safe_folder_name name].

(** Nothing but the directories changed. *)
Definition only_dirs (w w' : World) : Prop :=
  files w' = files w /\ documents w' = documents w
  /\ revisions w' = revisions w /\ dialogs w' = dialogs w.

(** The world in which the file is stored: the document is there. *)
Definition with_document (now : N) (line machine : string) (t : DocType)
    (name user : string) (found : option Document) (w : World) : World :=
  match found with
  | Some _ => w
  | None => set_documents
              (documents w ++ [mkDocument (Db.fresh_document_id w) line machine t
                                           name user now true]) w
  end.

Definition resolved_id (found : option Document) (w : World) : N :=
  match found with
  | Some d => doc_id d
  | None => Db.fresh_document_id w
  end.

(** The files and both tables are as before. *)
Definition quiet (w w' : World) : Prop :=
  files w' = files w /\ documents w' = documents w /\ revisions w' = revisions w.

(** The revision numbers of every document are 1, 2, ..., in ledger order. *)
Definition contiguous (w : World) : Prop :=
  forall id, numbers_of w id = one_to (length (Db.revisions_of w id)).

(** The ledger of [w'] is that of [w] with rows appended, each numbered
    by [get_next_machine_document_revision_number]. *)
Definition appends (w w' : World) : Prop :=
  exists new, revisions w' = revisions w ++ new /\ numbered_next w new.

(** A document of the target that has the name or a revision with the
    hash. *)
Definition is_match (w : World) (line machine : string) (t : DocType)
    (name h : string) (d : Document) : bool :=
  Db.same_target line machine t d
  && (String.eqb (doc_name d) name || Db.has_hash w h d).

(** ** Predicates on names and on what handlers keep *)

Fixpoint has_space (s : string) : bool :=
  match s with
  | EmptyString => false
  | String c s' => Py.is_space c || has_space s'
  end.

(** A non-empty run of characters without whitespace. *)
Definition is_word (w : string) : bool :=
  negb (String.eqb w EmptyString) && negb (has_space w).

(** Nothing is taken away from [w] to [w']: every file and directory is
    still there, the ledger rows and the message boxes are as before with
    more at the end, every document row is at its place with its columns,
    and an inactive document is still inactive. *)
Definition grows (w w' : World) : Prop :=
  (forall p, is_Some (files w !! p) -> is_Some (files w' !! p))
  /\ dirs w ⊆ dirs w'
  /\ (exists new, revisions w' = revisions w ++ new)
  /\ (forall i d, documents w !! i = Some d ->
        exists d', documents w' !! i = Some d'
                   /\ Db.with_active true d' = Db.with_active true d
                   /\ (doc_active d = false -> doc_active d' = false))
  /\ (exists new, dialogs w' = dialogs w ++ new).

Definition keeps_growing {A} (c : M A) : Prop :=
  forall w, grows w (final (c w)).

(** An extension as [Path.suffix] gives it: empty, or starting with a
    character that is no digit (the dot). *)
Definition is_ext (e : string) : bool :=
  match e with
  | EmptyString => true
  | String c _ => negb (is_digit c)
  end.

(** The stored path of a row is a storage folder followed by the file
    name that carries the revision number of the row. *)
Definition numbered_path (r : Revision) : Prop :=
  exists line machine t name now ext,
    has_char "/" ext = false
    /\ stored_path r
       = PathLib.str (folder_parts line machine t name
                      ++ [rev_file_name (revision_number r) now ext]).

Definition is_import_error (d : dialog) : bool :=
  match d with
  | ShowError title _ => String.eqb title "Import Failed"
  | _ => false
  end.

(** ** Roles and login ([app/ui_login.py]) *)

Module Login.

(** [str.lower] on one character, for code points below 256. *)
Definition lower_char (c : ascii) : ascii :=
  let n := N_of_ascii c in
  if ((65 <=? n) && (n <=? 90)
      || (192 <=? n) && (n <=? 222) && negb (n =? 215))%N
  then ascii_of_N (n + 32) else c.

Fixpoint lower (s : string) : string :=
  match s with
  | EmptyString => EmptyString
  | String c s' => String (lower_char c) (lower s')
  end.

Definition ROLE_ALIASES : gmap string string :=
  list_to_map
    [("toolchanger", "Tool Changer"); ("tool changer", "Tool Changer");
     ("tool_change", "Tool Changer"); ("toolchange", "Tool Changer");
     ("leader", "Leader");
     ("quality", "Quality"); ("qc", "Quality");
     ("top", "Top (Super User)"); ("super", "Top (Super User)");
     ("top (super user)", "Top (Super User)");
     ("admin", "Admin");
     ("operator", "Operator");
     ("uide", "UIDE")]%string.

(** The key under which a role text is looked up. *)
Definition role_key (r : string) : string := Py.strip (lower (Py.strip r)).

(** [role_value] is [None] or a string. *)
Definition normalize_role (role_value : option string) : string :=
  match role_value with
  | None => EmptyString
  | Some v =>
      let r := Py.strip v in
      if String.eqb r EmptyString then EmptyString
      else default r (ROLE_ALIASES !! Py.strip (lower r))
  end.

(** The screen classes of the roles. *)
Inductive UiClass :=
| ToolChangerUI | OperatorUI | LeaderUI | QualityUI | SuperUI | AdminUI | UIDEUI.

Definition ROLE_TO_UI : gmap string UiClass :=
  list_to_map
    [("Tool Changer", ToolChangerUI); ("Operator", OperatorUI); ("Leader", LeaderUI);
     ("Quality", QualityUI); ("Top (Super User)", SuperUI); ("Admin", AdminUI);
     ("UIDE", UIDEUI)]%string.

(** [sorted(names)]: strings in code-point order. *)
Fixpoint insert_sorted (x : string) (l : list string) : list string :=
  match l with
  | [] => [x]
  | y :: l' => if String.leb x y then x :: l else y :: insert_sorted x l'
  end.

Definition sorted (l : list string) : list string :=
  List.fold_right insert_sorted [] l.

Definition valid_roles : string :=
  Py.join (String "010" "- ") (sorted (List.map fst (map_to_list ROLE_TO_UI))).

(** What the container shows. *)
Inductive Page :=
| LoginPage
| RolePage (cls : UiClass).

(** The attributes of [App] that login and routing use, the calls made to
    [log_audit] and the message boxes shown. *)
Record App := mkApp {
  user : option string;
  role : option string;
  user_line : option string;
  page : Page;
  audit : list (string * string);
  shown : list dialog
}.

Definition truthy (o : option string) : bool :=
  match o with
  | Some s => negb (String.eqb s EmptyString)
  | None => false
  end.

Definition show_login (a : App) : App :=
  mkApp (user a) (role a) (user_line a) LoginPage (audit a) (shown a).

Definition logout (a : App) : App :=
  let log := match user a with
             | Some u => if truthy (user a) then audit a ++ [(u, "Logout"%string)] else audit a
             | None => audit a
             end in
  show_login (mkApp None None None (page a) log (shown a)).

(** [App.route_role]: building the screen of the role is taken to succeed;
    [RolePage cls] records the class packed into the container. *)
Definition route_role (a : App) : App :=
  let r := normalize_role (role a) in
  match ROLE_TO_UI !! r with
  | None =>
      logout (mkApp (user a) (role a) (user_line a) (page a) (audit a)
                (shown a ++ [ShowError "Role Error"
                   ("Unknown role '" +:+ default "None"%string (role a) +:+ "'."
                    +:+ String "010" (String "010" "Valid roles:") +:+ String "010" "- "
                    +:+ valid_roles)]))
  | Some cls => mkApp (user a) (role a) (user_line a) (RolePage cls) (audit a) (shown a)
  end.

(** [App.login(username, role, line)] *)
Definition login (username : string) (role_value : option string)
    (line : option string) (a : App) : App :=
  let r := normalize_role role_value in
  let l := if truthy line then default "Both"%string line else "Both"%string in
  route_role (mkApp (Some username) (Some r) (Some l) (page a)
                (audit a ++ [(username, "Login as " +:+ r)]) (shown a)).

Definition can_edit_layout (a : App) : bool :=
  String.eqb (normalize_role (role a)) "UIDE".

Definition show_error (text : string) (a : App) : App :=
  mkApp (user a) (role a) (user_line a) (page a) (audit a)
        (shown a ++ [ShowError "Error" text]).

(** [LoginPage.check]: [u_entry] and [p_entry] are the texts of the two
    entries; [get_user] is the lookup of [app.db], a record being a
    dictionary of strings. *)
Definition check (get_user : string -> option (gmap string string))
    (u_entry p_entry : string) (a : App) : App :=
  let u := Py.strip u_entry in
  let p := p_entry in
  if String.eqb u EmptyString then show_error "Enter username." a
  else
    match get_user u with
    | None => show_error "Invalid credentials." a
    | Some rec =>
        if bool_decide (rec = ∅) then show_error "Invalid credentials." a
        else if negb (String.eqb (default EmptyString (rec !! "password"%string)) p)
        then show_error "Invalid credentials." a
        else
          let role_raw := default EmptyString (rec !! "role"%string) in
          let r := normalize_role (Some role_raw) in
          let line := default "Both"%string (rec !! "line"%string) in
          match ROLE_TO_UI !! r with
          | None =>
              mkApp (user a) (role a) (user_line a) (page a) (audit a)
                (shown a ++ [ShowError "Role Error"
                   ("User '" +:+ u +:+ "' has role '" +:+ role_raw
                    +:+ "', which is not mapped."
                    +:+ String "010" (String "010" "Fix users.json role to one of:")
                    +:+ String "010" "- " +:+ valid_roles)])
          | Some _ =>
              let a' := login u (Some r) (Some line) a in
              mkApp (user a') (role a') (user_line a') (page a') (audit a')
                (shown a' ++ [ShowInfo "Welcome"
                   ("welcome '" +:+ default u (rec !! "name"%string) +:+ "'")])
          end
    end.

End Login.

(** ** More concrete states *)

Module More.

Definition no_document : Document := mkDocument 0 "" "" Program "" "" 0 true.

(** Document 1 of [Scenario.w1], deactivated. *)
Definition w_deactivated : World :=
  final (_delete_document Scenario.ui_sel true Scenario.w1).

(** A user table with one administrator and one user with an unknown
    role. *)
Definition users (u : string) : option (gmap string string) :=
  if String.eqb u "ann" then
    Some (list_to_map [("password", "pw"); ("role", " ADMIN "); ("name", "Ann")]%string)
  else if String.eqb u "bob" then
    Some (list_to_map [("password", "pw"); ("role", "janitor")]%string)
  else None.

(** Two source files whose names normalize to [""] and ["document"]. *)
Definition w_batch : World :=
  mkWorld (list_to_map [(PathLib.parse "/in/_.txt", Scenario.bytes_of "G0 X1");
                        (PathLib.parse "/in/document.txt", Scenario.bytes_of "G0 X2")])
          (list_to_set [PathLib.parse "/in"; PathLib.parse "/data"])
          [] [] [].

Definition logged_out : Login.App := Login.mkApp None None None Login.LoginPage [] [].

End More.

(** * Properties *)

(** ** The hash agrees with the published test vectors *)

Example sha256_abc :
  Sha256.hexdigest (String.list_byte_of_string "abc")
  = "ba7816bf8f01cfea414140de5dae2223b00361a396177a9cb410ff61f20015ad".
Proof. vm_compute. reflexivity. Qed.

Example sha256_empty :
  Sha256.hexdigest []
  = "e3b0c44298fc1c149afbf4c8996fb92427ae41e4649b934ca495991b7852b855".
Proof. vm_compute. reflexivity. Qed.

(** ** Whitespace: [split], [strip] and the collapsing of runs *)

Section Whitespace.
Import Py NameSpec.

Lemma split_cons c s :
  split (String c s)
  = if is_space c then split s
    else if at_break s then String c EmptyString :: split s
    else match split s with
         | w :: ws => String c w :: ws
         | [] => [String c EmptyString]
         end.
Proof. reflexivity. Qed.

Lemma rstrip_cons c s :
  rstrip (String c s)
  = match rstrip s with
    | EmptyString => if is_space c then EmptyString else String c EmptyString
    | r => String c r
    end.
Proof. reflexivity. Qed.

Lemma split_lstrip s : split (lstrip s) = split s.
Proof.
  induction s as [|c s IH]; [reflexivity|].
  simpl lstrip. destruct (is_space c) eqn:E.
  - rewrite IH, split_cons, E. reflexivity.
  - reflexivity.
Qed.

Lemma rstrip_empty s :
  rstrip s = EmptyString -> split s = [] /\ at_break s = true.
Proof.
  induction s as [|c s IH]; [by split|].
  rewrite rstrip_cons, split_cons. destruct (rstrip s) eqn:R; [|discriminate].
  destruct (is_space c) eqn:E; [|discriminate].
  intros _. destruct IH as [Hs _]; [reflexivity|]. by split.
Qed.

Lemma rstrip_head s :
  rstrip s <> EmptyString -> at_break (rstrip s) = at_break s.
Proof.
  destruct s as [|c s]; [done|].
  rewrite rstrip_cons. destruct (rstrip s); [|reflexivity].
  destruct (is_space c) eqn:E; [done|]. reflexivity.
Qed.

Lemma split_rstrip s : split (rstrip s) = split s.
Proof.
  induction s as [|c s IH]; [reflexivity|].
  rewrite rstrip_cons. destruct (rstrip s) as [|c' r] eqn:R.
  - apply rstrip_empty in R as [Hs Hb].
    rewrite (split_cons c s), Hs, Hb.
    destruct (is_space c) eqn:E; [reflexivity|].
    rewrite split_cons, E. reflexivity.
  - assert (Hb : at_break (String c' r) = at_break s).
    { rewrite <- R. apply rstrip_head. rewrite R. discriminate. }
    rewrite (split_cons c (String c' r)), (split_cons c s), IH, Hb.
    reflexivity.
Qed.

Lemma split_strip s : split (strip s) = split s.
Proof. unfold strip. rewrite split_rstrip. apply split_lstrip. Qed.

(** The first word starts with a character that is not whitespace. *)
Lemma split_head s :
  match split s with
  | [] => True
  | w :: _ => starts_space w = false /\ w <> EmptyString
  end.
Proof.
  induction s as [|c s IH]; [exact I|].
  rewrite split_cons. destruct (is_space c) eqn:E; [exact IH|].
  destruct (at_break s); [simpl; by rewrite E|].
  destruct (split s); simpl; by rewrite E.
Qed.

Lemma join_head sep w ws :
  w <> EmptyString ->
  starts_space (join sep (w :: ws)) = starts_space w
  /\ join sep (w :: ws) <> EmptyString.
Proof.
  intros Hw. destruct w as [|c w]; [done|].
  destruct ws; simpl; by split.
Qed.

Lemma join_cons_char sep c w ws :
  join sep (String c w :: ws) = String c (join sep (w :: ws)).
Proof. destruct ws; reflexivity. Qed.

Lemma lstrip_id s : starts_space s = false -> lstrip s = s.
Proof. destruct s as [|c s]; [done|]. simpl. by intros ->. Qed.

Lemma lstrip_rstrip s : lstrip (rstrip s) = rstrip (lstrip s).
Proof.
  induction s as [|c s IH]; [reflexivity|].
  rewrite rstrip_cons. simpl lstrip at 2.
  destruct (is_space c) eqn:E.
  - rewrite <- IH. destruct (rstrip s); [reflexivity|]. simpl. by rewrite E.
  - rewrite rstrip_cons, E. destruct (rstrip s); simpl; by rewrite E.
Qed.

(** Collapsing and trimming on the right leaves the words, joined by
    single spaces, after one space if the text began with whitespace. *)
Lemma rstrip_collapse s :
  rstrip (collapse_ws s)
  = match split s with
    | [] => EmptyString
    | ws => (if starts_space s then " " else "") +:+ join " " ws
    end.
Proof.
  induction s as [|c s IH]; [reflexivity|].
  rewrite split_cons. simpl collapse_ws. simpl starts_space.
  destruct (is_space c) eqn:E.
  - destruct (starts_space s) eqn:Hs.
    + exact IH.
    + rewrite rstrip_cons, IH. pose proof (split_head s) as Hh.
      destruct (split s) as [|w ws]; [reflexivity|].
      destruct Hh as [_ Hw]. destruct (join_head " " w ws Hw) as [_ Hj].
      revert Hj. generalize (join " " (w :: ws)) as j. intros j Hj.
      destruct j; [done|reflexivity].
  - assert (Hr : rstrip (String c (collapse_ws s)) = String c (rstrip (collapse_ws s))).
    { rewrite rstrip_cons. destruct (rstrip (collapse_ws s)); by rewrite ?E. }
    rewrite Hr, IH. clear Hr IH.
    destruct s as [|c' s']; [reflexivity|].
    simpl at_break. simpl starts_space.
    destruct (is_space c') eqn:E'.
    + destruct (split (String c' s')); reflexivity.
    + destruct (split (String c' s')) as [|w ws]; [reflexivity|].
      rewrite join_cons_char. reflexivity.
Qed.

Lemma strip_collapse s : strip (collapse_ws s) = join " " (split s).
Proof.
  unfold strip. rewrite <- lstrip_rstrip, rstrip_collapse.
  pose proof (split_head s) as Hh.
  destruct (split s) as [|w ws]; [reflexivity|].
  destruct Hh as [Hsp Hw]. destruct (join_head " " w ws Hw) as [Hj _].
  rewrite Hsp in Hj.
  destruct (starts_space s); simpl String.append; [simpl lstrip|]; by apply lstrip_id.
Qed.

End Whitespace.

(** The code computes the normalization without the replacement of
    separators. *)
Lemma normalize_refines filename :
  _normalize_doc_name filename = NameSpec.normalize_underscores_only filename.
Proof.
  unfold _normalize_doc_name, NameSpec.normalize_underscores_only, NameSpec.trim,
    NameSpec.strip_extension.
  by rewrite split_strip, strip_collapse.
Qed.

(** ** Results *)

Lemma ok_eta {A} (d : A) (r : res A) :
  raised r = None -> r = Ok (returned d r) (final r).
Proof. by destruct r. Defined.

Lemma ok_eta_unit (r : res unit) : raised r = None -> r = Ok tt (final r).
Proof. by destruct r as [[] ?|]. Defined.

(** ** Characters of strings, decimal numerals *)

Lemma has_char_app c a b : has_char c (a +:+ b) = has_char c a || has_char c b.
Proof.
  induction a as [|x a IH]; [reflexivity|].
  simpl. rewrite IH. by rewrite orb_assoc.
Qed.

Lemma has_char_replace_same a b s : a <> b -> has_char a (Py.replace a b s) = false.
Proof.
  intros Hab. induction s as [|c s IH]; [reflexivity|].
  simpl. rewrite IH, orb_false_r.
  destruct (Ascii.eqb c a) eqn:E.
  - apply Ascii.eqb_neq. congruence.
  - exact E.
Qed.

Lemma has_char_replace_other c a b s :
  a <> c -> b <> c -> has_char c (Py.replace a b s) = has_char c s.
Proof.
  intros Ha Hb. induction s as [|x s IH]; [reflexivity|].
  simpl. rewrite IH. f_equal.
  destruct (Ascii.eqb x a) eqn:E; [|reflexivity].
  apply Ascii.eqb_eq in E. subst x.
  apply Ascii.eqb_neq in Ha, Hb. by rewrite Ha, Hb.
Qed.

Lemma has_char_drop c n s : has_char c s = false -> has_char c (Py.drop n s) = false.
Proof.
  revert s. induction n as [|n IH]; intros [|x s]; simpl; try done.
  intros [_ H]%orb_false_elim. by apply IH.
Qed.

Lemma append_nil_l x : "" +:+ x = x.
Proof. reflexivity. Qed.

Lemma append_cons c a x : String c a +:+ x = String c (a +:+ x).
Proof. reflexivity. Qed.

Lemma append_inv_head a x y : a +:+ x = a +:+ y -> x = y.
Proof.
  induction a as [|c a IH]; [done|]. simpl. intros H. apply IH. by injection H.
Qed.

Lemma all_digits_no_char c s : is_digit c = false -> all_digits s = true -> has_char c s = false.
Proof.
  intros Hc. induction s as [|x s IH]; [done|].
  simpl. intros [Hx Hs]%andb_true_iff. rewrite (IH Hs), orb_false_r.
  destruct (Ascii.eqb x c) eqn:E; [|done].
  apply Ascii.eqb_eq in E. congruence.
Qed.

(** Two numerals followed by an underscore: the numerals are equal. *)
Lemma digits_then_underscore d1 d2 r1 r2 :
  all_digits d1 = true -> all_digits d2 = true ->
  d1 +:+ String "_" r1 = d2 +:+ String "_" r2 -> d1 = d2.
Proof.
  revert d2. induction d1 as [|c d1 IH]; intros [|c' d2]; simpl.
  - done.
  - intros _ [Hc _]%andb_true_iff H. injection H as <- _. discriminate Hc.
  - intros [Hc _]%andb_true_iff _ H. injection H as -> _. discriminate Hc.
  - intros [_ H1]%andb_true_iff [_ H2]%andb_true_iff H. injection H as -> H.
    f_equal. by apply IH.
Qed.

Lemma pretty_N_char_digit x : is_digit (pretty_N_char x) = true.
Proof. unfold pretty_N_char. by repeat case_match. Qed.

Lemma pretty_N_go_digits x : forall s, all_digits s = true -> all_digits (pretty_N_go x s) = true.
Proof.
  induction (N.lt_wf_0 x) as [x _ IH]. intros s Hs.
  destruct (decide (x = 0%N)) as [->|Hx].
  - by rewrite pretty_N_go_0.
  - rewrite pretty_N_go_step by lia. apply IH.
    + apply N.div_lt; lia.
    + simpl. by rewrite pretty_N_char_digit.
Qed.

Lemma pretty_N_digits (n : N) : all_digits (pretty n) = true.
Proof.
  unfold pretty, pretty_N. case_decide; [reflexivity|].
  by apply pretty_N_go_digits.
Qed.

Lemma rev_file_name_inj n1 t1 e1 n2 t2 e2 :
  rev_file_name n1 t1 e1 = rev_file_name n2 t2 e2 -> n1 = n2.
Proof.
  unfold rev_file_name. intros H.
  apply (append_inv_head "rev_") in H.
  apply (inj pretty).
  eapply digits_then_underscore; [apply pretty_N_digits..|exact H].
Qed.

Lemma rev_file_name_good number now ext :
  has_char "/" ext = false -> good_part (rev_file_name number now ext) = true.
Proof.
  intros He. unfold good_part, rev_file_name.
  rewrite !has_char_app, He.
  rewrite !(all_digits_no_char "/" _ eq_refl (pretty_N_digits _)).
  reflexivity.
Qed.

(** ** Paths *)

Section Paths.
Import PathLib.

Lemma fields_cons sep c s :
  Py.fields sep (String c s)
  = if Ascii.eqb c sep then EmptyString :: Py.fields sep s
    else match Py.fields sep s with
         | f :: fs => String c f :: fs
         | [] => [String c EmptyString]
         end.
Proof. reflexivity. Qed.

Lemma fields_no_sep sep s : has_char sep s = false -> Py.fields sep s = [s].
Proof.
  induction s as [|c s IH]; [done|].
  simpl has_char. intros [Hc Hs]%orb_false_elim.
  by rewrite fields_cons, Hc, (IH Hs).
Qed.

Lemma fields_parts sep s : Forall (fun f => has_char sep f = false) (Py.fields sep s).
Proof.
  induction s as [|c s IH]; [by repeat constructor|].
  rewrite fields_cons. destruct (Ascii.eqb c sep) eqn:E.
  - by constructor.
  - destruct (Py.fields sep s) as [|f fs].
    + repeat constructor. simpl. by rewrite E.
    + inversion IH; subst. constructor; [|done]. simpl. by rewrite E.
Qed.

(** A field, a separator, and the rest. *)
Lemma fields_app_sep sep f s :
  has_char sep f = false ->
  Py.fields sep (f +:+ String sep s) = f :: Py.fields sep s.
Proof.
  induction f as [|c f IH]; simpl has_char.
  - intros _. by rewrite append_nil_l, fields_cons, Ascii.eqb_refl.
  - intros [Hc Hf]%orb_false_elim.
    by rewrite append_cons, fields_cons, Hc, (IH Hf).
Qed.

Lemma kept_parts_good s :
  Forall (fun c => good_part c = true) (List.filter kept_part (Py.fields "/" s)).
Proof.
  apply List.Forall_forall. intros c [Hin Hk]%List.filter_In.
  pose proof (fields_parts "/" s) as Hf.
  rewrite List.Forall_forall in Hf. unfold good_part. by rewrite (Hf c Hin), Hk.
Qed.

Lemma good_part_not_root c : good_part c = true -> String.eqb c "/" = false.
Proof.
  intros H. destruct (String.eqb c "/") eqn:E; [|done].
  apply String.eqb_eq in E. by subst c.
Qed.

Lemma good_parts_wf cs : Forall (fun c => good_part c = true) cs -> wf_path cs.
Proof.
  destruct cs as [|r cs]; [done|]. intros H. simpl.
  inversion H; subst. by rewrite good_part_not_root.
Qed.

Lemma wf_path_app p cs :
  wf_path p -> Forall (fun c => good_part c = true) cs -> wf_path (p ++ cs).
Proof.
  destruct p as [|r p]; [intros _; apply good_parts_wf|].
  simpl. destruct (String.eqb r "/"); intros Hp Hcs.
  - by apply Forall_app.
  - by apply (Forall_app _ (r :: p) cs).
Qed.

Lemma parse_wf s : wf_path (parse s).
Proof.
  unfold parse. destruct (Py.starts_with "/" s).
  - simpl. apply kept_parts_good.
  - apply good_parts_wf, kept_parts_good.
Qed.

Lemma div_wf p s : wf_path p -> wf_path (div p s).
Proof.
  intros Hp. unfold div. destruct (Py.starts_with "/" s).
  - apply parse_wf.
  - apply wf_path_app; [done|apply kept_parts_good].
Qed.

(** A part without slash is appended as it is, unless it is dropped. *)
Lemma div_part p s :
  has_char "/" s = false -> div p s = p ++ List.filter kept_part [s].
Proof.
  intros Hs. unfold div.
  assert (Py.starts_with "/" s = false) as ->.
  { destruct s as [|c s]; [done|]. simpl in *. by apply orb_false_elim in Hs as [-> _]. }
  by rewrite fields_no_sep.
Qed.

Lemma div_good_part p s : good_part s = true -> div p s = p ++ [s].
Proof.
  intros [Hs Hk]%andb_true_iff. apply negb_true_iff in Hs.
  rewrite div_part by done. simpl. by rewrite Hk.
Qed.

Lemma strip_prefix_app base rest : strip_prefix base (base ++ rest) = Some rest.
Proof.
  induction base as [|b base IH]; [by destruct rest|].
  simpl. by rewrite String.eqb_refl.
Qed.

Lemma join_cons2 sep p q rest :
  Py.join sep (p :: q :: rest) = p +:+ sep +:+ Py.join sep (q :: rest).
Proof. reflexivity. Qed.

Lemma join_app_last_inj sep ps f1 f2 :
  Py.join sep (ps ++ [f1]) = Py.join sep (ps ++ [f2]) -> f1 = f2.
Proof.
  induction ps as [|p ps IH]; [done|].
  destruct ps as [|q ps].
  - simpl. intros H. by do 2 apply append_inv_head in H.
  - simpl app in *. rewrite !join_cons2. intros H.
    do 2 apply append_inv_head in H. by apply IH.
Qed.

(** Reading back the text of a path. *)
Lemma fields_join cs :
  Forall (fun c => good_part c = true) cs ->
  List.filter kept_part (Py.fields "/" (Py.join "/" cs)) = cs.
Proof.
  induction cs as [|c cs IH]; [done|].
  intros H. inversion H as [|? ? Hc Hcs]; subst.
  apply andb_true_iff in Hc as [Hs Hk]. apply negb_true_iff in Hs.
  destruct cs as [|c' cs].
  - simpl Py.join. rewrite fields_no_sep by done. simpl. by rewrite Hk.
  - rewrite join_cons2.
    change ("/" +:+ Py.join "/" (c' :: cs)) with (String "/" (Py.join "/" (c' :: cs))).
    rewrite fields_app_sep by done. simpl List.filter at 1.
    rewrite Hk. f_equal. by apply IH.
Qed.

Lemma join_starts cs :
  Forall (fun c => good_part c = true) cs -> Py.starts_with "/" (Py.join "/" cs) = false.
Proof.
  destruct cs as [|c cs]; [done|]. intros H. inversion H as [|? ? Hc _]; subst.
  apply andb_true_iff in Hc as [Hs Hk]. apply negb_true_iff in Hs.
  destruct c as [|x c]; [done|].
  simpl in Hs. apply orb_false_elim in Hs as [Hx _].
  destruct cs; simpl; exact Hx.
Qed.

Lemma parse_str p : wf_path p -> parse (str p) = p.
Proof.
  destruct p as [|r cs]; [done|].
  unfold wf_path, str. destruct (String.eqb r "/") eqn:E; intros H.
  - apply String.eqb_eq in E. subst r. unfold parse.
    change (Py.starts_with "/" ("/" +:+ Py.join "/" cs)) with true.
    change (Py.fields "/" ("/" +:+ Py.join "/" cs))
      with (EmptyString :: Py.fields "/" (Py.join "/" cs)).
    simpl. by rewrite fields_join.
  - unfold parse. by rewrite join_starts, fields_join.
Qed.

End Paths.

(** ** File names and the storage folder *)

Section StoragePaths.
Import PathLib.

Lemma name_no_slash p : wf_path p -> has_char "/" (name p) = false.
Proof.
  intros Hp. unfold name. destruct (List.rev p) as [|n rest] eqn:R; [done|].
  destruct (String.eqb n "/") eqn:E; [done|].
  assert (Hin : List.In n p).
  { apply List.in_rev. rewrite R. by left. }
  destruct p as [|r cs]; [done|]. unfold wf_path in Hp.
  assert (Hg : good_part n = true).
  { destruct (String.eqb r "/") eqn:Er.
    - destruct Hin as [->|Hin]; [congruence|].
      rewrite List.Forall_forall in Hp. by apply Hp.
    - rewrite List.Forall_forall in Hp. by apply Hp. }
  by apply andb_true_iff in Hg as [?%negb_true_iff _].
Qed.

Lemma suffix_no_slash p : wf_path p -> has_char "/" (suffix p) = false.
Proof.
  intros Hp. unfold suffix. destruct (suffix_dot (name p)); [|done].
  by apply has_char_drop, name_no_slash.
Qed.

Lemma safe_folder_name_no_slash v : has_char "/" (_safe_folder_name v) = false.
Proof.
  unfold _safe_folder_name. case_match; [done|].
  rewrite has_char_replace_other by done. by apply has_char_replace_same.
Qed.

Lemma doc_type_str_no_slash t : has_char "/" (doc_type_str t) = false.
Proof. by destruct t. Qed.

Lemma target_dir_of_parts DATA_DIR line machine t name :
  target_dir_of DATA_DIR line machine t name
  = parse DATA_DIR ++ folder_parts line machine t name.
Proof.
  unfold target_dir_of, folder_parts.
  rewrite !div_part by (done || apply safe_folder_name_no_slash || apply doc_type_str_no_slash).
  rewrite <- !app_assoc. f_equal.
  change (List.filter kept_part ["storage"%string]) with ["storage"%string].
  simpl. by repeat case_match.
Qed.

Lemma folder_parts_head line machine t name :
  exists rest, folder_parts line machine t name = "storage"%string :: rest.
Proof. unfold folder_parts. simpl. eauto. Qed.

End StoragePaths.

(** ** What each call does to the state *)

Section Calls.
Import PathLib.

Lemma only_dirs_refl w : only_dirs w w.
Proof. by repeat split. Qed.

Lemma mkdir_p_cases d w :
  (exists e, Fs.mkdir_p d w = Raise e w)
  \/ Fs.mkdir_p d w = Ok tt (set_dirs (dirs w ∪ list_to_set (Fs.prefixes d)) w).
Proof. unfold Fs.mkdir_p. repeat case_match; eauto. Qed.

Lemma copy2_cases src dst w :
  (exists e, Fs.copy2 src dst w = Raise e w)
  \/ exists data,
       let dst' := if Fs.is_dir w dst then dst ++ [name src] else dst in
       files w !! src = Some data /\ src <> dst'
       /\ Fs.copy2 src dst w = Ok tt (set_files (<[dst' := data]> (files w)) w).
Proof.
  unfold Fs.copy2. destruct (files w !! src) as [data|]; [|eauto].
  case_bool_decide as Hne; [eauto|].
  repeat case_match; eauto.
Qed.

Lemma feed_chunks_step size fuel handle fed :
  feed_chunks size (S fuel) handle fed
  = match List.firstn size handle with
    | [] => fed
    | chunk => feed_chunks size fuel (List.skipn size handle) (fed ++ chunk)
    end.
Proof. reflexivity. Qed.

Lemma feed_chunks_all size : forall fuel handle fed,
  (0 < size)%nat -> (length handle < fuel)%nat ->
  feed_chunks size fuel handle fed = fed ++ handle.
Proof.
  induction fuel as [|fuel IH]; intros handle fed Hsize Hlen; [lia|].
  rewrite feed_chunks_step. destruct handle as [|b handle].
  - rewrite List.firstn_nil. by rewrite app_nil_r.
  - destruct size as [|size]; [lia|].
    change (List.firstn (S size) (b :: handle)) with (b :: List.firstn size handle).
    cbv beta iota. rewrite IH.
    + rewrite <- app_assoc. f_equal.
      apply (List.firstn_skipn (S size) (b :: handle)).
    + lia.
    + rewrite List.length_skipn. simpl in *. lia.
Qed.

Lemma CHUNK_pos : (0 < CHUNK)%nat.
Proof. apply Nat.ltb_lt. vm_compute. reflexivity. Qed.

(** Reading a text: an error and nothing read, or the bytes of the file
    at the place the text names. *)
Lemma open_rb_cases path w :
  (exists e, Fs.open_rb path w = Raise e w /\ Fs.content w path = None)
  \/ (exists p data,
        Fs.locate w path = inr p /\ files w !! p = Some data
        /\ Fs.content w path = Some data /\ Fs.open_rb path w = Ok data w).
Proof.
  unfold Fs.open_rb, Fs.content. destruct (Fs.locate w path) as [e|p]; [eauto|].
  destruct (files w !! p) as [data|] eqn:Hp; [|eauto].
  right. by exists p, data.
Qed.

Lemma hash_file_eq path w :
  _hash_file path w
  = match Fs.open_rb path w with
    | Ok data w' => Ok (Sha256.hexdigest data) w'
    | Raise e w' => Raise e w'
    end.
Proof.
  unfold _hash_file, mbind, M_bind, bind, ret.
  destruct (Fs.open_rb path w) as [data w'|]; [|done].
  by rewrite feed_chunks_all by (apply CHUNK_pos || lia).
Qed.

Lemma hash_file_content path w data :
  Fs.content w path = Some data -> _hash_file path w = Ok (Sha256.hexdigest data) w.
Proof.
  intros Hc. rewrite hash_file_eq.
  destruct (open_rb_cases path w) as [(e & _ & He)|(p & d & _ & _ & Hd & ->)]; congruence.
Qed.

(** A walk that succeeds does so again where the directories it went
    through are still directories. *)
Lemma walk_keeps w w' : forall comps cur p,
  (forall q, Fs.is_file w q = false -> Fs.is_dir w q = true ->
             Fs.is_file w' q = false /\ Fs.is_dir w' q = true) ->
  Fs.walk w cur comps = inr p -> Fs.walk w' cur comps = inr p.
Proof.
  induction comps as [|c rest IH]; intros cur p H; [done|]. simpl.
  destruct (Fs.is_file w cur) eqn:Hf; [done|].
  destruct (Fs.is_dir w cur) eqn:Hd; [|done].
  destruct (H cur Hf Hd) as [-> ->]. by apply IH.
Qed.

Lemma locate_keeps w w' text p :
  (forall q, Fs.is_file w q = false -> Fs.is_dir w q = true ->
             Fs.is_file w' q = false /\ Fs.is_dir w' q = true) ->
  Fs.locate w text = inr p -> Fs.locate w' text = inr p.
Proof.
  unfold Fs.locate. intros H. destruct (String.eqb text ""); [done|].
  by apply walk_keeps.
Qed.

Lemma is_dir_mono w w' q : dirs w ⊆ dirs w' -> Fs.is_dir w q = true -> Fs.is_dir w' q = true.
Proof.
  unfold Fs.is_dir. intros Hsub.
  destruct (bool_decide (q = [])); [done|].
  destruct (bool_decide (q = ["/"%string])); [done|]. cbn [orb].
  intros H%bool_decide_eq_true. apply bool_decide_eq_true. by apply Hsub.
Qed.

(** More directories, the same files. *)
Lemma locate_more_dirs w w' text p :
  files w' = files w -> dirs w ⊆ dirs w' ->
  Fs.locate w text = inr p -> Fs.locate w' text = inr p.
Proof.
  intros Hf Hd. apply locate_keeps. intros q Hq Hdq. split.
  - unfold Fs.is_file in *. by rewrite Hf.
  - by apply (is_dir_mono w).
Qed.

(** One more file, at a place that is no directory, the tables and boxes
    whatever they are. *)
Lemma locate_more_file w w' text p dst data :
  files w' = <[dst := data]> (files w) -> dirs w' = dirs w ->
  Fs.is_dir w dst = false ->
  Fs.locate w text = inr p -> Fs.locate w' text = inr p.
Proof.
  intros Hf Hd Hdst. apply locate_keeps. intros q Hq Hdq. split.
  - unfold Fs.is_file in *. rewrite Hf.
    rewrite lookup_insert_ne; [done|]. intros ->. congruence.
  - unfold Fs.is_dir in *. by rewrite Hd.
Qed.

Lemma walk_cons w cur c rest :
  Fs.walk w cur (c :: rest)
  = if Fs.is_file w cur then inl NotADirectoryError
    else if Fs.is_dir w cur then Fs.walk w (Fs.step cur c) rest
    else inl FileNotFoundError.
Proof. reflexivity. Qed.

Lemma walk_ext w w' : forall comps cur,
  files w' = files w -> dirs w' = dirs w -> Fs.walk w' cur comps = Fs.walk w cur comps.
Proof.
  intros comps cur Hf Hd. revert cur. induction comps as [|c rest IH]; intros cur; [done|].
  rewrite !walk_cons, IH. unfold Fs.is_file, Fs.is_dir. by rewrite Hf, Hd.
Qed.

Lemma locate_ext w w' text :
  files w' = files w -> dirs w' = dirs w -> Fs.locate w' text = Fs.locate w text.
Proof. intros Hf Hd. unfold Fs.locate. by rewrite (walk_ext w w'). Qed.

Lemma fields_join_good cs :
  cs <> [] -> Forall (fun c => good_part c = true) cs ->
  Py.fields "/" (Py.join "/" cs) = cs.
Proof.
  induction cs as [|c cs IH]; [done|]. intros _ Hcs.
  apply Forall_cons_1 in Hcs as [Hc Hcs].
  assert (Hs : has_char "/" c = false).
  { unfold good_part in Hc. apply andb_true_iff in Hc as [Hc _]. by apply negb_true_iff. }
  destruct cs as [|c' cs].
  - simpl. by apply fields_no_sep.
  - rewrite join_cons2. change ("/" +:+ Py.join "/" (c' :: cs))
      with (String "/" (Py.join "/" (c' :: cs))).
    rewrite fields_app_sep by done. by rewrite IH.
Qed.

(** Names are walked one below the other. *)
Lemma walk_names w : forall cs cur p,
  Forall (fun c => good_part c = true /\ c <> ".."%string) cs ->
  Fs.walk w cur cs = inr p -> p = cur ++ cs.
Proof.
  induction cs as [|c cs IH]; intros cur p Hcs; simpl.
  - intros [= <-]. by rewrite app_nil_r.
  - apply Forall_cons_1 in Hcs as [[Hc Hdd] Hcs].
    destruct (Fs.is_file w cur); [done|]. destruct (Fs.is_dir w cur); [|done].
    assert (Hstep : Fs.step cur c = cur ++ [c]).
    { unfold Fs.step. unfold good_part, kept_part in Hc.
      apply andb_true_iff in Hc as [_ Hc]. apply negb_true_iff in Hc. rewrite Hc.
      by destruct (String.eqb_spec c ".."). }
    rewrite Hstep. intros H. apply IH in H; [|done]. by rewrite H, <- app_assoc.
Qed.

(** The text of a path without [..] leads to the path itself. *)
Lemma locate_str w p q :
  wf_path p -> Forall (fun c => c <> ".."%string) p ->
  Fs.locate w (str p) = inr q -> q = p.
Proof.
  intros Hwf Hdd. unfold Fs.locate.
  destruct (String.eqb (str p) ""); [done|].
  destruct p as [|r cs].
  - change (Fs.walk w [] ["."%string] = inr q -> q = []).
    rewrite walk_cons. destruct (Fs.is_file w []); [done|].
    destruct (Fs.is_dir w []); [|done]. by intros [= <-].
  - assert (Hboth : forall xs, Forall (fun c => good_part c = true) xs ->
                      Forall (fun c => c <> ".."%string) xs ->
                      Forall (fun c => good_part c = true /\ c <> ".."%string) xs).
    { intros xs H1 H2. apply List.Forall_forall. intros c Hc.
      rewrite List.Forall_forall in H1, H2. auto. }
    simpl in Hwf. unfold str. destruct (String.eqb r "/") eqn:E.
    + apply String.eqb_eq in E. subst r. apply Forall_cons_1 in Hdd as [_ Hdd].
      change (Py.starts_with "/" ("/" +:+ Py.join "/" cs)) with true. cbv iota.
      change ("/" +:+ Py.join "/" cs) with (String "/" (Py.join "/" cs)).
      rewrite fields_cons. change (Ascii.eqb "/" "/") with true. cbv iota.
      rewrite walk_cons.
      destruct (Fs.is_file w ["/"%string]) eqn:Hf; [done|].
      destruct (Fs.is_dir w ["/"%string]) eqn:Hd; [|done].
      change (Fs.step ["/"%string] "") with ["/"%string].
      destruct cs as [|c cs].
      * change (Py.fields "/" (Py.join "/" [])) with [""%string].
        rewrite walk_cons, Hf, Hd. by intros [= <-].
      * rewrite fields_join_good by done. intros H.
        by apply walk_names in H; [|apply Hboth].
    + rewrite join_starts by done. rewrite fields_join_good by done.
      intros H. by apply walk_names in H; [|apply Hboth].
Qed.

Lemma walk_no_dotdot w : forall cs cur p,
  Forall (fun c => c <> ".."%string) cs ->
  Fs.walk w cur cs = inr p -> p = cur ++ List.filter kept_part cs.
Proof.
  induction cs as [|c cs IH]; intros cur p Hcs.
  - intros [= <-]. by rewrite app_nil_r.
  - apply Forall_cons_1 in Hcs as [Hc Hcs]. rewrite walk_cons.
    destruct (Fs.is_file w cur); [done|]. destruct (Fs.is_dir w cur); [|done].
    intros H. apply IH in H; [|done]. rewrite H. cbn [List.filter].
    unfold Fs.step, kept_part.
    destruct (String.eqb c "" || String.eqb c "."); cbn [negb]; [done|].
    destruct (String.eqb_spec c ".."); [done|]. by rewrite <- app_assoc.
Qed.

(** A text without a [..] component leads to the path [pathlib] reads
    in it. *)
Lemma locate_parse w text p :
  Forall (fun c => c <> ".."%string) (Py.fields "/" text) ->
  Fs.locate w text = inr p -> p = parse text.
Proof.
  intros Hdd. unfold Fs.locate, parse. destruct (String.eqb text ""); [done|].
  intros H. by apply walk_no_dotdot in H.
Qed.

Lemma copy2_from_cases src dst w :
  (exists e, Fs.copy2_from src dst w = Raise e w)
  \/ exists p data,
       let dst' := if Fs.is_dir w dst then Fs.step dst (basename src) else dst in
       Fs.locate w src = inr p /\ files w !! p = Some data /\ p <> dst'
       /\ Fs.is_dir w dst' = false
       /\ Fs.copy2_from src dst w = Ok tt (set_files (<[dst' := data]> (files w)) w).
Proof.
  unfold Fs.copy2_from. destruct (Fs.locate w src) as [e|p]; [eauto|].
  set (dst' := if Fs.is_dir w dst then Fs.step dst (basename src) else dst).
  destruct (bool_decide (p = dst') && Fs.exists_ w p) eqn:Hsame; [eauto|].
  destruct (files w !! p) as [data|] eqn:Hp; [|eauto].
  destruct (Fs.is_dir w dst') eqn:Hd; [eauto|].
  destruct (Fs.is_file w (parent dst')); [eauto|].
  destruct (Fs.is_dir w (parent dst')); [|eauto].
  right. exists p, data. repeat split; try done.
  intros ->. apply andb_false_iff in Hsame as [H|H].
  - by apply bool_decide_eq_false in H.
  - unfold Fs.exists_, Fs.is_file in H. rewrite Hp in H.
    rewrite bool_decide_eq_true_2 in H by eauto. done.
Qed.

Lemma next_revision_number_ext w w' id :
  revisions w' = revisions w ->
  Db.next_revision_number w' id = Db.next_revision_number w id.
Proof. unfold Db.next_revision_number, Db.revisions_of. by intros ->. Qed.

Variable DATA_DIR : string.

(** [_store_file] makes the folder, copies, and returns the relative
    path; the ledger is not touched. *)
Lemma store_file_eq now src line machine t name number w :
  let dir := parse DATA_DIR ++ folder_parts line machine t name in
  let fname := rev_file_name number now (suffix (parse src)) in
  _store_file DATA_DIR now src line machine t name number w
  = match Fs.mkdir_p dir w with
    | Raise e w' => Raise e w'
    | Ok _ w1 =>
        match Fs.copy2_from src (dir ++ [fname]) w1 with
        | Raise e w' => Raise e w'
        | Ok _ w2 => Ok (str (folder_parts line machine t name ++ [fname])) w2
        end
    end.
Proof.
  intros dir fname. unfold _store_file, mbind, M_bind, bind.
  rewrite target_dir_of_parts. fold dir.
  destruct (Fs.mkdir_p dir w) as [[] w1|e w1]; [|done].
  fold (rev_file_name number now (suffix (parse src))). fold fname.
  assert (Hg : good_part fname = true)
    by apply rev_file_name_good, suffix_no_slash, parse_wf.
  rewrite (div_good_part _ _ Hg).
  destruct (Fs.copy2_from src (dir ++ [fname]) w1) as [[] w2|e w2]; [|done].
  unfold dir. by rewrite <- app_assoc, strip_prefix_app.
Qed.

(** [_store_file] raises with the files as they were, or has copied the
    bytes of the file that [src] names, once the folder is there, to a
    place that was no directory. *)
Lemma store_file_cases now src line machine t name number w :
  let r := _store_file DATA_DIR now src line machine t name number w in
  (exists e w', r = Raise e w' /\ only_dirs w w' /\ dirs w ⊆ dirs w')
  \/ (exists p data dst w1,
        only_dirs w w1 /\ dirs w ⊆ dirs w1
        /\ Fs.locate w1 src = inr p /\ files w !! p = Some data /\ p <> dst
        /\ Fs.is_dir w1 dst = false
        /\ r = Ok (str (folder_parts line machine t name
                        ++ [rev_file_name number now (suffix (parse src))]))
                  (set_files (<[dst := data]> (files w)) w1)).
Proof.
  intros r. unfold r. rewrite store_file_eq.
  destruct (mkdir_p_cases (parse DATA_DIR ++ folder_parts line machine t name) w)
    as [[e ->]| ->].
  { left. exists e, w. split; [done|]. split; [apply only_dirs_refl|done]. }
  set (w1 := set_dirs _ w).
  assert (H1 : only_dirs w w1) by (by repeat split).
  assert (H2 : dirs w ⊆ dirs w1) by (unfold w1; cbn; set_solver).
  match goal with |- context [Fs.copy2_from ?s ?d w1] =>
    destruct (copy2_from_cases s d w1) as [[e ->]|(p & data & Hloc & Hsrc & Hne & Hd & ->)] end.
  { left. by exists e, w1. }
  right. eexists p, data, _, w1. by repeat split.
Qed.

End Calls.

(** ** Import, step by step *)

Section ImportSteps.
Import PathLib.
Variable DATA_DIR : string.

Lemma save_document_split now src line machine t user w :
  _save_document DATA_DIR now src line machine t user w
  = match save_until_copied DATA_DIR now src line machine t user w with
    | Ok a w' => save_append now a w'
    | Raise e w' => Raise e w'
    end.
Proof.
  unfold _save_document, save_until_copied, save_append, append_revision,
    mbind, M_bind, bind, ret.
  destruct (_hash_file src w) as [h w1|]; [|done].
  destruct (Db.find_machine_document_by_name_or_hash _ _ _ _ _ w1) as [found w2|]; [|done].
  destruct found as [d|].
  - destruct (Db.get_next_machine_document_revision_number (doc_id d) w2)
      as [number w4|]; [|done].
    by destruct (_store_file _ _ _ _ _ _ _ _ w4).
  - destruct (Db.create_machine_document now line machine t _ user w2) as [id w3|]; [|done].
    destruct (Db.get_next_machine_document_revision_number id w3) as [number w4|]; [|done].
    by destruct (_store_file _ _ _ _ _ _ _ _ w4).
Qed.

Lemma save_until_copied_eq now src line machine t user w :
  let name := _normalize_doc_name (basename src) in
  save_until_copied DATA_DIR now src line machine t user w
  = match Fs.open_rb src w with
    | Raise e w' => Raise e w'
    | Ok data _ =>
        let h := Sha256.hexdigest data in
        let found := Db.resolve w line machine t name h in
        let id := resolved_id found w in
        let number := Db.next_revision_number w id in
        match _store_file DATA_DIR now src line machine t name number
                (with_document now line machine t name user found w) with
        | Raise e w' => Raise e w'
        | Ok path w' => Ok (mkAppend id number path (basename src) h user None) w'
        end
    end.
Proof.
  intros name. unfold save_until_copied, mbind, M_bind, bind. fold name.
  rewrite hash_file_eq.
  destruct (open_rb_cases src w) as [(e & -> & _)|(p & data & _ & _ & _ & ->)]; [done|].
  unfold Db.find_machine_document_by_name_or_hash.
  destruct (Db.resolve w line machine t name (Sha256.hexdigest data)) as [d|] eqn:R.
  - reflexivity.
  - unfold Db.create_machine_document, with_document, resolved_id.
    assert (Db.by_name w line machine t name = None) as ->.
    { unfold Db.resolve in R. by destruct (Db.by_name w line machine t name). }
    reflexivity.
Qed.

Lemma save_append_eq now a w :
  save_append now a w
  = if N.eqb (ap_revision_number a) (Db.next_revision_number w (ap_document_id a))
    then Ok tt (set_revisions
                  (revisions w ++ [mkRevision (Db.fresh_revision_id w) (ap_document_id a)
                                     (ap_revision_number a) (ap_stored_path a)
                                     (ap_original_filename a) (ap_file_hash a)
                                     (ap_created_by a) now (ap_notes a)]) w)
    else Raise ConflictError w.
Proof.
  unfold save_append, append_revision, Db.add_machine_document_revision,
    mbind, M_bind, bind, ret.
  by destruct (N.eqb _ _).
Qed.

Lemma with_document_revisions now line machine t name user found w :
  revisions (with_document now line machine t name user found w) = revisions w
  /\ files (with_document now line machine t name user found w) = files w
  /\ dialogs (with_document now line machine t name user found w) = dialogs w.
Proof. by destruct found. Qed.

(** Every outcome of [_save_document] up to the copy. *)
Lemma save_until_copied_cases now src line machine t user w :
  let name := _normalize_doc_name (basename src) in
  let r := save_until_copied DATA_DIR now src line machine t user w in
  match Fs.content w src with
  | None => exists e, r = Raise e w
  | Some data =>
      let h := Sha256.hexdigest data in
      let found := Db.resolve w line machine t name h in
      let id := resolved_id found w in
      let number := Db.next_revision_number w id in
      let w1 := with_document now line machine t name user found w in
      (exists e w', r = Raise e w' /\ only_dirs w1 w' /\ dirs w ⊆ dirs w')
      \/ (exists p dst w2,
            only_dirs w1 w2 /\ dirs w ⊆ dirs w2
            /\ Fs.locate w src = inr p /\ files w !! p = Some data
            /\ p <> dst /\ Fs.is_dir w2 dst = false
            /\ r = Ok (mkAppend id number
                         (str (folder_parts line machine t name
                               ++ [rev_file_name number now (suffix (parse src))]))
                         (basename src) h user None)
                      (set_files (<[dst := data]> (files w)) w2))
  end.
Proof.
  intros name r. unfold r. rewrite save_until_copied_eq. fold name.
  destruct (open_rb_cases src w) as [(e & -> & ->)|(p & data & Hloc & Hp & -> & ->)];
    [eauto|].
  cbv zeta.
  set (h := Sha256.hexdigest data).
  set (found := Db.resolve w line machine t name h).
  set (id := resolved_id found w).
  set (number := Db.next_revision_number w id).
  set (w1 := with_document now line machine t name user found w).
  destruct (with_document_revisions now line machine t name user found w)
    as (Hrev & Hfiles & _). fold w1 in Hrev, Hfiles.
  assert (Hdirs : dirs w1 = dirs w) by (unfold w1; by destruct found).
  destruct (store_file_cases DATA_DIR now src line machine t name number w1)
    as [(e & w' & -> & Hd & Hsub)
       |(p' & data' & dst & w2 & Hd & Hsub & Hloc' & Hsrc' & Hne & Hnd & ->)].
  { left. exists e, w'. rewrite <- Hdirs. eauto. }
  right. exists p, dst, w2.
  assert (Hloc2 : Fs.locate w2 src = inr p).
  { apply (locate_more_dirs w); [|by rewrite <- Hdirs|done].
    destruct Hd as (-> & _). done. }
  assert (p' = p) as -> by congruence.
  rewrite Hfiles, Hp in Hsrc'. injection Hsrc' as <-.
  split; [done|]. split; [by rewrite <- Hdirs|]. do 4 (split; [done|]).
  by rewrite Hfiles.
Qed.

(** An import whose source can be read is the lookup, the copy and the
    append: it raises what the copy raises, and after a copy it returns
    with the new row. *)
Lemma save_document_eq now src line machine t user w data :
  Fs.content w src = Some data ->
  let name := _normalize_doc_name (basename src) in
  let h := Sha256.hexdigest data in
  let found := Db.resolve w line machine t name h in
  let id := resolved_id found w in
  let number := Db.next_revision_number w id in
  _save_document DATA_DIR now src line machine t user w
  = match _store_file DATA_DIR now src line machine t name number
            (with_document now line machine t name user found w) with
    | Raise e w' => Raise e w'
    | Ok path w' =>
        Ok tt (set_revisions
                 (revisions w ++ [mkRevision (Db.fresh_revision_id w) id number path
                                    (basename src) h user now None]) w')
    end.
Proof.
  intros Hc name h found id number.
  rewrite save_document_split, save_until_copied_eq. fold name.
  destruct (open_rb_cases src w) as [(e & _ & He)|(p & data' & _ & _ & Hd & ->)];
    [congruence|].
  assert (data' = data) as -> by congruence. cbv zeta. fold h found id number.
  destruct (with_document_revisions now line machine t name user found w)
    as (Hrev & _ & _).
  destruct (store_file_cases DATA_DIR now src line machine t name number
              (with_document now line machine t name user found w))
    as [(e & w' & -> & _)|(p' & d' & dst & w2 & Ho & _ & _ & _ & _ & _ & ->)]; [done|].
  destruct Ho as (_ & _ & Hr2 & _).
  rewrite save_append_eq. cbn [ap_revision_number ap_document_id].
  rewrite (next_revision_number_ext w) by (simpl; congruence).
  fold number. rewrite N.eqb_refl. cbn.
  unfold Db.fresh_revision_id. cbn. rewrite Hr2, Hrev. reflexivity.
Qed.

(** Every outcome of [_save_document]. *)
Lemma save_document_cases now src line machine t user w :
  let name := _normalize_doc_name (basename src) in
  let r := _save_document DATA_DIR now src line machine t user w in
  match Fs.content w src with
  | None => exists e, r = Raise e w
  | Some data =>
      let h := Sha256.hexdigest data in
      let found := Db.resolve w line machine t name h in
      let id := resolved_id found w in
      let number := Db.next_revision_number w id in
      let w1 := with_document now line machine t name user found w in
      (exists e w', r = Raise e w' /\ only_dirs w1 w' /\ dirs w ⊆ dirs w')
      \/ (exists p dst w2,
            only_dirs w1 w2 /\ dirs w ⊆ dirs w2
            /\ Fs.locate w src = inr p /\ files w !! p = Some data
            /\ p <> dst /\ Fs.is_dir w2 dst = false
            /\ r = Ok tt (set_revisions
                            (revisions w ++
                               [mkRevision (Db.fresh_revision_id w) id number
                                  (str (folder_parts line machine t name
                                        ++ [rev_file_name number now (suffix (parse src))]))
                                  (basename src) h user now None])
                            (set_files (<[dst := data]> (files w)) w2)))
  end.
Proof.
  intros name r. unfold r. rewrite save_document_split.
  pose proof (save_until_copied_cases now src line machine t user w) as H.
  cbv zeta in H. fold name in H.
  destruct (Fs.content w src) as [data|]; [|by destruct H as [e ->]; eauto].
  cbv zeta.
  set (h := Sha256.hexdigest data) in *.
  set (found := Db.resolve w line machine t name h) in *.
  set (id := resolved_id found w) in *.
  set (number := Db.next_revision_number w id) in *.
  set (w1 := with_document now line machine t name user found w) in *.
  destruct (with_document_revisions now line machine t name user found w)
    as (Hrev & Hfiles & _). fold w1 in Hrev, Hfiles.
  destruct H as [(e & w' & -> & Hd)|(p & dst & w2 & Hd & Hsub & Hloc & Hp & Hne & Hnd & ->)].
  { left. eauto. }
  right. exists p, dst, w2. do 6 (split; [done|]).
  destruct Hd as (Hf2 & _ & Hr2 & _).
  rewrite save_append_eq. cbn [ap_revision_number ap_document_id].
  rewrite (next_revision_number_ext w) by (simpl; congruence).
  fold number. rewrite N.eqb_refl. cbn.
  unfold Db.fresh_revision_id. cbn. rewrite Hr2, Hrev. reflexivity.
Qed.

End ImportSteps.

(** ** Recall and export, step by step *)

Section RecallExport.
Import PathLib.
Variable DATA_DIR : string.

Lemma selected_revision_eq ui w :
  _selected_revision ui w = Ok (selected_revision_of ui w) w.
Proof.
  unfold _selected_revision, selected_revision_of.
  destruct (_selected_document_id ui); [|done].
  by destruct (rev_tree_selection ui).
Qed.

Lemma selected_revision_in ui w k :
  selected_revision_of ui w = Some k ->
  exists id rest,
    _selected_document_id ui = Some id /\ rev_tree_selection ui = rev_id k :: rest
    /\ List.In k (Db.revisions_of w id) /\ document_id k = id.
Proof.
  unfold selected_revision_of.
  destruct (_selected_document_id ui) as [id|]; [|done].
  destruct (rev_tree_selection ui) as [|rid rest]; [done|].
  intros [Hin Hid]%List.find_some. apply N.eqb_eq in Hid. subst rid.
  apply List.in_rev in Hin. exists id, rest. repeat split; [done|].
  unfold Db.revisions_of in Hin. apply List.filter_In in Hin as [_ H].
  by apply N.eqb_eq in H.
Qed.

Lemma resolve_path_wf stored : wf_path (_resolve_path DATA_DIR stored).
Proof. apply div_wf, parse_wf. Qed.

Lemma require_line_machine_cases ui w :
  (_require_line_machine ui w
   = Ok None (set_dialogs (dialogs w ++ [ShowWarning "Selection required"
                 "Select both a line and machine first."]) w))
  \/ _require_line_machine ui w
     = Ok (Some (Py.strip (line_var ui), Py.strip (machine_var ui))) w.
Proof. unfold _require_line_machine. case_match; eauto. Qed.

Lemma doc_tree_name_cases ui w :
  doc_tree_name ui w = Raise TclError w \/ exists name, doc_tree_name ui w = Ok name w.
Proof. unfold doc_tree_name. repeat case_match; eauto. Qed.

(** A recall stops without a new revision, or appends exactly one: then
    it has copied and hashed the file that the text of the stored path
    names once the target folder is there. *)
Lemma recall_cases ui now w :
  let r := _recall_selected DATA_DIR ui now w in
  quiet w (final r)
  \/ (exists id k p data dst w2 name,
        readonly ui = false
        /\ selected_revision_of ui w = Some k
        /\ _selected_document_id ui = Some id
        /\ Fs.exists_ w (_resolve_path DATA_DIR (stored_path k)) = true
        /\ only_dirs w w2 /\ dirs w ⊆ dirs w2
        /\ Fs.locate w2 (str (_resolve_path DATA_DIR (stored_path k))) = inr p
        /\ files w !! p = Some data /\ p <> dst /\ Fs.is_dir w2 dst = false
        /\ r = Ok tt (set_revisions
                        (revisions w ++
                           [mkRevision (Db.fresh_revision_id w) id
                              (Db.next_revision_number w id)
                              (str (folder_parts (Py.strip (line_var ui))
                                      (Py.strip (machine_var ui))
                                      (default Program (_selected_doc_type ui)) name
                                    ++ [rev_file_name (Db.next_revision_number w id) now
                                          (suffix (_resolve_path DATA_DIR (stored_path k)))]))
                              (original_filename k) (Sha256.hexdigest data)
                              (_get_username ui) now
                              (Some "Recalled previous revision"%string)])
                        (set_files (<[dst := data]> (files w)) w2))).
Proof.
  intros r. unfold r, _recall_selected.
  destruct (readonly ui) eqn:Hro; [by left|].
  unfold mbind, M_bind, bind. rewrite selected_revision_eq.
  destruct (selected_revision_of ui w) as [k|] eqn:Hk; [|by left].
  destruct (_selected_document_id ui) as [id|] eqn:Hid; [|by left].
  unfold get_world.
  set (stored := _resolve_path DATA_DIR (stored_path k)).
  destruct (Fs.exists_ w stored) eqn:Hex; [|by left].
  cbn [negb].
  destruct (require_line_machine_cases ui w) as [-> | ->]; [by left|].
  destruct (doc_tree_name_cases ui w) as [-> |[name ->]]; [by left|].
  unfold Db.get_next_machine_document_revision_number.
  set (number := Db.next_revision_number w id).
  assert (Hps : parse (str stored) = stored) by apply parse_str, resolve_path_wf.
  destruct (store_file_cases DATA_DIR now (str stored) (Py.strip (line_var ui))
              (Py.strip (machine_var ui)) (default Program (_selected_doc_type ui))
              name number w)
    as [(e & w' & -> & Hd & _)
       |(p & data & dst & w2 & Hd & Hsub & Hloc & Hsrc & Hne & Hnd & ->)].
  { left. destruct Hd as (? & ? & ? & _). by repeat split. }
  rewrite Hps.
  right. exists id, k, p, data, dst, w2, name.
  do 10 (split; [done|]).
  destruct Hd as (Hf2 & _ & Hr2 & _).
  rewrite (hash_file_content _ _ data).
  2:{ unfold Fs.content.
      rewrite (locate_more_file w2 _ (str stored) p dst data); [| |done|done|done].
      - cbn [files set_files]. by rewrite lookup_insert_ne.
      - cbn [files set_files]. by rewrite Hf2. }
  unfold Db.add_machine_document_revision, ret.
  rewrite (next_revision_number_ext w) by (simpl; congruence).
  fold number. rewrite N.eqb_refl.
  unfold Db.fresh_revision_id. cbn. rewrite Hr2. reflexivity.
Qed.

(** Without the stored file a recall only reports it. *)
Lemma recall_missing ui now w k id :
  readonly ui = false -> selected_revision_of ui w = Some k ->
  _selected_document_id ui = Some id ->
  Fs.exists_ w (_resolve_path DATA_DIR (stored_path k)) = false ->
  _recall_selected DATA_DIR ui now w
  = Ok tt (set_dialogs (dialogs w ++ [ShowError "Recall Failed" "Stored file not found."]) w).
Proof.
  intros Hro Hk Hid Hex. unfold _recall_selected.
  rewrite Hro. unfold mbind, M_bind, bind. rewrite selected_revision_eq, Hk, Hid.
  unfold get_world. by rewrite Hex.
Qed.

(** With the file there and a blank line or machine a recall only warns. *)
Lemma recall_blank ui now w k id :
  readonly ui = false -> selected_revision_of ui w = Some k ->
  _selected_document_id ui = Some id ->
  Fs.exists_ w (_resolve_path DATA_DIR (stored_path k)) = true ->
  Py.strip (line_var ui) = EmptyString \/ Py.strip (machine_var ui) = EmptyString ->
  _recall_selected DATA_DIR ui now w
  = Ok tt (set_dialogs
             (dialogs w ++ [ShowWarning "Selection required"
                               "Select both a line and machine first."]) w).
Proof.
  intros Hro Hk Hid Hex Hblank. unfold _recall_selected.
  rewrite Hro. unfold mbind, M_bind, bind. rewrite selected_revision_eq, Hk, Hid.
  unfold get_world. rewrite Hex. cbn [negb]. unfold _require_line_machine.
  assert (String.eqb (Py.strip (line_var ui)) "" || String.eqb (Py.strip (machine_var ui)) ""
          = true) as ->.
  { apply orb_true_iff. destruct Hblank as [-> | ->]; auto. }
  reflexivity.
Qed.

(** With the file there, a line and a machine, a recall is the copy, the
    hash of what the text of the stored path then names, and the append:
    it raises what the copy raises, and after a copy it returns with the
    new row. *)
Lemma recall_stored ui now w k id name :
  readonly ui = false -> selected_revision_of ui w = Some k ->
  _selected_document_id ui = Some id ->
  Fs.exists_ w (_resolve_path DATA_DIR (stored_path k)) = true ->
  Py.strip (line_var ui) <> EmptyString -> Py.strip (machine_var ui) <> EmptyString ->
  doc_tree_name ui w = Ok name w ->
  let stored := _resolve_path DATA_DIR (stored_path k) in
  let number := Db.next_revision_number w id in
  let r := _recall_selected DATA_DIR ui now w in
  match _store_file DATA_DIR now (str stored) (Py.strip (line_var ui))
          (Py.strip (machine_var ui)) (default Program (_selected_doc_type ui))
          name number w with
  | Raise e w1 => r = Raise e w1
  | Ok path w1 =>
      exists data,
        Fs.content w1 (str stored) = Some data
        /\ r = Ok tt (set_revisions
                        (revisions w ++
                           [mkRevision (Db.fresh_revision_id w) id number path
                              (original_filename k) (Sha256.hexdigest data)
                              (_get_username ui) now
                              (Some "Recalled previous revision"%string)]) w1)
  end.
Proof.
  intros Hro Hk Hid Hex Hl Hm Hname stored number r. unfold r, _recall_selected.
  rewrite Hro. unfold mbind, M_bind, bind. rewrite selected_revision_eq, Hk, Hid.
  unfold get_world. rewrite Hex. fold stored. cbn [negb].
  unfold _require_line_machine.
  assert (String.eqb (Py.strip (line_var ui)) "" || String.eqb (Py.strip (machine_var ui)) ""
          = false) as ->.
  { apply orb_false_iff. split; by apply String.eqb_neq. }
  unfold ret. cbv beta iota. rewrite Hname.
  unfold Db.get_next_machine_document_revision_number. fold number.
  destruct (store_file_cases DATA_DIR now (str stored) (Py.strip (line_var ui))
              (Py.strip (machine_var ui)) (default Program (_selected_doc_type ui))
              name number w)
    as [(e & w' & -> & _)
       |(p & data & dst & w2 & Hd & Hsub & Hloc & Hsrc & Hne & Hnd & ->)]; [done|].
  destruct Hd as (Hf2 & _ & Hr2 & _).
  assert (Hc : Fs.content (set_files (<[dst:=data]> (files w)) w2) (str stored) = Some data).
  { unfold Fs.content.
    rewrite (locate_more_file w2 _ (str stored) p dst data); [| |done|done|done].
    - cbn [files set_files]. by rewrite lookup_insert_ne.
    - cbn [files set_files]. by rewrite Hf2. }
  exists data. split; [exact Hc|].
  rewrite (hash_file_content _ _ data Hc).
  unfold Db.add_machine_document_revision, ret.
  rewrite (next_revision_number_ext w) by (simpl; congruence).
  fold number. rewrite N.eqb_refl.
  unfold Db.fresh_revision_id. cbn. rewrite Hr2. reflexivity.
Qed.

(** Every outcome of [_export_revision]. *)
Lemma export_revision_cases ui revision target_dir w :
  let r := _export_revision DATA_DIR ui revision target_dir w in
  let stored := _resolve_path DATA_DIR (stored_path revision) in
  (target_dir = EmptyString /\ r = Ok tt w)
  \/ (Fs.exists_ w stored = false
      /\ r = Ok tt (set_dialogs
                      (dialogs w ++ [ShowError "Export Failed" "Stored file not found."]) w))
  \/ (exists e, r = Raise e w)
  \/ (exists data name,
        let target := div (parse target_dir)
                          (name +:+ "_rev" +:+ pretty (revision_number revision)
                                +:+ suffix stored) in
        let dst := if Fs.is_dir w target then target ++ [PathLib.name stored] else target in
        files w !! stored = Some data /\ stored <> dst
        /\ doc_tree_name ui w = Ok name w
        /\ r = Ok tt (set_dialogs
                        (dialogs w ++ [ShowInfo "Exported" ("Exported to " +:+ str target)])
                        (set_files (<[dst := data]> (files w)) w))).
Proof.
  intros r stored. unfold r, _export_revision.
  destruct (String.eqb target_dir "") eqn:Ht.
  { left. by apply String.eqb_eq in Ht. }
  right. unfold mbind, M_bind, bind, get_world. fold stored.
  destruct (Fs.exists_ w stored) eqn:Hex; [|by left].
  right. cbn [negb].
  destruct (doc_tree_name_cases ui w) as [Hn|[name Hn]]; rewrite Hn; [left; eauto|].
  match goal with |- context [Fs.copy2 stored ?d w] =>
    destruct (copy2_cases stored d w) as [[e ->]|(data & Hsrc & Hne & ->)] end.
  { left. eauto. }
  right. by exists data, name.
Qed.

End RecallExport.

(** ** Revision numbers *)

Section Numbering.

Lemma numbered_next_ext new : forall w w',
  revisions w' = revisions w -> numbered_next w new -> numbered_next w' new.
Proof.
  induction new as [|r new IH]; intros w w' Hr; [done|].
  simpl. intros [Hn Hrest]. split.
  - by rewrite (next_revision_number_ext w w').
  - eapply IH; [|exact Hrest]. simpl. by rewrite Hr.
Qed.

Lemma numbered_next_app new1 : forall w new2,
  numbered_next w new1 ->
  numbered_next (set_revisions (revisions w ++ new1) w) new2 ->
  numbered_next w (new1 ++ new2).
Proof.
  induction new1 as [|r new1 IH]; intros w new2.
  - intros _. apply numbered_next_ext. simpl. by rewrite app_nil_r.
  - simpl. intros [Hn H1] H2. split; [done|].
    apply IH; [done|]. eapply numbered_next_ext; [|exact H2].
    simpl. by rewrite <- app_assoc.
Qed.

Lemma appends_same w w' : revisions w' = revisions w -> appends w w'.
Proof. intros H. exists []. by rewrite app_nil_r. Qed.

Lemma appends_trans w1 w2 w3 : appends w1 w2 -> appends w2 w3 -> appends w1 w3.
Proof.
  intros (n1 & H1 & Hn1) (n2 & H2 & Hn2). exists (n1 ++ n2). split.
  - by rewrite H2, H1, app_assoc.
  - apply numbered_next_app; [done|].
    eapply numbered_next_ext; [|exact Hn2]. by rewrite H1.
Qed.

Lemma one_to_S n : one_to (S n) = one_to n ++ [N.of_nat (S n)].
Proof. unfold one_to. by rewrite List.seq_S, List.map_app. Qed.

Lemma max_of_snoc ns x : Db.max_of (ns ++ [x]) = N.max (Db.max_of ns) x.
Proof.
  induction ns as [|n ns IH]; simpl; [lia|]. rewrite IH. lia.
Qed.

Lemma max_of_one_to n : Db.max_of (one_to n) = N.of_nat n.
Proof.
  induction n as [|n IH]; [done|].
  rewrite one_to_S, max_of_snoc, IH. lia.
Qed.

Lemma length_one_to n : length (one_to n) = n.
Proof. unfold one_to. by rewrite List.length_map, List.length_seq. Qed.

(** On a contiguous ledger the next number is the count plus one. *)
Lemma next_revision_number_count w id :
  contiguous w ->
  Db.next_revision_number w id = N.of_nat (S (length (Db.revisions_of w id))).
Proof.
  intros Hc. specialize (Hc id). unfold numbers_of in Hc.
  unfold Db.next_revision_number.
  destruct (Db.revisions_of w id) as [|r rs] eqn:E; [done|].
  rewrite Hc, max_of_one_to. lia.
Qed.

Lemma contiguous_step w r :
  contiguous w ->
  revision_number r = Db.next_revision_number w (document_id r) ->
  contiguous (set_revisions (revisions w ++ [r]) w).
Proof.
  intros Hc Hn id. pose proof (Hc id) as Hid.
  unfold numbers_of, Db.revisions_of in *. cbn [revisions set_revisions].
  rewrite List.filter_app. cbn [List.filter].
  destruct (N.eqb (document_id r) id) eqn:E.
  - apply N.eqb_eq in E. subst id.
    rewrite List.map_app, List.length_app, Hid. simpl length.
    rewrite Nat.add_1_r, one_to_S. f_equal. simpl. f_equal.
    rewrite Hn. by apply next_revision_number_count.
  - by rewrite !app_nil_r.
Qed.

Lemma contiguous_ext w w' : revisions w' = revisions w -> contiguous w -> contiguous w'.
Proof.
  intros H Hc id. specialize (Hc id).
  unfold numbers_of, Db.revisions_of in *. by rewrite H.
Qed.

Lemma contiguous_appends w w' : contiguous w -> appends w w' -> contiguous w'.
Proof.
  intros Hc (new & Hr & Hn). revert w w' Hc Hr Hn.
  induction new as [|r new IH]; intros w w' Hc Hr Hn.
  - apply (contiguous_ext w); [|done]. by rewrite Hr, app_nil_r.
  - destruct Hn as [Hn Hrest].
    apply (IH (set_revisions (revisions w ++ [r]) w)); [|simpl|done].
    + by apply contiguous_step.
    + by rewrite Hr, <- app_assoc.
Qed.

Lemma contiguous_empty w : revisions w = [] -> contiguous w.
Proof. intros H id. unfold numbers_of, Db.revisions_of. by rewrite H. Qed.

Variable DATA_DIR : string.
Variable str_exc : exn -> string.

Lemma save_document_appends now src line machine t user w :
  appends w (final (_save_document DATA_DIR now src line machine t user w)).
Proof.
  pose proof (save_document_cases DATA_DIR now src line machine t user w) as H.
  cbv zeta in H. destruct (Fs.content w src) as [data|].
  - destruct (with_document_revisions now line machine t
                (_normalize_doc_name (PathLib.basename src)) user
                (Db.resolve w line machine t (_normalize_doc_name (PathLib.basename src))
                   (Sha256.hexdigest data)) w) as (Hrev & _).
    destruct H as [(e & w' & -> & Hd & _)|(p & dst & w2 & Hd & _ & _ & _ & _ & _ & ->)].
    + apply appends_same. destruct Hd as (_ & _ & Hr & _). simpl. congruence.
    + eexists [_]. split; [reflexivity|]. by split.
  - destruct H as [e ->]. by apply appends_same.
Qed.

Lemma showerror_appends title text w : appends w (final (showerror title text w)).
Proof. by apply appends_same. Qed.

Lemma import_loop_appends line machine t user picked : forall w,
  appends w (final (for_each picked (fun p =>
    try_except (_save_document DATA_DIR (snd p) (fst p) line machine t user)
      (fun exc => showerror "Import Failed"
         ("Failed to import " +:+ fst p +:+ String "010" (str_exc exc)))) w)).
Proof.
  induction picked as [|p picked IH]; intros w; [by apply appends_same|].
  simpl for_each. unfold mbind, M_bind, bind, try_except.
  pose proof (save_document_appends (snd p) (fst p) line machine t user w) as H.
  destruct (_save_document DATA_DIR (snd p) (fst p) line machine t user w) as [[] w1|e w1].
  - eapply appends_trans; [exact H|apply IH].
  - simpl in H. unfold showerror, modify at 1.
    eapply appends_trans; [exact H|].
    eapply appends_trans; [|apply IH]. by apply appends_same.
Qed.

Lemma import_documents_appends ui t picked w :
  appends w (final (_import_documents DATA_DIR str_exc ui t picked w)).
Proof.
  unfold _import_documents. destruct (readonly ui); [by apply appends_same|].
  unfold mbind, M_bind, bind.
  destruct (require_line_machine_cases ui w) as [-> | ->]; [by apply appends_same|].
  destruct picked as [|p picked]; [by apply appends_same|].
  apply import_loop_appends.
Qed.

Lemma recall_appends ui now w :
  appends w (final (_recall_selected DATA_DIR ui now w)).
Proof.
  destruct (recall_cases DATA_DIR ui now w)
    as [(_ & _ & H)
       |(id & k & p & data & dst & w2 & name & _ & _ & _ & _ & _ & _ & _ & _ & _ & _ & ->)].
  - by apply appends_same.
  - eexists [_]. split; [reflexivity|]. by split.
Qed.

Lemma export_revision_quiet ui revision target_dir w :
  revisions (final (_export_revision DATA_DIR ui revision target_dir w)) = revisions w
  /\ documents (final (_export_revision DATA_DIR ui revision target_dir w)) = documents w.
Proof.
  destruct (export_revision_cases DATA_DIR ui revision target_dir w)
    as [[_ ->]|[[_ ->]|[[e ->]|(data & name & _ & _ & _ & ->)]]]; by split.
Qed.

Lemma export_current_quiet ui target_dir w :
  revisions (final (_export_current DATA_DIR ui target_dir w)) = revisions w
  /\ documents (final (_export_current DATA_DIR ui target_dir w)) = documents w.
Proof.
  unfold _export_current, _get_current_revision, mbind, M_bind, bind.
  destruct (_selected_document_id ui); cbn; [|by split].
  destruct (List.head _); [apply export_revision_quiet|by split].
Qed.

Lemma export_selected_quiet ui target_dir w :
  revisions (final (_export_selected_revision DATA_DIR ui target_dir w)) = revisions w
  /\ documents (final (_export_selected_revision DATA_DIR ui target_dir w)) = documents w.
Proof.
  unfold _export_selected_revision, mbind, M_bind, bind.
  rewrite selected_revision_eq.
  destruct (selected_revision_of ui w); [apply export_revision_quiet|by split].
Qed.

Lemma delete_document_frame ui confirm w :
  files (final (_delete_document ui confirm w)) = files w
  /\ dirs (final (_delete_document ui confirm w)) = dirs w
  /\ revisions (final (_delete_document ui confirm w)) = revisions w.
Proof.
  unfold _delete_document. destruct (readonly ui); [done|].
  destruct (doc_tree_selection ui); [done|]. by destruct confirm.
Qed.

Lemma run_appends w a : appends w (run DATA_DIR str_exc w a).
Proof.
  destruct a as [ui t picked|ui now|ui d|ui d|ui c]; simpl.
  - apply import_documents_appends.
  - apply recall_appends.
  - apply appends_same, export_current_quiet.
  - apply appends_same, export_selected_quiet.
  - apply appends_same, delete_document_frame.
Qed.

Lemma run_all_contiguous acts : forall w,
  contiguous w -> contiguous (run_all DATA_DIR str_exc acts w).
Proof.
  induction acts as [|a acts IH]; intros w Hc; [done|].
  simpl. apply IH. eapply contiguous_appends; [exact Hc|apply run_appends].
Qed.

End Numbering.

(** * The claims *)

(** ** C6: name normalization *)

(** C6, as the code has it: for every file name, [_normalize_doc_name] takes
    the stem of the last path component (the extension is stripped),
    replaces underscores with spaces, collapses every run of whitespace to
    one space and trims both ends.  Separators are not replaced. *)
Theorem C6_normalize_underscores_only filename :
  _normalize_doc_name filename
  = NameSpec.trim (NameSpec.collapse_ws
      (Py.replace "_" " " (NameSpec.strip_extension filename))).
Proof. apply normalize_refines. Qed.

(** C6 as stated fails: a backslash, a path-separator-like character, is
    kept in the name instead of becoming a space. *)
Lemma C6_backslash_is_kept :
  _normalize_doc_name "a\b.txt" = "a\b"%string
  /\ NameSpec.normalize_as_specified "a\b.txt" = "a b"%string
  /\ _normalize_doc_name "a\b.txt" <> NameSpec.normalize_as_specified "a\b.txt".
Proof. repeat split. vm_compute. discriminate. Qed.

(** ** C10: the read-only screen *)

(** C10: when the screen is read-only, importing, recalling and
    deactivating return at once and leave the whole state as it is; the
    screen is read-only exactly when the user cannot edit "Master Data". *)
Theorem C10_readonly_changes_nothing DATA_DIR str_exc ui t picked now confirm w :
  readonly ui = true ->
  _import_documents DATA_DIR str_exc ui t picked w = Ok tt w
  /\ _import_programs DATA_DIR str_exc ui picked w = Ok tt w
  /\ _import_prints DATA_DIR str_exc ui picked w = Ok tt w
  /\ _recall_selected DATA_DIR ui now w = Ok tt w
  /\ _delete_document ui confirm w = Ok tt w
  /\ (forall can_edit_screen user login,
        readonly (__init__ can_edit_screen user login)
        = negb (can_edit_screen "Master Data"%string)).
Proof.
  intros Hro.
  unfold _import_programs, _import_prints, _import_documents, _recall_selected,
    _delete_document.
  rewrite Hro. by repeat split.
Qed.

Lemma C10_readonly_witness :
  _import_documents Scenario.DATA exn_str Scenario.ui_readonly Program
    [("/in/a.txt"%string, Scenario.T1)] Scenario.w2 = Ok tt Scenario.w2
  /\ _recall_selected Scenario.DATA Scenario.ui_readonly Scenario.T1 Scenario.w2
     = Ok tt Scenario.w2
  /\ _delete_document Scenario.ui_readonly true Scenario.w2 = Ok tt Scenario.w2.
Proof.
  destruct (C10_readonly_changes_nothing Scenario.DATA exn_str Scenario.ui_readonly Program
              [("/in/a.txt"%string, Scenario.T1)] Scenario.T1 true Scenario.w2 eq_refl)
    as (H1 & _ & _ & H2 & H3 & _).
  exact (conj H1 (conj H2 H3)).
Defined.

(** ** C9: deactivation *)

(** C9: deactivating changes nothing but the active flag of the selected
    document, which becomes false: the revisions, the files and the
    directories are the same, every document keeps its other columns, and
    the documents with another id keep their flag. *)
Theorem C9_deactivate_only_flips_active ui confirm w :
  let w' := final (_delete_document ui confirm w) in
  revisions w' = revisions w
  /\ files w' = files w
  /\ dirs w' = dirs w
  /\ (forall id, length (Db.revisions_of w' id) = length (Db.revisions_of w id))
  /\ Forall2 (fun d d' =>
                Db.with_active true d' = Db.with_active true d
                /\ (doc_active d' = doc_active d
                    \/ (List.head (doc_tree_selection ui) = Some (doc_id d)
                        /\ doc_active d' = false)))
             (documents w) (documents w')
  /\ (readonly ui = false -> confirm = true ->
      forall id rest d', doc_tree_selection ui = id :: rest ->
        List.In d' (documents w') -> doc_id d' = id -> doc_active d' = false).
Proof.
  intros w'. destruct (delete_document_frame ui confirm w) as (Hf & Hd & Hr).
  fold w' in Hf, Hd, Hr.
  split; [done|]. split; [done|]. split; [done|].
  split. { intros id. unfold Db.revisions_of. by rewrite Hr. }
  assert (Hsame : forall ds : list Document,
             Forall2 (fun d d' =>
                Db.with_active true d' = Db.with_active true d
                /\ (doc_active d' = doc_active d
                    \/ (List.head (doc_tree_selection ui) = Some (doc_id d)
                        /\ doc_active d' = false))) ds ds).
  { induction ds; constructor; auto. }
  unfold w', _delete_document.
  destruct (readonly ui); [split; [apply Hsame|done]|].
  destruct (doc_tree_selection ui) as [|id rest] eqn:Hsel; [split; [apply Hsame|done]|].
  destruct confirm; [|split; [apply Hsame|done]].
  cbn. split.
  - induction (documents w) as [|d ds IH]; [constructor|].
    simpl. constructor; [|exact IH].
    destruct (N.eqb (doc_id d) id) eqn:E.
    + apply N.eqb_eq in E. subst id. split; [done|]. right. by split.
    + split; [done|]. by left.
  - intros _ _ id' rest' d' [= <- <-] Hin Hid.
    apply List.in_map_iff in Hin as (d & <- & _).
    destruct (N.eqb (doc_id d) id) eqn:E; [done|].
    apply N.eqb_neq in E. done.
Qed.

Lemma C9_deactivate_witness :
  Forall (fun d => doc_id d = 1%N -> doc_active d = false)
         (documents (final (_delete_document Scenario.ui_sel true Scenario.w2))).
Proof.
  apply List.Forall_forall. intros d Hin Hid.
  exact (proj2 (proj2 (proj2 (proj2 (proj2
           (C9_deactivate_only_flips_active Scenario.ui_sel true Scenario.w2)))))
           eq_refl eq_refl 1%N [] d eq_refl Hin Hid).
Defined.

(** ** C3: revision numbers *)

(** C3: starting from an empty ledger, after any sequence of imports,
    recalls, exports and deactivations the revision numbers of every
    document are, in ledger order, exactly 1, 2, ..., N; and every action
    only appends rows, each numbered one plus the current maximum of its
    document, or 1 when the document has no revision. *)
Theorem C3_revision_numbers_contiguous DATA_DIR str_exc acts fs ds dl id :
  let w := run_all DATA_DIR str_exc acts (mkWorld fs ds [] [] dl) in
  numbers_of w id = one_to (length (Db.revisions_of w id))
  /\ (forall w0 a, exists new,
        revisions (run DATA_DIR str_exc w0 a) = revisions w0 ++ new /\ numbered_next w0 new).
Proof.
  split.
  - by apply run_all_contiguous, contiguous_empty.
  - intros w0 a. apply run_appends.
Qed.

(** ** C5: stored paths *)

(** C5 fails on the code: after two imports of [a.txt], for the lines
    ["L 1"] and ["L_1"] within the same second, the revisions of two
    different documents have the same stored path, and the file there holds
    the bytes of the second import. *)
Theorem C5_two_revisions_one_path :
  List.map (fun r => (rev_id r, document_id r, stored_path r)) (revisions Scenario.w2)
  = [(1%N, 1%N, "storage/L_1/M/program/a/rev_1_20240101120000.txt"%string);
     (2%N, 2%N, "storage/L_1/M/program/a/rev_1_20240101120000.txt"%string)]
  /\ files Scenario.w2 !! Scenario.stored1 = Some (Scenario.bytes_of "G0 X2").
Proof. split; vm_compute; reflexivity. Qed.

(** The same within one batch, without unusual line names: [_.txt] and
    [document.txt], imported for one line within one second, become two
    documents whose first revisions share one stored path. *)
Example batch_import_shares_a_path :
  let r := _import_documents Scenario.DATA exn_str (Scenario.ui_on "L") Program
             [("/in/_.txt"%string, Scenario.T0); ("/in/document.txt"%string, Scenario.T0)]
             More.w_batch in
  raised r = None
  /\ List.map (fun d => (doc_id d, doc_name d)) (documents (final r))
     = [(1%N, ""%string); (2%N, "document"%string)]
  /\ List.map (fun k => (document_id k, revision_number k, stored_path k))
       (revisions (final r))
     = [(1%N, 1%N, "storage/L/M/program/document/rev_1_20240101120000.txt"%string);
        (2%N, 1%N, "storage/L/M/program/document/rev_1_20240101120000.txt"%string)]
  /\ dialogs (final r) = [].
Proof. repeat split; vm_compute; reflexivity. Qed.

(** ** C1: failures during an import *)

(** C1, as the code has it: if a step up to and including the copy fails,
    the import raises and no ledger row is created; once the copy has
    succeeded the copied file is in storage, and if the append then fails
    the error is raised with the state as it is: no row is added and
    nothing is removed. *)
Theorem C1_failed_import_adds_no_row_and_removes_no_file
    DATA_DIR now src line machine t user w :
  match save_until_copied DATA_DIR now src line machine t user w with
  | Raise e w' =>
      _save_document DATA_DIR now src line machine t user w = Raise e w'
      /\ revisions w' = revisions w /\ files w' = files w
  | Ok a w1 =>
      revisions w1 = revisions w
      /\ (exists dst data,
            Fs.content w src = Some data
            /\ files w1 = <[dst := data]> (files w))
      /\ forall w2,
           match save_append now a w2 with
           | Raise e w3 => e = ConflictError /\ w3 = w2
           | Ok _ w3 =>
               files w3 = files w2
               /\ exists row, revisions w3 = revisions w2 ++ [row]
                              /\ stored_path row = ap_stored_path a
           end
  end.
Proof.
  rewrite save_document_split.
  pose proof (save_until_copied_cases DATA_DIR now src line machine t user w) as H.
  cbv zeta in H.
  destruct (Fs.content w src) as [data|] eqn:Hsrc; [|by destruct H as [e ->]].
  set (name := _normalize_doc_name (PathLib.basename src)) in *.
  set (found := Db.resolve w line machine t name (Sha256.hexdigest data)) in *.
  destruct (with_document_revisions now line machine t name user found w)
    as (Hrev & Hfiles & _).
  destruct H as [(e & w' & -> & Hd & _)|(p & dst & w1 & Hd & _ & _ & _ & _ & _ & ->)].
  - destruct Hd as (Hf & _ & Hr & _). repeat split; congruence.
  - destruct Hd as (Hf & _ & Hr & _). split; [cbn; congruence|]. split.
    + exists dst, data. split; [done|]. reflexivity.
    + intros w2. rewrite save_append_eq. destruct (N.eqb _ _); [|done].
      split; [done|]. eexists. split; reflexivity.
Qed.

(** A copy that fails: the document folder is a regular file, so the
    import raises before any revision row is written; the document row
    created just before stays. *)
Example import_into_blocked_folder :
  let r := _save_document Scenario.DATA Scenario.T0 "/in/a.txt" "L 1" "M" Program "op"
             Scenario.w_blocked in
  raised r = Some FileExistsError
  /\ revisions (final r) = []
  /\ List.map doc_name (documents (final r)) = ["a"%string]
  /\ Fs.exists_ (final r) Scenario.stored1 = false.
Proof. repeat split; vm_compute; reflexivity. Qed.

(** C1 as stated fails: two sessions import the same file for the same
    target.  The first has copied its file when the second imports from
    start to end; the append of the first then fails with a conflict, its
    file is still in storage, and the only ledger row refers to the file of
    the second. *)
Lemma C1_orphan_file_stays :
  raised Scenario.first_copied = None
  /\ ap_stored_path Scenario.first_pending
     = "storage/L_1/M/program/a/rev_1_20240101120000.txt"%string
  /\ raised Scenario.first_appends = Some ConflictError
  /\ files (final Scenario.first_appends)
       !! _resolve_path Scenario.DATA (ap_stored_path Scenario.first_pending)
     = Some (Scenario.bytes_of "G0 X1")
  /\ List.map stored_path (revisions (final Scenario.first_appends))
     = ["storage/L_1/M/program/a/rev_1_20240101120500.txt"%string].
Proof. repeat split; vm_compute; reflexivity. Qed.

(** ** C2 and C8: recall *)

(** C2, as the code has it: before a recall creates a revision it checks
    that the stored file exists and that a line and a machine are chosen,
    and nothing else.  Without the file it shows "Stored file not found.",
    with a blank line or machine the "Selection required" warning, and
    changes nothing else.  Otherwise it copies, hashes what it reads
    through the stored path and appends: it raises what the copy raises,
    and after a copy it returns with the new row, whose content hash is
    the hash of those bytes whatever the recorded hash is.  A recall that
    raises has changed neither the ledger nor the files. *)
Theorem C2_recall_checks_presence_only DATA_DIR ui now w k id :
  readonly ui = false ->
  selected_revision_of ui w = Some k ->
  _selected_document_id ui = Some id ->
  let stored := _resolve_path DATA_DIR (stored_path k) in
  let line := Py.strip (line_var ui) in
  let machine := Py.strip (machine_var ui) in
  let number := Db.next_revision_number w id in
  let r := _recall_selected DATA_DIR ui now w in
  (Fs.exists_ w stored = false ->
   r = Ok tt (set_dialogs
                (dialogs w ++ [ShowError "Recall Failed" "Stored file not found."]) w))
  /\ (Fs.exists_ w stored = true -> line = EmptyString \/ machine = EmptyString ->
      r = Ok tt (set_dialogs
                   (dialogs w ++ [ShowWarning "Selection required"
                                     "Select both a line and machine first."]) w))
  /\ (Fs.exists_ w stored = true -> line <> EmptyString -> machine <> EmptyString ->
      forall name, doc_tree_name ui w = Ok name w ->
        match _store_file DATA_DIR now (PathLib.str stored) line machine
                (default Program (_selected_doc_type ui)) name number w with
        | Raise e w1 => r = Raise e w1
        | Ok path w1 =>
            exists data,
              Fs.content w1 (PathLib.str stored) = Some data
              /\ r = Ok tt (set_revisions
                              (revisions w ++
                                 [mkRevision (Db.fresh_revision_id w) id number path
                                    (original_filename k) (Sha256.hexdigest data)
                                    (_get_username ui) now
                                    (Some "Recalled previous revision"%string)]) w1)
        end)
  /\ (revisions (final r) <> revisions w ->
      exists p data new,
        Fs.locate (final r) (PathLib.str stored) = inr p
        /\ files w !! p = Some data
        /\ (Forall (fun c => c <> ".."%string) stored -> p = stored)
        /\ revisions (final r) = revisions w ++ [new]
        /\ content_hash new = Sha256.hexdigest data)
  /\ (forall e w', r = Raise e w' -> quiet w w').
Proof.
  intros Hro Hk Hid stored line machine number r. split; [|split; [|split; [|split]]].
  - intros Hex. by apply (recall_missing DATA_DIR ui now w k id).
  - intros Hex Hblank. by apply (recall_blank DATA_DIR ui now w k id).
  - intros Hex Hl Hm name Hname.
    exact (recall_stored DATA_DIR ui now w k id name Hro Hk Hid Hex Hl Hm Hname).
  - intros Hne.
    destruct (recall_cases DATA_DIR ui now w)
      as [(_ & _ & H)
         |(id' & k' & p & data & dst & w2 & name & _ & Hk' & _ & _ & Hd & _ & Hloc & Hsrc
           & _ & Hnd & Hr)].
    + done.
    + rewrite Hk in Hk'. injection Hk' as <-. fold stored in Hloc.
      exists p, data. eexists. fold r in Hr. rewrite Hr.
      destruct Hd as (Hf2 & _).
      split; [|split; [done|split; [|split; reflexivity]]].
      * cbn [final]. rewrite (locate_ext (set_files (<[dst:=data]> (files w)) w2)) by done.
        apply (locate_more_file w2 _ _ p dst data); try done.
        cbn [files set_files]. by rewrite Hf2.
      * intros Hdd. apply (locate_str w2); [apply resolve_path_wf|done|done].
  - intros e w' Hr.
    destruct (recall_cases DATA_DIR ui now w)
      as [H|(id' & k' & p & data & dst & w2 & name & _ & _ & _ & _ & _ & _ & _ & _ & _ & _ & Hr')].
    + fold r in H. by rewrite Hr in H.
    + fold r in Hr'. congruence.
Qed.

Lemma C2_recall_witness :
  _recall_selected Scenario.DATA Scenario.ui_sel Scenario.T1 Scenario.w_lost
  = Ok tt (set_dialogs
             (dialogs Scenario.w_lost
              ++ [ShowError "Recall Failed" "Stored file not found."]) Scenario.w_lost)
  /\ let r := _recall_selected Scenario.DATA Scenario.ui_sel Scenario.T1 Scenario.w_tampered in
     raised r = None
     /\ exists new,
          revisions (final r) = revisions Scenario.w_tampered ++ [new]
          /\ content_hash new = Sha256.hexdigest (Scenario.bytes_of "G0 X9")
          /\ content_hash new <> content_hash (Scenario.selected_in Scenario.w_tampered).
Proof.
  split.
  - refine (proj1 (C2_recall_checks_presence_only Scenario.DATA Scenario.ui_sel Scenario.T1
                     Scenario.w_lost _ 1%N eq_refl _ eq_refl) _).
    + vm_compute. reflexivity.
    + vm_compute. reflexivity.
  - intros r.
    assert (Hk : selected_revision_of Scenario.ui_sel Scenario.w_tampered
                 = Some (Scenario.selected_in Scenario.w_tampered))
      by (vm_compute; reflexivity).
    pose proof (proj1 (proj2 (proj2
      (C2_recall_checks_presence_only Scenario.DATA Scenario.ui_sel Scenario.T1
         Scenario.w_tampered _ 1%N eq_refl Hk eq_refl)))) as H.
    cbv zeta in H.
    specialize (H ltac:(vm_compute; reflexivity) ltac:(vm_compute; discriminate)
                  ltac:(vm_compute; discriminate) "a"%string eq_refl).
    set (st := _store_file Scenario.DATA Scenario.T1 _ _ _ _ _ _ Scenario.w_tampered) in H.
    assert (Hst : raised st = None) by (vm_compute; reflexivity).
    rewrite (ok_eta EmptyString st Hst) in H.
    destruct H as (data & Hc & Hr). fold r in Hr.
    assert (Hdata : Fs.content (final st)
                      (PathLib.str (_resolve_path Scenario.DATA
                         (stored_path (Scenario.selected_in Scenario.w_tampered))))
                    = Some (Scenario.bytes_of "G0 X9")) by (vm_compute; reflexivity).
    assert (data = Scenario.bytes_of "G0 X9") as -> by congruence.
    rewrite Hr. split; [reflexivity|]. eexists. split; [reflexivity|].
    split; [reflexivity|]. vm_compute. discriminate.
Defined.

(** C2 as stated fails: the stored bytes of revision 1 no longer hash to
    its recorded content hash, and the recall returns normally with a new
    revision instead of failing. *)
Lemma C2_recall_of_changed_bytes_succeeds :
  let r := _recall_selected Scenario.DATA Scenario.ui_sel Scenario.T1 Scenario.w_tampered in
  selected_revision_of Scenario.ui_sel Scenario.w_tampered
  = Some (Scenario.selected_in Scenario.w_tampered)
  /\ content_hash (Scenario.selected_in Scenario.w_tampered)
     = "59666c28c15a0f9dbef748b27ce7f4ec56dd8a6df7ffa1e8e024ed8c7a2015a6"%string
  /\ option_map Sha256.hexdigest
       (files Scenario.w_tampered
          !! _resolve_path Scenario.DATA (stored_path (Scenario.selected_in Scenario.w_tampered)))
     = Some "e71f5126f9f5ed125a7950f3bcb57b7d358352c01ba7ee6ffbde873f178a037b"%string
  /\ raised r = None
  /\ List.map (fun k => (document_id k, revision_number k, content_hash k))
       (revisions (final r))
     = [(1%N, 1%N, "59666c28c15a0f9dbef748b27ce7f4ec56dd8a6df7ffa1e8e024ed8c7a2015a6"%string);
        (1%N, 2%N, "e71f5126f9f5ed125a7950f3bcb57b7d358352c01ba7ee6ffbde873f178a037b"%string)].
Proof. repeat split; vm_compute; reflexivity. Qed.

(** C8, as the code has it: a recall that creates a revision appends one
    row to the ledger and leaves the documents and all earlier rows as they
    are.  The new row belongs to the document of the recalled revision,
    carries the next revision number, the note "Recalled previous revision"
    and the original file name of the recalled revision; its content hash
    is the hash of the bytes now stored for that revision, so it equals the
    recorded content hash exactly when those bytes still hash to it. *)
Theorem C8_recall_appends_copy_of_stored_bytes DATA_DIR ui now w w' :
  _recall_selected DATA_DIR ui now w = Ok tt w' ->
  revisions w' <> revisions w ->
  exists k new data p,
    selected_revision_of ui w = Some k
    /\ List.In k (revisions w)
    /\ Fs.locate w' (PathLib.str (_resolve_path DATA_DIR (stored_path k))) = inr p
    /\ files w !! p = Some data
    /\ (Forall (fun c => c <> ".."%string) (_resolve_path DATA_DIR (stored_path k)) ->
        p = _resolve_path DATA_DIR (stored_path k))
    /\ revisions w' = revisions w ++ [new]
    /\ documents w' = documents w
    /\ document_id new = document_id k
    /\ _selected_document_id ui = Some (document_id k)
    /\ revision_number new = Db.next_revision_number w (document_id k)
    /\ notes new = Some "Recalled previous revision"%string
    /\ original_filename new = original_filename k
    /\ content_hash new = Sha256.hexdigest data
    /\ (content_hash new = content_hash k <-> Sha256.hexdigest data = content_hash k).
Proof.
  intros Hr Hne.
  destruct (recall_cases DATA_DIR ui now w)
    as [(_ & _ & H)
       |(id & k & p & data & dst & w2 & name & _ & Hk & Hid & _ & Hd & _ & Hloc & Hsrc
         & _ & Hnd & Hr')].
  { rewrite Hr in H. done. }
  rewrite Hr in Hr'. injection Hr' as ->.
  destruct (selected_revision_in ui w k Hk) as (id' & rest & Hid' & _ & Hin & Hdoc).
  rewrite Hid in Hid'. injection Hid' as <-. subst id.
  exists k. eexists. exists data, p.
  split; [done|]. split.
  { unfold Db.revisions_of in Hin. by apply List.filter_In in Hin as [? _]. }
  destruct Hd as (Hf2 & Hdocs & _).
  split.
  { rewrite (locate_ext (set_files (<[dst:=data]> (files w)) w2)) by done.
    apply (locate_more_file w2 _ _ p dst data); try done.
    cbn [files set_files]. by rewrite Hf2. }
  split; [done|]. split.
  { intros Hdd. apply (locate_str w2); [apply resolve_path_wf|done|done]. }
  split; [reflexivity|]. by repeat split.
Qed.

Lemma C8_recall_witness :
  let r := _recall_selected Scenario.DATA Scenario.ui_sel Scenario.T1 Scenario.w1 in
  exists k new,
    List.In k (revisions Scenario.w1)
    /\ revisions (final r) = revisions Scenario.w1 ++ [new]
    /\ notes new = Some "Recalled previous revision"%string
    /\ original_filename new = original_filename k.
Proof.
  intros r.
  assert (Hr : raised r = None) by (vm_compute; reflexivity).
  assert (Hne : length (revisions (final r)) <> length (revisions Scenario.w1))
    by (vm_compute; discriminate).
  destruct (C8_recall_appends_copy_of_stored_bytes Scenario.DATA Scenario.ui_sel Scenario.T1
              Scenario.w1 (final r) (ok_eta_unit r Hr)
              (fun H => Hne (f_equal (@length Revision) H)))
    as (k & new & data & p & _ & Hin & _ & _ & _ & Hrev & _ & _ & _ & _ & Hn & Ho & _).
  exists k, new. exact (conj Hin (conj Hrev (conj Hn Ho))).
Defined.

(** C8 as stated fails: in the ledger in which the stored file of
    revision 1 of document 1 was replaced by the import for line ["L_1"],
    recalling that revision gives revision 2 of document 1 with another
    content hash than revision 1. *)
Lemma C8_recalled_hash_differs :
  List.map (fun r => (document_id r, revision_number r, content_hash r))
    (revisions (final (_recall_selected Scenario.DATA Scenario.ui_sel Scenario.T1 Scenario.w2)))
  = [(1%N, 1%N, "59666c28c15a0f9dbef748b27ce7f4ec56dd8a6df7ffa1e8e024ed8c7a2015a6"%string);
     (2%N, 1%N, "99bc70b3819bbf6cc8f8a2327e375f397b9a065254ea35e3ce691d56a63c08b7"%string);
     (1%N, 2%N, "99bc70b3819bbf6cc8f8a2327e375f397b9a065254ea35e3ce691d56a63c08b7"%string)]
  /\ option_map rev_id (selected_revision_of Scenario.ui_sel Scenario.w2) = Some 1%N.
Proof. split; vm_compute; reflexivity. Qed.

(** ** C7: export *)

(** C7, as the code has it: an export never changes the ledger.  If the
    stored file is missing, it shows "Stored file not found." and copies
    nothing.  If it returns after a copy, the bytes of the stored file are
    at the destination [<folder>/<document name>_rev<number><ext>], [ext]
    being the extension of the stored file; the hash of the exported file
    is the hash of the stored bytes, hence the recorded content hash
    whenever the stored bytes still hash to it. *)
Theorem C7_export_copies_stored_bytes DATA_DIR ui revision target_dir w :
  target_dir <> EmptyString ->
  let stored := _resolve_path DATA_DIR (stored_path revision) in
  let r := _export_revision DATA_DIR ui revision target_dir w in
  revisions (final r) = revisions w
  /\ documents (final r) = documents w
  /\ (Fs.exists_ w stored = false ->
      r = Ok tt (set_dialogs
                   (dialogs w ++ [ShowError "Export Failed" "Stored file not found."]) w))
  /\ (forall w', r = Ok tt w' -> Fs.exists_ w stored = true ->
      exists data name,
        let target := PathLib.div (PathLib.parse target_dir)
                        (name +:+ "_rev" +:+ pretty (revision_number revision)
                              +:+ PathLib.suffix stored) in
        let dst := if Fs.is_dir w target then target ++ [PathLib.name stored] else target in
        doc_tree_name ui w = Ok name w
        /\ files w !! stored = Some data
        /\ files w' = <[dst := data]> (files w)
        /\ files w' !! dst = Some data
        /\ (Sha256.hexdigest data = content_hash revision ->
            forall out, files w' !! dst = Some out ->
                        Sha256.hexdigest out = content_hash revision)).
Proof.
  intros Hdir stored r.
  destruct (export_revision_quiet DATA_DIR ui revision target_dir w) as [Hr Hd].
  split; [exact Hr|]. split; [exact Hd|].
  destruct (export_revision_cases DATA_DIR ui revision target_dir w)
    as [[He _]|[[Hex Hr']|[[e Hr']|(data & name & Hsrc & Hne & Hn & Hr')]]];
    [done|..]; fold r in Hr'; fold stored in Hr'.
  - split; [done|]. fold stored in Hex. intros w' _ Hex'. congruence.
  - split; [|intros w' Hw'; congruence].
    intros Hex. exfalso. revert Hr'. unfold r, _export_revision.
    destruct (String.eqb target_dir ""); [done|].
    unfold mbind, M_bind, bind, get_world. fold stored. by rewrite Hex.
  - fold stored in Hsrc, Hne, Hr'. split.
    + intros Hex. unfold Fs.exists_, Fs.is_file in Hex.
      rewrite Hsrc in Hex. by rewrite bool_decide_eq_true_2 in Hex.
    + intros w' Hw' _. rewrite Hr' in Hw'. injection Hw' as <-.
      exists data, name. cbv zeta. split; [done|]. split; [done|].
      split; [reflexivity|]. cbn [files set_files set_dialogs].
      rewrite lookup_insert_eq. split; [done|].
      intros Hh out [= <-]. exact Hh.
Qed.

Lemma C7_export_witness :
  let k := Scenario.selected_in Scenario.w1 in
  let r := _export_revision Scenario.DATA Scenario.ui_sel k "/out" Scenario.w1 in
  exists name data,
    doc_tree_name Scenario.ui_sel Scenario.w1 = Ok name Scenario.w1
    /\ files Scenario.w1 !! _resolve_path Scenario.DATA (stored_path k) = Some data
    /\ exists dst, files (final r) !! dst = Some data.
Proof.
  intros k r.
  assert (Hr : raised r = None) by (vm_compute; reflexivity).
  assert (Hex : Fs.exists_ Scenario.w1 (_resolve_path Scenario.DATA (stored_path k)) = true)
    by (vm_compute; reflexivity).
  destruct (proj2 (proj2 (proj2
              (C7_export_copies_stored_bytes Scenario.DATA Scenario.ui_sel k "/out" Scenario.w1
                 ltac:(discriminate)))) (final r) (ok_eta_unit r Hr) Hex)
    as (data & name & Hn & Hsrc & _ & Hdst & _).
  exists name, data. split; [exact Hn|]. split; [exact Hsrc|].
  eexists. exact Hdst.
Defined.

(** C7 as stated fails: exporting revision 1 of document 1, whose stored
    file was replaced by the import for line ["L_1"], writes a file whose
    hash is not the recorded content hash of that revision. *)
Lemma C7_exported_hash_differs :
  let r := _export_selected_revision Scenario.DATA Scenario.ui_sel "/out" Scenario.w2 in
  selected_revision_of Scenario.ui_sel Scenario.w2 = Some (Scenario.selected_in Scenario.w2)
  /\ Fs.exists_ Scenario.w2
       (_resolve_path Scenario.DATA (stored_path (Scenario.selected_in Scenario.w2))) = true
  /\ raised r = None
  /\ content_hash (Scenario.selected_in Scenario.w2)
     = "59666c28c15a0f9dbef748b27ce7f4ec56dd8a6df7ffa1e8e024ed8c7a2015a6"%string
  /\ option_map Sha256.hexdigest (files (final r) !! PathLib.parse "/out/a_rev1.txt")
     = Some "99bc70b3819bbf6cc8f8a2327e375f397b9a065254ea35e3ce691d56a63c08b7"%string.
Proof. repeat split; vm_compute; reflexivity. Qed.

(** ** C4: identity resolution on import *)

Section Resolve.

Lemma resolve_some w line machine t name h d :
  Db.resolve w line machine t name h = Some d ->
  List.In d (documents w) /\ is_match w line machine t name h d = true
  /\ (forall d0, Db.by_name w line machine t name = Some d0 -> d = d0).
Proof.
  unfold Db.resolve, Db.by_name, Db.by_hash, is_match.
  destruct (List.find _ (documents w)) as [d0|] eqn:Hn.
  - intros [= <-]. apply List.find_some in Hn as [Hin [Ht Hname]%andb_true_iff].
    split; [done|]. split; [by rewrite Ht, Hname|]. by intros ? [= <-].
  - intros [Hin [Ht Hh]%andb_true_iff]%List.find_some.
    split; [done|]. split; [by rewrite Ht, Hh, orb_true_r|done].
Qed.

Lemma resolve_none w line machine t name h :
  Db.resolve w line machine t name h = None ->
  forall d, List.In d (documents w) -> is_match w line machine t name h d = false.
Proof.
  unfold Db.resolve, Db.by_name, Db.by_hash, is_match.
  destruct (List.find _ (documents w)) as [d0|] eqn:Hn; [done|].
  intros Hh d Hin.
  pose proof (List.find_none _ _ Hn d Hin) as H1.
  pose proof (List.find_none _ _ Hh d Hin) as H2. cbv beta in H1, H2.
  destruct (Db.same_target line machine t d); [|done].
  cbn in *. by rewrite H1, H2.
Qed.

End Resolve.

(** C4: an import whose file has the normalized name of a document of the
    same line, machine and type, or the content hash of one of its
    revisions, creates no document and appends its revision to such a
    document, the one with the name if there is one; a document is created
    only when no document of the target has the name or the hash, and the
    revision is then appended to the new document.  The import fails only
    when the copy into storage fails, with what the copy raises and
    without a new revision. *)
Theorem C4_import_resolves_to_existing_document
    DATA_DIR now src line machine t user w data :
  Fs.content w src = Some data ->
  let name := _normalize_doc_name (PathLib.basename src) in
  let h := Sha256.hexdigest data in
  let r := _save_document DATA_DIR now src line machine t user w in
  let appended (d' : Document) (w0 : World) :=
    match _store_file DATA_DIR now src line machine t name
            (Db.next_revision_number w (doc_id d')) w0 with
    | Raise e w1 => r = Raise e w1 /\ revisions w1 = revisions w
    | Ok path w1 =>
        revisions w1 = revisions w
        /\ r = Ok tt (set_revisions
                        (revisions w ++
                           [mkRevision (Db.fresh_revision_id w) (doc_id d')
                              (Db.next_revision_number w (doc_id d')) path
                              (PathLib.basename src) h user now None]) w1)
    end in
  ((exists d, List.In d (documents w) /\ is_match w line machine t name h d = true) ->
   documents (final r) = documents w
   /\ exists d',
        List.In d' (documents w) /\ is_match w line machine t name h d' = true
        /\ (forall d0, Db.by_name w line machine t name = Some d0 -> d' = d0)
        /\ appended d' w)
  /\ ((forall d, List.In d (documents w) -> is_match w line machine t name h d = false) ->
      exists d', documents (final r) = documents w ++ [d']
                 /\ doc_line d' = line /\ doc_machine d' = machine /\ doc_type d' = t
                 /\ doc_name d' = name /\ doc_active d' = true
                 /\ appended d' (set_documents (documents w ++ [d']) w))
  /\ (documents (final r) <> documents w ->
      forall d, List.In d (documents w) -> is_match w line machine t name h d = false).
Proof.
  intros Hsrc name h r appended.
  pose proof (save_document_eq DATA_DIR now src line machine t user w data Hsrc) as Heq.
  cbv zeta in Heq. fold name h r in Heq.
  assert (Hstore : forall number w0,
            revisions w0 = revisions w ->
            match _store_file DATA_DIR now src line machine t name number w0 with
            | Raise e w1 => revisions w1 = revisions w /\ documents w1 = documents w0
            | Ok path w1 => revisions w1 = revisions w /\ documents w1 = documents w0
            end).
  { intros number w0 Hw0.
    destruct (store_file_cases DATA_DIR now src line machine t name number w0)
      as [(e & w' & -> & Ho & _)|(p' & d' & dst & w2 & Ho & _ & _ & _ & _ & _ & ->)];
      destruct Ho as (_ & Hdoc & Hrev & _); cbn; split; congruence. }
  destruct (Db.resolve w line machine t name h) as [d'|] eqn:R.
  - destruct (resolve_some _ _ _ _ _ _ _ R) as (Hin & Hm & Hfirst).
    cbn [with_document resolved_id] in Heq.
    pose proof (Hstore (Db.next_revision_number w (doc_id d')) w eq_refl) as Hs.
    assert (Hdocs : documents (final r) = documents w).
    { rewrite Heq. by destruct (_store_file _ _ _ _ _ _ _ _ w) as [path w1|e w1];
        destruct Hs as [_ Hs]. }
    split; [|split].
    + intros _. split; [done|]. exists d'. do 3 (split; [done|]).
      unfold appended.
      by destruct (_store_file _ _ _ _ _ _ _ _ w) as [path w1|e w1]; destruct Hs as [Hs _].
    + intros Hnone. by rewrite (Hnone d' Hin) in Hm.
    + done.
  - pose proof (resolve_none _ _ _ _ _ _ R) as Hnone.
    cbn [with_document resolved_id] in Heq.
    set (d' := mkDocument (Db.fresh_document_id w) line machine t name user now true) in *.
    pose proof (Hstore (Db.next_revision_number w (Db.fresh_document_id w))
                  (set_documents (documents w ++ [d']) w) eq_refl) as Hs.
    split; [|split].
    + intros (d & Hin & Hm). by rewrite (Hnone d Hin) in Hm.
    + intros _. exists d'.
      split.
      { rewrite Heq. by destruct (_store_file _ _ _ _ _ _ _ _ _) as [path w1|e w1];
          destruct Hs as [_ Hs]. }
      do 5 (split; [done|]). unfold appended. cbn [doc_id d'].
      by destruct (_store_file _ _ _ _ _ _ _ _ _) as [path w1|e w1]; destruct Hs as [Hs _].
    + by intros _.
Qed.

Lemma C4_import_witness :
  let r := _save_document Scenario.DATA Scenario.T1 "/in/a.txt" "L 1" "M" Program "op"
             Scenario.w1 in
  raised r = None
  /\ documents (final r) = documents Scenario.w1
  /\ exists d' row,
       List.In d' (documents Scenario.w1) /\ doc_name d' = "a"%string
       /\ revisions (final r) = revisions Scenario.w1 ++ [row]
       /\ document_id row = doc_id d'.
Proof.
  intros r.
  assert (Hsrc : Fs.content Scenario.w1 "/in/a.txt" = Some (Scenario.bytes_of "G0 X1"))
    by (vm_compute; reflexivity).
  assert (Hd : exists d, List.In d (documents Scenario.w1)
                         /\ is_match Scenario.w1 "L 1" "M" Program
                              (_normalize_doc_name (PathLib.basename "/in/a.txt"))
                              (Sha256.hexdigest (Scenario.bytes_of "G0 X1")) d = true).
  { exists (mkDocument 1 "L 1" "M" Program "a" "op" Scenario.T0 true).
    split; vm_compute; auto. }
  destruct (proj1 (C4_import_resolves_to_existing_document Scenario.DATA Scenario.T1
                     "/in/a.txt" "L 1" "M" Program "op" Scenario.w1 _ Hsrc) Hd)
    as (Hdocs & d' & Hin & Hm & _ & Happ).
  assert (Hall : Forall (fun d => doc_name d = "a"%string /\ doc_id d = 1%N)
                   (documents Scenario.w1))
    by (vm_compute; repeat constructor).
  rewrite List.Forall_forall in Hall. destruct (Hall d' Hin) as [Hname Hid].
  rewrite Hid in Happ.
  assert (Hok : raised (_store_file Scenario.DATA Scenario.T1 "/in/a.txt" "L 1" "M" Program
                          (_normalize_doc_name (PathLib.basename "/in/a.txt"))
                          (Db.next_revision_number Scenario.w1 1) Scenario.w1) = None)
    by (vm_compute; reflexivity).
  rewrite (ok_eta EmptyString _ Hok) in Happ. destruct Happ as [_ Hr].
  fold r in Hr.
  split; [by rewrite Hr|]. split; [exact Hdocs|].
  exists d'. eexists. split; [exact Hin|]. split; [exact Hname|].
  rewrite Hr. split; [reflexivity|]. by rewrite Hid.
Defined.

(** * Further properties of the code *)

(** ** Hashing and names *)

Lemma fields_app_slash s : Py.fields "/" (s +:+ "/") = Py.fields "/" s ++ [EmptyString].
Proof.
  induction s as [|c s IH]; [reflexivity|].
  rewrite append_cons, !fields_cons, IH.
  destruct (Ascii.eqb c "/"); [reflexivity|].
  destruct (Py.fields "/" s) as [|f fs] eqn:E; [|reflexivity].
  pose proof (f_equal (@length string) E) as Hlen.
  destruct s as [|c' s']; [discriminate E|].
  rewrite fields_cons in E. destruct (Ascii.eqb c' "/"); [discriminate E|].
  by destruct (Py.fields "/" s').
Qed.

Lemma walk_app w : forall cs cur cs',
  Fs.walk w cur (cs ++ cs')
  = match Fs.walk w cur cs with
    | inl e => inl e
    | inr q => Fs.walk w q cs'
    end.
Proof.
  induction cs as [|c cs IH]; intros cur cs'; [reflexivity|].
  change ((c :: cs) ++ cs') with (c :: (cs ++ cs')). rewrite !walk_cons, IH.
  destruct (Fs.is_file w cur); [done|]. by destruct (Fs.is_dir w cur).
Qed.

(** A text that ends with a slash names no regular file. *)
Lemma locate_slash w s q : Fs.locate w (s +:+ "/") = inr q -> Fs.is_file w q = false.
Proof.
  unfold Fs.locate. destruct (String.eqb (s +:+ "/") ""); [done|].
  rewrite fields_app_slash, walk_app.
  destruct (Fs.walk w _ (Py.fields "/" s)) as [e|q']; [done|].
  rewrite walk_cons. destruct (Fs.is_file w q') eqn:Hf; [done|].
  destruct (Fs.is_dir w q'); [|done].
  change (Fs.step q' "") with q'. by intros [= <-].
Qed.

(** X1: [_hash_file] reads the file that the kernel finds under the text it
    is given and returns the SHA-256 of the whole content, whatever the
    size of the chunks it is read in; it leaves the state as it is.  It
    raises what the walk of the text raises, and for a place that is no
    regular file; so it raises for the empty text and for every text that
    ends with a slash. *)
Theorem hash_file_streams_whole_file path w :
  _hash_file path w
  = match Fs.locate w path with
    | inl e => Raise e w
    | inr p =>
        match files w !! p with
        | Some data => Ok (Sha256.hexdigest data) w
        | None => Raise (if Fs.is_dir w p then IsADirectoryError
                         else FileNotFoundError) w
        end
    end
  /\ final (_hash_file path w) = w
  /\ _hash_file EmptyString w = Raise FileNotFoundError w
  /\ raised (_hash_file (path +:+ "/") w) <> None
  /\ forall size data,
       (0 < size)%nat ->
       Sha256.hexdigest (feed_chunks size (S (length data)) data [])
       = Sha256.hexdigest data.
Proof.
  assert (Heq : forall path,
            _hash_file path w
            = match Fs.locate w path with
              | inl e => Raise e w
              | inr p =>
                  match files w !! p with
                  | Some data => Ok (Sha256.hexdigest data) w
                  | None => Raise (if Fs.is_dir w p then IsADirectoryError
                                   else FileNotFoundError) w
                  end
              end).
  { intros text. rewrite hash_file_eq. unfold Fs.open_rb.
    destruct (Fs.locate w text) as [e|p]; [done|]. by destruct (files w !! p). }
  split; [apply Heq|]. split; [|split; [|split]].
  - rewrite Heq. destruct (Fs.locate w path) as [e|p]; [done|]. by destruct (files w !! p).
  - by rewrite Heq.
  - rewrite Heq. destruct (Fs.locate w (path +:+ "/")) as [e|p] eqn:Hloc; [done|].
    apply locate_slash in Hloc. unfold Fs.is_file in Hloc.
    destruct (files w !! p) as [data|] eqn:Hp; [|done].
    rewrite bool_decide_eq_true_2 in Hloc by eauto. done.
  - intros size data Hsize. by rewrite feed_chunks_all by lia.
Qed.

Lemma hash_file_streams_witness :
  Sha256.hexdigest (feed_chunks 2 4 (Scenario.bytes_of "abc") [])
  = Sha256.hexdigest (Scenario.bytes_of "abc").
Proof.
  apply (proj2 (proj2 (proj2 (proj2
           (hash_file_streams_whole_file EmptyString Scenario.w0))))
           2%nat (Scenario.bytes_of "abc")).
  lia.
Defined.

Lemma append_empty_r s : s +:+ EmptyString = s.
Proof. induction s as [|c s IH]; [done|]. by rewrite append_cons, IH. Qed.

Lemma replace_absent a b s : has_char a s = false -> Py.replace a b s = s.
Proof.
  induction s as [|c s IH]; [done|].
  simpl. intros [Hc Hs]%orb_false_elim. by rewrite Hc, (IH Hs).
Qed.

Lemma safe_folder_name_no_space v : has_char " " (_safe_folder_name v) = false.
Proof.
  unfold _safe_folder_name. case_match; [done|]. by apply has_char_replace_same.
Qed.

Lemma safe_folder_name_nonempty v : _safe_folder_name v <> EmptyString.
Proof.
  unfold _safe_folder_name. destruct (String.eqb_spec (Py.replace " " "_" (Py.replace "/" "_" v)) "");
    [done|]. done.
Qed.

(** X2: [_safe_folder_name] gives a non-empty name without slash and without
    space, which it maps to itself; joined to a path it adds at most one
    part. *)
Theorem safe_folder_name_is_one_part v :
  _safe_folder_name v <> EmptyString
  /\ has_char "/" (_safe_folder_name v) = false
  /\ has_char " " (_safe_folder_name v) = false
  /\ _safe_folder_name (_safe_folder_name v) = _safe_folder_name v
  /\ forall p, PathLib.div p (_safe_folder_name v)
               = if String.eqb (_safe_folder_name v) "." then p
                 else p ++ [_safe_folder_name v].
Proof.
  pose proof (safe_folder_name_nonempty v) as Hne.
  pose proof (safe_folder_name_no_slash v) as Hsl.
  pose proof (safe_folder_name_no_space v) as Hsp.
  split; [done|]. split; [done|]. split; [done|]. split.
  - unfold _safe_folder_name at 1.
    rewrite (replace_absent "/") by done. rewrite (replace_absent " ") by done.
    by destruct (String.eqb_spec (_safe_folder_name v) "").
  - intros p. rewrite div_part by done. unfold PathLib.kept_part. simpl.
    destruct (String.eqb_spec (_safe_folder_name v) ""); [done|].
    destruct (String.eqb (_safe_folder_name v) "."); simpl; [by rewrite app_nil_r|done].
Qed.

Section Words.
Import Py NameSpec.

Lemma split_words s : Forall (fun w => is_word w = true) (split s).
Proof.
  induction s as [|c s IH]; [constructor|].
  rewrite split_cons. destruct (is_space c) eqn:E; [exact IH|].
  destruct (at_break s) eqn:Hb.
  - constructor; [|exact IH]. unfold is_word. simpl. by rewrite E.
  - destruct (split s) as [|w ws].
    + repeat constructor. unfold is_word. simpl. by rewrite E.
    + inversion IH as [|? ? Hw Hws]; subst. constructor; [|exact Hws].
      unfold is_word in *. simpl. rewrite E. simpl.
      by apply andb_true_iff in Hw as [_ ->].
Qed.

Lemma word_cons c w :
  is_word (String c w) = true ->
  is_space c = false /\ (w = EmptyString \/ is_word w = true).
Proof.
  unfold is_word. simpl. intros H. apply negb_true_iff, orb_false_elim in H as [Hc Hw].
  split; [done|]. destruct w; [by left|right]. simpl in *. by rewrite Hw.
Qed.

Lemma word_not_break w : is_word w = true -> at_break w = false.
Proof. destruct w as [|c w]; [done|]. by intros [? _]%word_cons. Qed.

(** A word followed by a space and more text is the first word of it. *)
Lemma split_word_space w r :
  is_word w = true -> split (w +:+ String " " r) = w :: split r.
Proof.
  induction w as [|c w IH]; [done|].
  intros [Hc Hw]%word_cons. rewrite append_cons, split_cons, Hc.
  destruct Hw as [->|Hw].
  - rewrite append_nil_l. cbn [at_break]. change (is_space " ") with true.
    cbv iota. by rewrite split_cons.
  - assert (at_break (w +:+ String " " r) = false) as ->.
    { destruct w; [done|]. simpl. by apply word_cons in Hw as [? _]. }
    by rewrite (IH Hw).
Qed.

Lemma split_word w : is_word w = true -> split w = [w].
Proof.
  induction w as [|c w IH]; [done|].
  intros [Hc Hw]%word_cons. rewrite split_cons, Hc. destruct Hw as [->|Hw]; [done|].
  by rewrite (word_not_break w Hw), (IH Hw).
Qed.

Lemma split_join ws :
  Forall (fun w => is_word w = true) ws -> split (join " " ws) = ws.
Proof.
  induction ws as [|w ws IH]; [done|].
  intros H. inversion H as [|? ? Hw Hws]; subst.
  destruct ws as [|w' ws]; [by apply split_word|].
  rewrite join_cons2.
  change (" " +:+ join " " (w' :: ws)) with (String " " (join " " (w' :: ws))).
  rewrite split_word_space by done. f_equal. by apply IH.
Qed.

Lemma has_char_split c s :
  has_char c s = false -> Forall (fun w => has_char c w = false) (split s).
Proof.
  induction s as [|x s IH]; [constructor|].
  simpl has_char. intros [Hx Hs]%orb_false_elim. specialize (IH Hs).
  rewrite split_cons. destruct (is_space x); [exact IH|].
  destruct (at_break s).
  - constructor; [|exact IH]. simpl. by rewrite Hx.
  - destruct (split s) as [|w ws].
    + repeat constructor. simpl. by rewrite Hx.
    + inversion IH; subst. constructor; [|done]. simpl. by rewrite Hx.
Qed.

Lemma has_char_join c sep ws :
  has_char c sep = false -> Forall (fun w => has_char c w = false) ws ->
  has_char c (join sep ws) = false.
Proof.
  intros Hsep. induction ws as [|w ws IH]; [done|].
  intros H. inversion H as [|? ? Hw Hws]; subst.
  destruct ws as [|w' ws]; [done|].
  rewrite join_cons2, !has_char_app, Hw, Hsep. by apply IH.
Qed.

Lemma collapse_ws_cons c s :
  collapse_ws (String c s)
  = if is_space c then
      if starts_space s then collapse_ws s else String " " (collapse_ws s)
    else String c (collapse_ws s).
Proof. reflexivity. Qed.

Lemma collapse_ws_words s : collapse_ws (join " " (split s)) = join " " (split s).
Proof.
  assert (Hgen : forall ws, Forall (fun w => is_word w = true) ws ->
                   collapse_ws (join " " ws) = join " " ws).
  { induction ws as [|w ws IH]; [done|].
    intros H. inversion H as [|? ? Hw Hws]; subst. specialize (IH Hws).
    assert (Hword : forall x, collapse_ws (w +:+ x) = w +:+ collapse_ws x).
    { intros x. clear H IH Hws. induction w as [|c w IHw]; [done|].
      apply word_cons in Hw as [Hc Hw]. rewrite !append_cons.
      simpl collapse_ws. rewrite Hc. f_equal.
      destruct Hw as [->|Hw]; [done|]. by apply IHw. }
    destruct ws as [|w' ws].
    - change (join " " [w]) with w. rewrite <- (append_empty_r w) at 1.
      rewrite Hword. simpl. by rewrite append_empty_r.
    - rewrite join_cons2, Hword. f_equal.
      change (" " +:+ join " " (w' :: ws)) with (String " " (join " " (w' :: ws))).
      rewrite collapse_ws_cons. change (is_space " ") with true. cbv iota.
      inversion Hws as [|? ? Hw' _]; subst.
      destruct (join_head " " w' ws) as [Hj _].
      { intros ->. discriminate Hw'. }
      rewrite Hj.
      assert (starts_space w' = false) as ->.
      { destruct w'; [done|]. by apply word_cons in Hw' as [? _]. }
      by rewrite IH. }
  apply Hgen, split_words.
Qed.

End Words.

(** X3: A normalized document name has no underscore and no whitespace but
    single spaces between its words: trimming it, collapsing its whitespace
    or splitting and joining it again gives the same name. *)
Theorem normalize_doc_name_is_clean filename :
  let n := _normalize_doc_name filename in
  has_char "_" n = false
  /\ Py.join " " (Py.split n) = n
  /\ Py.strip n = n
  /\ NameSpec.collapse_ws n = n.
Proof.
  intros n. unfold n, _normalize_doc_name.
  set (s := Py.strip (Py.replace "_" " " (PathLib.stem (PathLib.parse filename)))).
  split; [|split; [|split]].
  - apply has_char_join; [done|]. apply has_char_split.
    unfold s. clear.
    assert (Hl : forall y, has_char "_" y = false -> has_char "_" (Py.lstrip y) = false).
    { induction y as [|c y IH]; [done|]. simpl. intros H.
      pose proof H as [Hc Hy]%orb_false_elim.
      destruct (Py.is_space c); [by apply IH|]. simpl. exact H. }
    assert (Hr : forall y, has_char "_" y = false -> has_char "_" (Py.rstrip y) = false).
    { induction y as [|c y IH]; [done|]. intros H.
      assert (Hcy : Ascii.eqb c "_" = false /\ has_char "_" y = false)
        by (by apply orb_false_elim).
      destruct Hcy as [Hc Hy]. rewrite rstrip_cons. specialize (IH Hy).
      destruct (Py.rstrip y); [destruct (Py.is_space c); simpl; by rewrite ?Hc|].
      simpl in *. by rewrite Hc, IH. }
    unfold Py.strip. by apply Hr, Hl, has_char_replace_same.
  - by rewrite split_join by apply split_words.
  - rewrite <- (collapse_ws_words s) at 1. rewrite strip_collapse.
    by rewrite split_join by apply split_words.
  - apply collapse_ws_words.
Qed.

(** ** Stored files *)

Section Stored.
Import PathLib.
Variable DATA_DIR : string.

Lemma prefixes_length d : forall p, List.In p (Fs.prefixes d) -> (length p <= length d)%nat.
Proof.
  induction d as [|x d IH]; [done|]. intros p [<-|Hin]; [simpl; lia|].
  apply List.in_map_iff in Hin as (q & <- & Hq). simpl. specialize (IH q Hq). lia.
Qed.

Lemma is_dir_after_mkdir w d p :
  (length d < length p)%nat ->
  Fs.is_dir (set_dirs (dirs w ∪ list_to_set (Fs.prefixes d)) w) p = Fs.is_dir w p.
Proof.
  intros Hlen. unfold Fs.is_dir. cbn [dirs set_dirs]. f_equal.
  apply bool_decide_ext. rewrite elem_of_union, elem_of_list_to_set, list_elem_of_In.
  split; [|by left]. intros [H|H]; [done|].
  apply prefixes_length in H. lia.
Qed.

Lemma folder_parts_good line machine t name :
  Forall (fun c => good_part c = true) (folder_parts line machine t name).
Proof.
  unfold folder_parts. apply List.Forall_forall. intros c [Hin Hk]%List.filter_In.
  unfold good_part. rewrite Hk, andb_true_r. apply negb_true_iff.
  simpl in Hin.
  destruct Hin as [<-|[<-|[<-|[<-|[<-|[]]]]]];
    auto using safe_folder_name_no_slash, doc_type_str_no_slash.
Qed.

(** The relative path that [_store_file] returns leads back to its target. *)
Lemma resolve_stored_path line machine t name number now ext :
  has_char "/" ext = false ->
  _resolve_path DATA_DIR
    (str (folder_parts line machine t name ++ [rev_file_name number now ext]))
  = parse DATA_DIR ++ folder_parts line machine t name ++ [rev_file_name number now ext].
Proof.
  intros Hext.
  assert (Hgood : Forall (fun c => good_part c = true)
                    (folder_parts line machine t name ++ [rev_file_name number now ext])).
  { apply Forall_app. split; [apply folder_parts_good|].
    repeat constructor. by apply rev_file_name_good. }
  destruct (folder_parts_head line machine t name) as [rest Hfp].
  rewrite Hfp in Hgood |- *.
  unfold _resolve_path, div.
  change (str (("storage"%string :: rest) ++ [rev_file_name number now ext]))
    with (Py.join "/" (("storage"%string :: rest) ++ [rev_file_name number now ext])).
  by rewrite join_starts, fields_join.
Qed.

(** A successful [_store_file], in full. *)
Lemma store_file_result now src line machine t name number w path w' :
  _store_file DATA_DIR now src line machine t name number w = Ok path w' ->
  let target := _resolve_path DATA_DIR path in
  let dst := if Fs.is_dir w target then Fs.step target (basename src) else target in
  exists p data,
    Fs.locate w' src = inr p /\ files w !! p = Some data
    /\ path = str (folder_parts line machine t name
                   ++ [rev_file_name number now (suffix (parse src))])
    /\ p <> dst /\ Fs.is_dir w dst = false
    /\ files w' = <[dst := data]> (files w)
    /\ documents w' = documents w /\ revisions w' = revisions w
    /\ dialogs w' = dialogs w /\ dirs w ⊆ dirs w'.
Proof.
  rewrite store_file_eq. cbv zeta.
  set (dir := parse DATA_DIR ++ folder_parts line machine t name).
  set (fname := rev_file_name number now (suffix (parse src))).
  destruct (mkdir_p_cases dir w) as [[e ->]| ->]; [done|].
  set (w1 := set_dirs _ w).
  destruct (copy2_from_cases src (dir ++ [fname]) w1)
    as [[e ->]|(p & data & Hloc & Hsrc & Hne & Hnd & ->)]; [done|].
  intros Heq.
  assert (Hp : path = str (folder_parts line machine t name ++ [fname])) by congruence.
  assert (Hw : w' = set_files
                      (<[if Fs.is_dir w1 (dir ++ [fname])
                         then Fs.step (dir ++ [fname]) (basename src)
                         else dir ++ [fname] := data]> (files w1)) w1) by congruence.
  clear Heq. subst path w'.
  assert (Hres : _resolve_path DATA_DIR
                   (str (folder_parts line machine t name ++ [fname])) = dir ++ [fname]).
  { unfold fname, dir. rewrite resolve_stored_path by apply suffix_no_slash, parse_wf.
    by rewrite <- app_assoc. }
  rewrite Hres.
  assert (Hdir : Fs.is_dir w1 (dir ++ [fname]) = Fs.is_dir w (dir ++ [fname])).
  { apply is_dir_after_mkdir. rewrite List.length_app. simpl. lia. }
  rewrite Hdir in Hne, Hnd |- *.
  set (dst := if Fs.is_dir w (dir ++ [fname])
              then Fs.step (dir ++ [fname]) (basename src) else dir ++ [fname]) in *.
  assert (Hsub : dirs w ⊆ dirs w1) by (unfold w1; cbn; set_solver).
  exists p, data.
  split.
  { apply (locate_more_file w1 _ _ p dst data); done. }
  do 3 (split; [done|]).
  split.
  { destruct (Fs.is_dir w dst) eqn:E; [|done].
    by rewrite (is_dir_mono w w1 dst Hsub E) in Hnd. }
  by repeat split.
Qed.

End Stored.

(** X4: After a successful [_store_file] whose target is not a directory, the
    returned path, resolved against the storage root, holds the bytes of
    the file that the source text names; the source and every other file
    are as before, and so are the two tables.  The source text is read as
    the system reads it; without a [..] component it names the file at the
    parts [pathlib] sees in it. *)
Theorem store_file_then_resolve DATA_DIR now src line machine t name number w path w' :
  _store_file DATA_DIR now src line machine t name number w = Ok path w' ->
  Fs.is_dir w (_resolve_path DATA_DIR path) = false ->
  exists p data,
    Fs.locate w' src = inr p
    /\ (Forall (fun c => c <> ".."%string) (Py.fields "/" src) -> p = PathLib.parse src)
    /\ files w !! p = Some data
    /\ files w' !! _resolve_path DATA_DIR path = Some data
    /\ files w' !! p = Some data
    /\ Fs.content w' src = Some data
    /\ (forall q, q <> _resolve_path DATA_DIR path -> files w' !! q = files w !! q)
    /\ documents w' = documents w /\ revisions w' = revisions w.
Proof.
  intros H Hdir. destruct (store_file_result DATA_DIR _ _ _ _ _ _ _ _ _ _ H)
    as (p & data & Hloc & Hsrc & _ & Hne & _ & Hf & Hd & Hr & _).
  rewrite Hdir in Hne, Hf. exists p, data. rewrite Hf.
  split; [done|]. split; [intros Hdd; by apply (locate_parse w')|].
  split; [done|]. split; [apply lookup_insert_eq|].
  split; [by rewrite lookup_insert_ne|].
  split; [unfold Fs.content; by rewrite Hloc, Hf, lookup_insert_ne|].
  split; [|done]. intros q Hq. by rewrite lookup_insert_ne.
Qed.

Lemma store_file_then_resolve_witness :
  let r := _store_file Scenario.DATA Scenario.T0 "/in/a.txt" "L 1" "M" Program "a" 1
             Scenario.w0 in
  exists data,
    files (final r) !! _resolve_path Scenario.DATA (returned EmptyString r) = Some data
    /\ files Scenario.w0 !! PathLib.parse "/in/a.txt" = Some data.
Proof.
  intros r.
  assert (Hr : raised r = None) by (vm_compute; reflexivity).
  assert (Hd : Fs.is_dir Scenario.w0 (_resolve_path Scenario.DATA (returned EmptyString r))
               = false) by (vm_compute; reflexivity).
  destruct (store_file_then_resolve Scenario.DATA Scenario.T0 "/in/a.txt" "L 1" "M" Program
              "a" 1 Scenario.w0 _ _ (ok_eta EmptyString r Hr) Hd)
    as (p & data & _ & Hp & Hsrc & Hdst & _).
  exists data. split; [exact Hdst|].
  rewrite <- Hp; [exact Hsrc|]. vm_compute. repeat constructor; discriminate.
Defined.

(** X5: A successful import adds one row that records the hash of the bytes
    read through the source text, the base name of the source and no note;
    unless the path of the row was already a directory, the file under
    that path then holds exactly the bytes whose hash the row records. *)
Theorem import_stores_what_it_records DATA_DIR now src line machine t user w w' :
  _save_document DATA_DIR now src line machine t user w = Ok tt w' ->
  exists data row,
    Fs.content w src = Some data
    /\ (Forall (fun c => c <> ".."%string) (Py.fields "/" src) ->
        files w !! PathLib.parse src = Some data)
    /\ revisions w' = revisions w ++ [row]
    /\ content_hash row = Sha256.hexdigest data
    /\ original_filename row = PathLib.basename src
    /\ rev_created_by row = user
    /\ notes row = None
    /\ (Fs.is_dir w (_resolve_path DATA_DIR (stored_path row)) = false ->
        files w' !! _resolve_path DATA_DIR (stored_path row) = Some data).
Proof.
  intros Hok.
  destruct (Fs.content w src) as [data|] eqn:Hc.
  2:{ pose proof (save_document_cases DATA_DIR now src line machine t user w) as H.
      cbv zeta in H. rewrite Hc in H. destruct H as [e He]. congruence. }
  pose proof (save_document_eq DATA_DIR now src line machine t user w data Hc) as Heq.
  cbv zeta in Heq. rewrite Hok in Heq.
  set (name := _normalize_doc_name (PathLib.basename src)) in *.
  set (found := Db.resolve w line machine t name (Sha256.hexdigest data)) in *.
  set (number := Db.next_revision_number w (resolved_id found w)) in *.
  set (w1 := with_document now line machine t name user found w) in *.
  destruct (with_document_revisions now line machine t name user found w)
    as (Hrev & Hfiles & _). fold w1 in Hrev, Hfiles.
  destruct (_store_file DATA_DIR now src line machine t name number w1)
    as [path w2|e w2] eqn:Hst; [|done].
  destruct (store_file_result DATA_DIR _ _ _ _ _ _ _ _ _ _ Hst)
    as (p & data' & Hloc & Hsrc' & _ & _ & _ & Hf & _ & Hr & _).
  assert (Hw' : w' = set_revisions
                       (revisions w ++ [mkRevision (Db.fresh_revision_id w)
                                          (resolved_id found w) number path
                                          (PathLib.basename src) (Sha256.hexdigest data)
                                          user now None]) w2) by congruence.
  clear Heq Hok. subst w'. exists data. eexists.
  split; [done|]. split.
  { intros Hdd. unfold Fs.content in Hc.
    destruct (Fs.locate w src) as [e|q] eqn:Hq; [done|].
    by rewrite <- (locate_parse w src q Hdd Hq). }
  split; [reflexivity|]. do 4 (split; [reflexivity|]).
  cbn. intros Hdir. rewrite Hf.
  assert (Fs.is_dir w1 (_resolve_path DATA_DIR path)
          = Fs.is_dir w (_resolve_path DATA_DIR path)) as -> by (by destruct found).
  rewrite Hdir.
  (* the bytes copied are the bytes hashed *)
  assert (Hsame : data' = data).
  { unfold Fs.content in Hc. destruct (Fs.locate w src) as [e|q] eqn:Hq; [done|].
    assert (Hq2 : Fs.locate w2 src = inr q).
    { destruct (store_file_cases DATA_DIR now src line machine t name number w1)
        as [(e & w' & He & _)|(p' & d' & dst & w3 & Ho & Hsub & Hl3 & _ & _ & Hnd & He)];
        [congruence|].
      assert (w2 = set_files (<[dst:=d']> (files w1)) w3) as -> by congruence.
      destruct Ho as (Hf3 & _).
      apply (locate_more_file w3 _ _ q dst d'); [by cbn; rewrite Hf3|done|done|].
      apply (locate_more_dirs w); [by rewrite Hf3|by destruct found|done]. }
    assert (q = p) as -> by congruence. rewrite Hfiles in Hsrc'. congruence. }
  rewrite Hsame. apply lookup_insert_eq.
Qed.

Lemma import_stores_witness :
  let r := _save_document Scenario.DATA Scenario.T0 "/in/a.txt" "L 1" "M" Program "op"
             Scenario.w0 in
  exists data row,
    revisions (final r) = revisions Scenario.w0 ++ [row]
    /\ content_hash row = Sha256.hexdigest data.
Proof.
  intros r.
  assert (Hr : raised r = None) by (vm_compute; reflexivity).
  destruct (import_stores_what_it_records Scenario.DATA Scenario.T0 "/in/a.txt" "L 1" "M"
              Program "op" Scenario.w0 _ (ok_eta_unit r Hr))
    as (data & row & _ & _ & Hrev & Hh & _).
  exists data, row. exact (conj Hrev Hh).
Defined.

(** X6: A recall that adds a row leaves the stored file of the recalled
    revision as it is, and, unless the path of the new row was already a
    directory, the file under the new path holds the same bytes, whose hash
    the new row records.  The stored file is the one that the text of the
    stored path names, which is the file at the path itself when no part
    of it is [..]. *)
Theorem recall_stores_copy_of_source DATA_DIR ui now w w' :
  _recall_selected DATA_DIR ui now w = Ok tt w' ->
  revisions w' <> revisions w ->
  exists k row data p,
    selected_revision_of ui w = Some k
    /\ revisions w' = revisions w ++ [row]
    /\ Fs.locate w' (PathLib.str (_resolve_path DATA_DIR (stored_path k))) = inr p
    /\ (Forall (fun c => c <> ".."%string) (_resolve_path DATA_DIR (stored_path k)) ->
        p = _resolve_path DATA_DIR (stored_path k))
    /\ files w !! p = Some data
    /\ files w' !! p = Some data
    /\ content_hash row = Sha256.hexdigest data
    /\ (Fs.is_dir w (_resolve_path DATA_DIR (stored_path row)) = false ->
        files w' !! _resolve_path DATA_DIR (stored_path row) = Some data).
Proof.
  unfold _recall_selected.
  destruct (readonly ui); [by intros [= <-]|].
  unfold mbind, M_bind, bind. rewrite selected_revision_eq.
  destruct (selected_revision_of ui w) as [k|] eqn:Hk; [|by intros [= <-]].
  destruct (_selected_document_id ui) as [id|]; [|by intros [= <-]].
  unfold get_world.
  set (stored := _resolve_path DATA_DIR (stored_path k)).
  destruct (Fs.exists_ w stored); [|by intros [= <-]].
  cbn [negb].
  destruct (require_line_machine_cases ui w) as [-> | ->]; [by intros [= <-]|].
  destruct (doc_tree_name_cases ui w) as [-> |[name ->]]; [done|].
  unfold Db.get_next_machine_document_revision_number.
  destruct (_store_file DATA_DIR now (PathLib.str stored) _ _ _ name _ w)
    as [path w2|e w2] eqn:Hst; [|done].
  destruct (store_file_result DATA_DIR _ _ _ _ _ _ _ _ _ _ Hst)
    as (p & data & Hloc & Hsrc & _ & Hne & _ & Hf & _ & Hr & _).
  assert (Hc : Fs.content w2 (PathLib.str stored) = Some data).
  { unfold Fs.content. by rewrite Hloc, Hf, lookup_insert_ne. }
  rewrite (hash_file_content _ _ data Hc).
  unfold Db.add_machine_document_revision, ret.
  destruct (N.eqb _ _); [|done].
  intros Heq _.
  assert (Hw' : w' = set_revisions
                       (revisions w2 ++
                          [mkRevision (Db.fresh_revision_id w2) id
                             (Db.next_revision_number w id) path (original_filename k)
                             (Sha256.hexdigest data) (_get_username ui) now
                             (Some "Recalled previous revision"%string)]) w2) by congruence.
  clear Heq. subst w'. exists k. eexists. exists data, p.
  split; [done|]. split; [cbn; by rewrite Hr|].
  split; [by rewrite (locate_ext w2)|].
  split.
  { intros Hdd. apply (locate_str w2); [apply resolve_path_wf|done|done]. }
  split; [done|]. cbn [files set_revisions]. rewrite Hf.
  split; [by rewrite lookup_insert_ne|]. split; [reflexivity|].
  cbn. intros Hdir. rewrite Hdir. apply lookup_insert_eq.
Qed.

Lemma recall_stores_witness :
  let r := _recall_selected Scenario.DATA Scenario.ui_sel Scenario.T1 Scenario.w1 in
  exists k data,
    files Scenario.w1 !! _resolve_path Scenario.DATA (stored_path k) = Some data
    /\ files (final r) !! _resolve_path Scenario.DATA (stored_path k) = Some data.
Proof.
  intros r.
  assert (Hr : raised r = None) by (vm_compute; reflexivity).
  assert (Hne : length (revisions (final r)) <> length (revisions Scenario.w1))
    by (vm_compute; discriminate).
  destruct (recall_stores_copy_of_source Scenario.DATA Scenario.ui_sel Scenario.T1
              Scenario.w1 (final r) (ok_eta_unit r Hr)
              (fun H => Hne (f_equal (@length Revision) H)))
    as (k & row & data & p & Hk & _ & _ & Hp & H1 & H2 & _).
  assert (Hsel : selected_revision_of Scenario.ui_sel Scenario.w1
                 = Some (Scenario.selected_in Scenario.w1)) by (vm_compute; reflexivity).
  assert (k = Scenario.selected_in Scenario.w1) as Hkk by congruence.
  assert (Hdd : Forall (fun c => c <> ".."%string)
                  (_resolve_path Scenario.DATA
                     (stored_path (Scenario.selected_in Scenario.w1))))
    by (vm_compute; repeat constructor; discriminate).
  rewrite <- Hkk in Hdd. rewrite (Hp Hdd) in H1, H2.
  exists k, data. exact (conj H1 H2).
Defined.

(** ** Stored paths *)

Section StoredPaths.
Import PathLib.

Lemma rfind_drop c : forall s i, Py.rfind c s = Some i -> exists rest, Py.drop i s = String c rest.
Proof.
  induction s as [|c' s IH]; [done|]. intros i. simpl.
  destruct (Py.rfind c s) as [j|] eqn:E.
  - intros [= <-]. simpl. by apply IH.
  - destruct (Ascii.eqb_spec c' c) as [->|]; [|done]. intros [= <-]. by exists s.
Qed.

Lemma suffix_is_ext p : is_ext (suffix p) = true.
Proof.
  unfold suffix, suffix_dot. destruct (Py.rfind "." (name p)) as [i|] eqn:E; [|done].
  destruct ((0 <? i) && (i <? String.length (name p) - 1))%nat; [|done].
  by destruct (rfind_drop _ _ _ E) as [rest ->].
Qed.

(** A numeral followed by an extension: both are determined. *)
Lemma digits_then_ext d1 : forall d2 r1 r2,
  all_digits d1 = true -> all_digits d2 = true -> is_ext r1 = true -> is_ext r2 = true ->
  d1 +:+ r1 = d2 +:+ r2 -> d1 = d2 /\ r1 = r2.
Proof.
  induction d1 as [|c d1 IH]; intros [|c' d2] r1 r2; simpl.
  - by intros _ _ _ _ H.
  - intros _ [Hc _]%andb_true_iff Hr1 _ H.
    change (r1 = String c' (d2 +:+ r2)) in H. subst r1. simpl in Hr1.
    by rewrite Hc in Hr1.
  - intros [Hc _]%andb_true_iff _ _ Hr2 H.
    change (String c (d1 +:+ r1) = r2) in H. subst r2. simpl in Hr2.
    by rewrite Hc in Hr2.
  - intros [_ H1]%andb_true_iff [_ H2]%andb_true_iff Hr1 Hr2 H. injection H as -> H.
    destruct (IH d2 r1 r2 H1 H2 Hr1 Hr2 H) as [-> ->]. done.
Qed.

Lemma rev_file_name_inj_all n1 t1 e1 n2 t2 e2 :
  is_ext e1 = true -> is_ext e2 = true ->
  rev_file_name n1 t1 e1 = rev_file_name n2 t2 e2 -> n1 = n2 /\ t1 = t2 /\ e1 = e2.
Proof.
  intros He1 He2 H. pose proof (rev_file_name_inj _ _ _ _ _ _ H) as ->.
  split; [done|]. unfold rev_file_name in H.
  apply (append_inv_head "rev_"), (append_inv_head (pretty n2)),
    (append_inv_head "_") in H.
  destruct (digits_then_ext _ _ _ _ (pretty_N_digits t1) (pretty_N_digits t2) He1 He2 H)
    as [Ht ->].
  split; [|done]. by apply (inj pretty).
Qed.

(** The text of a relative path of good parts determines the parts. *)
Lemma join_good_inj xs ys :
  Forall (fun c => good_part c = true) xs -> Forall (fun c => good_part c = true) ys ->
  Py.join "/" xs = Py.join "/" ys -> xs = ys.
Proof.
  intros Hx Hy H. rewrite <- (fields_join xs Hx), <- (fields_join ys Hy). by rewrite H.
Qed.

Lemma stored_path_text line machine t name fname :
  str (folder_parts line machine t name ++ [fname])
  = Py.join "/" (folder_parts line machine t name ++ [fname]).
Proof. destruct (folder_parts_head line machine t name) as [rest ->]. reflexivity. Qed.

End StoredPaths.

(** X20: The path [_store_file] returns is the text of
    [storage/<line>/<machine>/<doc_type>/<name>/rev_<number>_<timestamp><ext>]
    with the folder names made by [_safe_folder_name].  Two stores return
    the same path exactly when their folders, numbers, timestamps and
    extensions are the same; so different revision numbers always give
    different paths, whatever the folders, and equal numbers give the same
    path whenever the folder names come out equal within one second. *)
Theorem stored_paths_differ_by_number DATA_DIR
    now1 src1 line1 machine1 t1 name1 n1 w1 p1 w1'
    now2 src2 line2 machine2 t2 name2 n2 w2 p2 w2' :
  _store_file DATA_DIR now1 src1 line1 machine1 t1 name1 n1 w1 = Ok p1 w1' ->
  _store_file DATA_DIR now2 src2 line2 machine2 t2 name2 n2 w2 = Ok p2 w2' ->
  p1 = PathLib.str (folder_parts line1 machine1 t1 name1
                    ++ [rev_file_name n1 now1 (PathLib.suffix (PathLib.parse src1))])
  /\ (_safe_folder_name line1 <> "."%string -> _safe_folder_name machine1 <> "."%string ->
      _safe_folder_name name1 <> "."%string ->
      p1 = "storage/" +:+ _safe_folder_name line1 +:+ "/" +:+ _safe_folder_name machine1
           +:+ "/" +:+ doc_type_str t1 +:+ "/" +:+ _safe_folder_name name1
           +:+ "/rev_" +:+ pretty n1 +:+ "_" +:+ pretty now1
           +:+ PathLib.suffix (PathLib.parse src1))
  /\ (n1 <> n2 -> p1 <> p2)
  /\ (p1 = p2 <->
      folder_parts line1 machine1 t1 name1 = folder_parts line2 machine2 t2 name2
      /\ n1 = n2 /\ now1 = now2
      /\ PathLib.suffix (PathLib.parse src1) = PathLib.suffix (PathLib.parse src2)).
Proof.
  intros H1 H2.
  assert (Hform : forall now src line machine t name n w p w',
             _store_file DATA_DIR now src line machine t name n w = Ok p w' ->
             p = PathLib.str (folder_parts line machine t name
                              ++ [rev_file_name n now (PathLib.suffix (PathLib.parse src))])).
  { intros now src line machine t name n w p w' H.
    destruct (store_file_cases DATA_DIR now src line machine t name n w)
      as [(e & w0 & He & _)|(q & data & dst & w0 & _ & _ & _ & _ & _ & _ & He)]; congruence. }
  apply Hform in H1, H2.
  assert (Hiff : p1 = p2 <->
            folder_parts line1 machine1 t1 name1 = folder_parts line2 machine2 t2 name2
            /\ n1 = n2 /\ now1 = now2
            /\ PathLib.suffix (PathLib.parse src1) = PathLib.suffix (PathLib.parse src2)).
  { subst p1 p2. split.
    - rewrite !stored_path_text. intros Heq. apply join_good_inj in Heq.
      + apply app_inj_tail in Heq as [Hf Hn]. split; [done|].
        by apply rev_file_name_inj_all in Hn; [|apply suffix_is_ext..].
      + apply Forall_app. split; [apply folder_parts_good|].
        repeat constructor. apply rev_file_name_good, suffix_no_slash, parse_wf.
      + apply Forall_app. split; [apply folder_parts_good|].
        repeat constructor. apply rev_file_name_good, suffix_no_slash, parse_wf.
    - by intros (-> & -> & -> & ->). }
  split; [exact H1|]. split; [|split; [|exact Hiff]].
  - intros Hl Hm Hn. subst p1. unfold folder_parts.
    assert (Hk : forall v, _safe_folder_name v <> "."%string ->
                   PathLib.kept_part (_safe_folder_name v) = true).
    { intros v Hv. unfold PathLib.kept_part.
      destruct (String.eqb_spec (_safe_folder_name v) "") as [He|_].
      - by apply safe_folder_name_nonempty in He.
      - by destruct (String.eqb_spec (_safe_folder_name v) "."). }
    cbn [List.filter]. rewrite !Hk by done.
    change (PathLib.kept_part "storage") with true.
    assert (PathLib.kept_part (doc_type_str t1) = true) as -> by by destruct t1.
    cbv iota. unfold rev_file_name. cbn [app PathLib.str Py.join String.eqb Ascii.eqb Bool.eqb].
    reflexivity.
  - intros Hne Heq. apply Hiff in Heq as (_ & Hn & _). done.
Qed.

Lemma stored_paths_witness :
  let r1 := _store_file Scenario.DATA Scenario.T0 "/in/a.txt" "L 1" "M" Program "a" 1
              Scenario.w0 in
  let r2 := _store_file Scenario.DATA Scenario.T1 "/in2/a.txt" "L_1" "M" Program "a" 2
              Scenario.w0 in
  raised r1 = None /\ raised r2 = None
  /\ returned EmptyString r1 <> returned EmptyString r2.
Proof.
  intros r1 r2.
  assert (H1 : raised r1 = None) by (vm_compute; reflexivity).
  assert (H2 : raised r2 = None) by (vm_compute; reflexivity).
  split; [exact H1|]. split; [exact H2|].
  apply (proj1 (proj2 (proj2
    (stored_paths_differ_by_number Scenario.DATA
       Scenario.T0 "/in/a.txt" "L 1" "M" Program "a" 1 Scenario.w0 _ _
       Scenario.T1 "/in2/a.txt" "L_1" "M" Program "a" 2 Scenario.w0 _ _
       (ok_eta EmptyString r1 H1) (ok_eta EmptyString r2 H2))))).
  discriminate.
Defined.

(** ** Handlers at their edges *)

Section Edges.
Variable DATA_DIR : string.
Variable str_exc : exn -> string.

Lemma save_document_outcome now src line machine t user w :
  let r := _save_document DATA_DIR now src line machine t user w in
  (exists e w1, r = Raise e w1 /\ revisions w1 = revisions w /\ dialogs w1 = dialogs w)
  \/ (exists w1 row, r = Ok tt w1 /\ revisions w1 = revisions w ++ [row]
                     /\ dialogs w1 = dialogs w).
Proof.
  intros r. unfold r.
  pose proof (save_document_cases DATA_DIR now src line machine t user w) as H.
  cbv zeta in H. destruct (Fs.content w src) as [data|].
  - destruct (with_document_revisions now line machine t
                (_normalize_doc_name (PathLib.basename src)) user
                (Db.resolve w line machine t (_normalize_doc_name (PathLib.basename src))
                   (Sha256.hexdigest data)) w) as (Hrev & _ & Hdl).
    destruct H as [(e & w' & -> & Hd & _)|(p & dst & w2 & Hd & _ & _ & _ & _ & _ & ->)];
      destruct Hd as (_ & _ & Hr & Hdd).
    + left. exists e, w'. split; [done|]. split; congruence.
    + right. eexists _, _. split; [done|]. split; [reflexivity|]. cbn. congruence.
  - destruct H as [e ->]. left. by exists e, w.
Qed.

Lemma for_each_cons {A} (x : A) xs body w :
  for_each (x :: xs) body w
  = match body x w with
    | Ok _ w' => for_each xs body w'
    | Raise e w' => Raise e w'
    end.
Proof. reflexivity. Qed.

(** One turn of the loop over the picked files. *)
Lemma import_turn_outcome line machine t user (p : string * N) w :
  let r := try_except (_save_document DATA_DIR (snd p) (fst p) line machine t user)
             (fun exc => showerror "Import Failed"
                ("Failed to import " +:+ fst p +:+ String "010" (str_exc exc))) w in
  exists w1, r = Ok tt w1
    /\ ((exists err, is_import_error err = true
                     /\ revisions w1 = revisions w /\ dialogs w1 = dialogs w ++ [err])
        \/ (exists row, revisions w1 = revisions w ++ [row] /\ dialogs w1 = dialogs w)).
Proof.
  intros r. unfold r, try_except.
  destruct (save_document_outcome (snd p) (fst p) line machine t user w)
    as [(e & w1 & -> & Hr & Hd)|(w1 & row & -> & Hr & Hd)].
  - eexists. split; [reflexivity|]. left. eexists. split; [|split; cbn; [done|by rewrite Hd]].
    reflexivity.
  - exists w1. split; [done|]. right. by exists row.
Qed.

Lemma import_loop_accounts line machine t user picked : forall w,
  let r := for_each picked (fun p =>
             try_except (_save_document DATA_DIR (snd p) (fst p) line machine t user)
               (fun exc => showerror "Import Failed"
                  ("Failed to import " +:+ fst p +:+ String "010" (str_exc exc)))) w in
  raised r = None
  /\ exists rows errs,
       revisions (final r) = revisions w ++ rows
       /\ dialogs (final r) = dialogs w ++ errs
       /\ Forall (fun d => is_import_error d = true) errs
       /\ (length rows + length errs = length picked)%nat.
Proof.
  induction picked as [|p picked IH]; intros w.
  { split; [done|]. exists [], []. by rewrite !app_nil_r. }
  cbv zeta. rewrite for_each_cons.
  destruct (import_turn_outcome line machine t user p w) as (w1 & -> & Hcase).
  destruct (IH w1) as (Hok & rows & errs & Hrows & Herrs & Hall & Hlen).
  split; [exact Hok|].
  destruct Hcase as [(err & Herr & Hr & Hd)|(row & Hr & Hd)].
  - exists rows, (err :: errs). rewrite Hrows, Herrs, Hr, Hd, <- app_assoc.
    split; [done|]. split; [done|]. split; [by constructor|]. simpl. lia.
  - exists (row :: rows), errs. rewrite Hrows, Herrs, Hr, Hd, <- app_assoc.
    split; [done|]. split; [done|]. split; [done|]. simpl. lia.
Qed.

End Edges.

(** X7: An import never raises: every picked file is tried, and each one
    either adds one ledger row or shows one "Import Failed" box, so rows
    and boxes together are as many as the files. *)
Theorem import_batch_accounts_for_every_file DATA_DIR str_exc ui t picked w :
  let r := _import_documents DATA_DIR str_exc ui t picked w in
  raised r = None
  /\ (readonly ui = false ->
      Py.strip (line_var ui) <> EmptyString ->
      Py.strip (machine_var ui) <> EmptyString ->
      exists rows errs,
        revisions (final r) = revisions w ++ rows
        /\ dialogs (final r) = dialogs w ++ errs
        /\ Forall (fun d => is_import_error d = true) errs
        /\ (length rows + length errs = length picked)%nat).
Proof.
  intros r. unfold r, _import_documents.
  destruct (readonly ui); [by split|].
  unfold mbind, M_bind, bind, _require_line_machine.
  destruct (String.eqb_spec (Py.strip (line_var ui)) "") as [Hl|Hl].
  { by split. }
  destruct (String.eqb_spec (Py.strip (machine_var ui)) "") as [Hm|Hm].
  { by split. }
  cbn [orb ret].
  destruct picked as [|p picked].
  { split; [done|]. intros _ _ _. exists [], []. by rewrite !app_nil_r. }
  destruct (import_loop_accounts DATA_DIR str_exc (Py.strip (line_var ui))
              (Py.strip (machine_var ui)) t (_get_username ui) (p :: picked) w)
    as [Hok Hacc].
  split; [exact Hok|]. intros _ _ _. exact Hacc.
Qed.

Lemma import_batch_witness :
  let r := _import_documents Scenario.DATA exn_str (Scenario.ui_on "L 1") Program
             [("/in/a.txt"%string, Scenario.T0); ("/in/missing.txt"%string, Scenario.T0)]
             Scenario.w0 in
  exists rows errs,
    revisions (final r) = revisions Scenario.w0 ++ rows
    /\ dialogs (final r) = dialogs Scenario.w0 ++ errs
    /\ (length rows + length errs = 2)%nat.
Proof.
  intros r.
  destruct (proj2 (import_batch_accounts_for_every_file Scenario.DATA exn_str (Scenario.ui_on "L 1")
                     Program
                     [("/in/a.txt"%string, Scenario.T0); ("/in/missing.txt"%string, Scenario.T0)]
                     Scenario.w0) eq_refl)
    as (rows & errs & H1 & H2 & _ & H3).
  - vm_compute. discriminate.
  - vm_compute. discriminate.
  - exists rows, errs. exact (conj H1 (conj H2 H3)).
Defined.

(** X8: With a blank line or machine an import only shows the "Selection
    required" warning, and with no file picked it does nothing at all. *)
Theorem import_needs_line_machine_and_files DATA_DIR str_exc ui t picked w :
  readonly ui = false ->
  (Py.strip (line_var ui) = EmptyString \/ Py.strip (machine_var ui) = EmptyString ->
   _import_documents DATA_DIR str_exc ui t picked w
   = Ok tt (set_dialogs
              (dialogs w ++ [ShowWarning "Selection required"
                                "Select both a line and machine first."]) w))
  /\ (Py.strip (line_var ui) <> EmptyString -> Py.strip (machine_var ui) <> EmptyString ->
      _import_documents DATA_DIR str_exc ui t [] w = Ok tt w).
Proof.
  intros Hro. unfold _import_documents. rewrite Hro.
  unfold mbind, M_bind, bind, _require_line_machine. split.
  - intros [H|H]; rewrite H; [done|]. by rewrite orb_true_r.
  - intros Hl Hm.
    destruct (String.eqb_spec (Py.strip (line_var ui)) ""); [done|].
    by destruct (String.eqb_spec (Py.strip (machine_var ui)) "").
Qed.

Lemma import_needs_witness :
  _import_documents Scenario.DATA exn_str (Scenario.ui_on "   ") Program
    [("/in/a.txt"%string, Scenario.T0)] Scenario.w0
  = Ok tt (set_dialogs
             (dialogs Scenario.w0 ++ [ShowWarning "Selection required"
                                        "Select both a line and machine first."])
             Scenario.w0).
Proof.
  apply (proj1 (import_needs_line_machine_and_files Scenario.DATA exn_str (Scenario.ui_on "   ")
                  Program [("/in/a.txt"%string, Scenario.T0)] Scenario.w0 eq_refl)).
  left. reflexivity.
Defined.

(** X9: Recalling with no revision selected only says so; with a revision
    whose file exists but a blank line or machine, it only shows the
    "Selection required" warning: nothing is copied or recorded. *)
Theorem recall_needs_selection DATA_DIR ui now w :
  readonly ui = false ->
  (selected_revision_of ui w = None ->
   _recall_selected DATA_DIR ui now w
   = Ok tt (set_dialogs (dialogs w ++ [ShowInfo "Recall" "Select a revision to recall."]) w))
  /\ (forall k,
        selected_revision_of ui w = Some k ->
        Fs.exists_ w (_resolve_path DATA_DIR (stored_path k)) = true ->
        Py.strip (line_var ui) = EmptyString \/ Py.strip (machine_var ui) = EmptyString ->
        _recall_selected DATA_DIR ui now w
        = Ok tt (set_dialogs
                   (dialogs w ++ [ShowWarning "Selection required"
                                     "Select both a line and machine first."]) w)).
Proof.
  intros Hro. unfold _recall_selected. rewrite Hro.
  unfold mbind, M_bind, bind. rewrite selected_revision_eq. split.
  - by intros ->.
  - intros k Hk Hex Hblank. rewrite Hk.
    destruct (selected_revision_in ui w k Hk) as (id & _ & -> & _).
    unfold get_world. rewrite Hex. cbn [negb]. unfold _require_line_machine.
    destruct Hblank as [H|H]; rewrite H; [done|]. by rewrite orb_true_r.
Qed.

Lemma recall_needs_witness :
  _recall_selected Scenario.DATA (Scenario.ui_on "L 1") Scenario.T1 Scenario.w1
  = Ok tt (set_dialogs
             (dialogs Scenario.w1 ++ [ShowInfo "Recall" "Select a revision to recall."])
             Scenario.w1).
Proof.
  exact (proj1 (recall_needs_selection Scenario.DATA (Scenario.ui_on "L 1") Scenario.T1
                  Scenario.w1 eq_refl) eq_refl).
Defined.

(** X10: Exporting with no document selected, for a document without revision
    or with no revision selected only says so, and a cancelled folder
    dialog changes nothing. *)
Theorem export_needs_selection DATA_DIR ui target_dir w :
  (_selected_document_id ui = None \/
   (exists id, _selected_document_id ui = Some id /\ Db.revisions_of w id = []) ->
   _export_current DATA_DIR ui target_dir w
   = Ok tt (set_dialogs (dialogs w ++ [ShowInfo "Export" "Select a document first."]) w))
  /\ (selected_revision_of ui w = None ->
      _export_selected_revision DATA_DIR ui target_dir w
      = Ok tt (set_dialogs (dialogs w ++ [ShowInfo "Export" "Select a revision first."]) w))
  /\ (forall revision, _export_revision DATA_DIR ui revision EmptyString w = Ok tt w).
Proof.
  split; [|split].
  - unfold _export_current, _get_current_revision, mbind, M_bind, bind.
    intros [-> |(id & -> & Hnone)]; [done|].
    unfold Db.list_machine_document_revisions. by rewrite Hnone.
  - intros Hnone. unfold _export_selected_revision, mbind, M_bind, bind.
    by rewrite selected_revision_eq, Hnone.
  - done.
Qed.

Lemma export_needs_witness :
  _export_current Scenario.DATA (Scenario.ui_on "L 1") "/out" Scenario.w1
  = Ok tt (set_dialogs (dialogs Scenario.w1 ++ [ShowInfo "Export" "Select a document first."])
             Scenario.w1).
Proof.
  apply (proj1 (export_needs_selection Scenario.DATA (Scenario.ui_on "L 1") "/out"
                  Scenario.w1)).
  left. reflexivity.
Defined.

(** ** What no handler takes away *)

Section Growing.

Lemma grows_refl w : grows w w.
Proof.
  split; [done|]. split; [done|]. split; [exists []; by rewrite app_nil_r|].
  split; [|exists []; by rewrite app_nil_r].
  intros i d Hd. by exists d.
Qed.

Lemma grows_trans w1 w2 w3 : grows w1 w2 -> grows w2 w3 -> grows w1 w3.
Proof.
  intros (Hf1 & Hd1 & [r1 Hr1] & Hdoc1 & [m1 Hm1]) (Hf2 & Hd2 & [r2 Hr2] & Hdoc2 & [m2 Hm2]).
  split; [auto|]. split; [set_solver|].
  split; [exists (r1 ++ r2); by rewrite Hr2, Hr1, app_assoc|].
  split; [|exists (m1 ++ m2); by rewrite Hm2, Hm1, app_assoc].
  intros i d Hd. destruct (Hdoc1 i d Hd) as (d' & Hd' & He1 & Ha1).
  destruct (Hdoc2 i d' Hd') as (d'' & Hd'' & He2 & Ha2).
  exists d''. split; [done|]. split; [congruence|auto].
Qed.

(** A state that differs only in what was added. *)
Lemma grows_fields w w' :
  (forall p, is_Some (files w !! p) -> is_Some (files w' !! p)) ->
  dirs w ⊆ dirs w' ->
  (exists new, revisions w' = revisions w ++ new) ->
  (exists new, documents w' = documents w ++ new) ->
  (exists new, dialogs w' = dialogs w ++ new) ->
  grows w w'.
Proof.
  intros Hf Hd Hr [nd Hdoc] Hm. split; [done|]. split; [done|]. split; [done|].
  split; [|done]. intros i d Hi. exists d. split; [|done].
  rewrite Hdoc. by apply lookup_app_l_Some.
Qed.

Lemma keeps_growing_ret {A} (a : A) : keeps_growing (ret a).
Proof. intros w. apply grows_refl. Qed.

Lemma keeps_growing_raise {A} e : keeps_growing (@raise A e).
Proof. intros w. apply grows_refl. Qed.

Lemma keeps_growing_bind {A B} (c : M A) (k : A -> M B) :
  keeps_growing c -> (forall a, keeps_growing (k a)) -> keeps_growing (bind c k).
Proof.
  intros Hc Hk w. unfold bind. specialize (Hc w).
  destruct (c w) as [a w'|e w']; [|exact Hc].
  eapply grows_trans; [exact Hc|apply Hk].
Qed.

Lemma keeps_growing_try {A} (c : M A) h :
  keeps_growing c -> (forall e, keeps_growing (h e)) -> keeps_growing (try_except c h).
Proof.
  intros Hc Hh w. unfold try_except. specialize (Hc w).
  destruct (c w) as [a w'|e w']; [exact Hc|].
  eapply grows_trans; [exact Hc|apply Hh].
Qed.

Lemma keeps_growing_for_each {A} (xs : list A) body :
  (forall x, keeps_growing (body x)) -> keeps_growing (for_each xs body).
Proof.
  intros Hb. induction xs as [|x xs IH]; [apply keeps_growing_ret|].
  apply (keeps_growing_bind (body x)); [apply Hb|intros _; exact IH].
Qed.

Lemma keeps_growing_dialog (d : dialog) :
  keeps_growing (modify (fun w => set_dialogs (dialogs w ++ [d]) w)).
Proof.
  intros w. apply grows_fields; cbn; try done;
    try (exists []; by rewrite app_nil_r). by exists [d].
Qed.

Lemma keeps_growing_mkdir d : keeps_growing (Fs.mkdir_p d).
Proof.
  intros w. destruct (mkdir_p_cases d w) as [[e ->]| ->]; [apply grows_refl|].
  apply grows_fields; cbn; try done; try (exists []; by rewrite app_nil_r).
  set_solver.
Qed.

Lemma keeps_growing_copy2 src dst : keeps_growing (Fs.copy2 src dst).
Proof.
  intros w. destruct (copy2_cases src dst w) as [[e ->]|(data & _ & _ & ->)];
    [apply grows_refl|].
  apply grows_fields; cbn; try done; try (exists []; by rewrite app_nil_r).
  intros p Hp. match goal with |- is_Some (<[?k := _]> _ !! _) =>
    destruct (decide (k = p)) as [->|Hne] end.
  - rewrite lookup_insert_eq. eauto.
  - by rewrite lookup_insert_ne.
Qed.

Lemma keeps_growing_copy2_from src dst : keeps_growing (Fs.copy2_from src dst).
Proof.
  intros w. destruct (copy2_from_cases src dst w)
    as [[e ->]|(q & data & _ & _ & _ & _ & ->)]; [apply grows_refl|].
  apply grows_fields; cbn; try done; try (exists []; by rewrite app_nil_r).
  intros p Hp. match goal with |- is_Some (<[?k := _]> _ !! _) =>
    destruct (decide (k = p)) as [->|Hne] end.
  - rewrite lookup_insert_eq. eauto.
  - by rewrite lookup_insert_ne.
Qed.

Lemma keeps_growing_hash path : keeps_growing (_hash_file path).
Proof.
  intros w. rewrite hash_file_eq.
  destruct (open_rb_cases path w) as [(e & -> & _)|(p & data & _ & _ & _ & ->)];
    apply grows_refl.
Qed.

Lemma keeps_growing_create now line machine t nm user :
  keeps_growing (Db.create_machine_document now line machine t nm user).
Proof.
  intros w. unfold Db.create_machine_document.
  destruct (Db.by_name w line machine t nm); [apply grows_refl|].
  apply grows_fields; cbn; try done; try (exists []; by rewrite app_nil_r). eauto.
Qed.

Lemma keeps_growing_add now id number path original hash user note :
  keeps_growing (Db.add_machine_document_revision now id number path original hash user note).
Proof.
  intros w. unfold Db.add_machine_document_revision.
  destruct (N.eqb _ _); [|apply grows_refl].
  apply grows_fields; cbn; try done; try (exists []; by rewrite app_nil_r). eauto.
Qed.

Lemma keeps_growing_deactivate id : keeps_growing (Db.set_machine_document_active id false).
Proof.
  intros w. unfold Db.set_machine_document_active, modify. cbn.
  split; [done|]. split; [done|]. split; [exists []; by rewrite app_nil_r|].
  split; [|exists []; by rewrite app_nil_r]. cbn.
  intros i d Hd. rewrite list_lookup_fmap, Hd. cbn. eexists. split; [reflexivity|].
  destruct (N.eqb (doc_id d) id); [|done]. split; [done|]. done.
Qed.

Variable DATA_DIR : string.
Variable str_exc : exn -> string.

Lemma keeps_growing_store now src line machine t name number :
  keeps_growing (_store_file DATA_DIR now src line machine t name number).
Proof.
  unfold _store_file, mbind, M_bind.
  apply keeps_growing_bind; [apply keeps_growing_mkdir|intros _].
  apply keeps_growing_bind; [apply keeps_growing_copy2_from|intros _].
  destruct (PathLib.strip_prefix _ _); [apply keeps_growing_ret|apply keeps_growing_raise].
Qed.

Lemma keeps_growing_save now src line machine t user :
  keeps_growing (_save_document DATA_DIR now src line machine t user).
Proof.
  unfold _save_document, mbind, M_bind.
  apply keeps_growing_bind; [apply keeps_growing_hash|intros h].
  apply keeps_growing_bind; [intros w; apply grows_refl|intros found].
  apply keeps_growing_bind.
  { destruct found; [apply keeps_growing_ret|apply keeps_growing_create]. }
  intros id. apply keeps_growing_bind; [intros w; apply grows_refl|intros number].
  apply keeps_growing_bind; [apply keeps_growing_store|intros path].
  apply keeps_growing_bind; [apply keeps_growing_add|intros _; apply keeps_growing_ret].
Qed.

Lemma keeps_growing_require ui : keeps_growing (_require_line_machine ui).
Proof.
  unfold _require_line_machine. destruct (_ || _); [|apply keeps_growing_ret].
  unfold mbind, M_bind. apply keeps_growing_bind; [apply keeps_growing_dialog|].
  intros _. apply keeps_growing_ret.
Qed.

Lemma keeps_growing_tree_name ui : keeps_growing (doc_tree_name ui).
Proof.
  unfold doc_tree_name. destruct (_selected_document_id ui); [|apply keeps_growing_raise].
  destruct (List.find _ _); [apply keeps_growing_ret|apply keeps_growing_raise].
Qed.

Lemma keeps_growing_import ui t picked :
  keeps_growing (_import_documents DATA_DIR str_exc ui t picked).
Proof.
  unfold _import_documents. destruct (readonly ui); [apply keeps_growing_ret|].
  unfold mbind, M_bind. apply keeps_growing_bind; [apply keeps_growing_require|].
  intros [[line machine]|]; [|apply keeps_growing_ret].
  destruct picked as [|p picked]; [apply keeps_growing_ret|].
  apply keeps_growing_for_each. intros q.
  apply keeps_growing_try; [apply keeps_growing_save|intros e; apply keeps_growing_dialog].
Qed.

Lemma keeps_growing_recall ui now : keeps_growing (_recall_selected DATA_DIR ui now).
Proof.
  unfold _recall_selected. destruct (readonly ui); [apply keeps_growing_ret|].
  unfold mbind, M_bind.
  apply keeps_growing_bind.
  { intros w. rewrite selected_revision_eq. apply grows_refl. }
  intros [k|]; [|apply keeps_growing_dialog].
  destruct (_selected_document_id ui) as [id|]; [|apply keeps_growing_ret].
  apply keeps_growing_bind; [intros w; apply grows_refl|intros w0].
  destruct (negb _); [apply keeps_growing_dialog|].
  apply keeps_growing_bind; [apply keeps_growing_require|].
  intros [[line machine]|]; [|apply keeps_growing_ret].
  apply keeps_growing_bind; [apply keeps_growing_tree_name|intros name].
  apply keeps_growing_bind; [intros w; apply grows_refl|intros number].
  apply keeps_growing_bind; [apply keeps_growing_store|intros path].
  apply keeps_growing_bind; [apply keeps_growing_hash|intros h].
  apply keeps_growing_bind; [apply keeps_growing_add|intros _; apply keeps_growing_ret].
Qed.

Lemma keeps_growing_export ui revision target_dir :
  keeps_growing (_export_revision DATA_DIR ui revision target_dir).
Proof.
  unfold _export_revision. destruct (String.eqb target_dir ""); [apply keeps_growing_ret|].
  unfold mbind, M_bind.
  apply keeps_growing_bind; [intros w; apply grows_refl|intros w0].
  destruct (negb _); [apply keeps_growing_dialog|].
  apply keeps_growing_bind; [apply keeps_growing_tree_name|intros name].
  apply keeps_growing_bind; [apply keeps_growing_copy2|intros _].
  apply keeps_growing_dialog.
Qed.

Lemma keeps_growing_delete ui confirm : keeps_growing (_delete_document ui confirm).
Proof.
  unfold _delete_document. destruct (readonly ui); [apply keeps_growing_ret|].
  destruct (doc_tree_selection ui); [apply keeps_growing_dialog|].
  destruct confirm; [apply keeps_growing_deactivate|apply keeps_growing_ret].
Qed.

Lemma run_grows w a : grows w (run DATA_DIR str_exc w a).
Proof.
  destruct a as [ui t picked|ui now|ui d|ui d|ui c]; simpl.
  - apply keeps_growing_import.
  - apply keeps_growing_recall.
  - unfold _export_current, mbind, M_bind.
    apply keeps_growing_bind.
    { unfold _get_current_revision. destruct (_selected_document_id ui);
        [|apply keeps_growing_ret].
      unfold mbind, M_bind. apply keeps_growing_bind; [intros w0; apply grows_refl|].
      intros revs. apply keeps_growing_ret. }
    intros [k|]; [apply keeps_growing_export|apply keeps_growing_dialog].
  - unfold _export_selected_revision, mbind, M_bind.
    apply keeps_growing_bind.
    { intros w0. rewrite selected_revision_eq. apply grows_refl. }
    intros [k|]; [apply keeps_growing_export|apply keeps_growing_dialog].
  - apply keeps_growing_delete.
Qed.

End Growing.

(** X11: No sequence of imports, recalls, exports and deactivations takes
    anything away: every file and directory present before is present
    after, the ledger rows and the message boxes are the old ones followed
    by new ones, every document keeps its place and its columns apart from
    the active flag, and a deactivated document is never active again. *)
Theorem no_action_removes_or_reactivates DATA_DIR str_exc acts w :
  let w' := run_all DATA_DIR str_exc acts w in
  (forall p, is_Some (files w !! p) -> is_Some (files w' !! p))
  /\ dirs w ⊆ dirs w'
  /\ (exists new, revisions w' = revisions w ++ new)
  /\ (forall i d, documents w !! i = Some d ->
        exists d', documents w' !! i = Some d'
                   /\ Db.with_active true d' = Db.with_active true d
                   /\ (doc_active d = false -> doc_active d' = false))
  /\ (exists new, dialogs w' = dialogs w ++ new).
Proof.
  revert w. induction acts as [|a acts IH]; intros w; [apply grows_refl|].
  apply (grows_trans w (run DATA_DIR str_exc w a)); [apply run_grows|apply IH].
Qed.

Lemma no_action_removes_witness :
  exists d',
    documents (run_all Scenario.DATA exn_str [RecallSelected Scenario.ui_sel Scenario.T1]
                 More.w_deactivated) !! 0%nat = Some d'
    /\ doc_active d' = false.
Proof.
  pose (d := default More.no_document (documents More.w_deactivated !! 0%nat)).
  assert (Hd : documents More.w_deactivated !! 0%nat = Some d) by (vm_compute; reflexivity).
  assert (Ha : doc_active d = false) by (vm_compute; reflexivity).
  destruct (proj1 (proj2 (proj2 (proj2
              (no_action_removes_or_reactivates Scenario.DATA exn_str
                 [RecallSelected Scenario.ui_sel Scenario.T1] More.w_deactivated))))
              0%nat d Hd) as (d' & Hd' & _ & Hact).
  exists d'. exact (conj Hd' (Hact Ha)).
Defined.

(** X12: Deactivating with no document selected only says so, and answering
    "no" changes nothing; after a confirmed deactivation every document
    with the selected id is inactive, the other documents are the same
    rows, and doing it again changes nothing more. *)
Theorem delete_document_edges ui confirm w :
  readonly ui = false ->
  (doc_tree_selection ui = [] ->
   _delete_document ui confirm w
   = Ok tt (set_dialogs (dialogs w ++ [ShowInfo "Delete" "Select a document first."]) w))
  /\ (doc_tree_selection ui <> [] -> _delete_document ui false w = Ok tt w)
  /\ (forall id rest, doc_tree_selection ui = id :: rest ->
      let w1 := final (_delete_document ui true w) in
      raised (_delete_document ui true w) = None
      /\ Forall (fun d => doc_id d = id -> doc_active d = false) (documents w1)
      /\ (forall d, List.In d (documents w) -> doc_id d <> id -> List.In d (documents w1))
      /\ List.map doc_id (documents w1) = List.map doc_id (documents w)
      /\ _delete_document ui true w1 = Ok tt w1).
Proof.
  intros Hro. unfold _delete_document. rewrite Hro. split; [by intros ->|]. split.
  { by destruct (doc_tree_selection ui). }
  intros id rest ->. cbn. split; [done|].
  set (f := fun d : Document => if N.eqb (doc_id d) id then Db.with_active false d else d).
  assert (Hid : forall d, doc_id (f d) = doc_id d).
  { intros d. unfold f. by destruct (N.eqb (doc_id d) id). }
  split; [|split; [|split]].
  - apply List.Forall_forall. intros d' Hin Hd'.
    apply List.in_map_iff in Hin as (d & <- & _). rewrite Hid in Hd'.
    unfold f. apply N.eqb_eq in Hd'. by rewrite Hd'.
  - intros d Hin Hne. apply List.in_map_iff. exists d. split; [|done].
    unfold f. apply N.eqb_neq in Hne. by rewrite Hne.
  - rewrite List.map_map. apply List.map_ext. exact Hid.
  - unfold Db.set_machine_document_active, modify, set_documents. cbn. f_equal. f_equal.
    rewrite List.map_map. apply List.map_ext. intros d. fold (f d). fold (f (f d)).
    unfold f at 1. rewrite Hid. unfold f. by destruct (N.eqb (doc_id d) id).
Qed.

Lemma delete_document_witness :
  Forall (fun d => doc_id d = 1%N -> doc_active d = false) (documents More.w_deactivated)
  /\ _delete_document Scenario.ui_sel true More.w_deactivated = Ok tt More.w_deactivated.
Proof.
  destruct (proj2 (proj2 (delete_document_edges Scenario.ui_sel true Scenario.w1 eq_refl))
              1%N [] eq_refl) as (_ & H1 & _ & _ & H2).
  exact (conj H1 H2).
Defined.

(** X13: [_selected_revision] and [_get_current_revision] read the ledger
    without changing anything and only ever return a row of the selected
    document: the selected row has the selected id, and there is a current
    row exactly when the document has a revision. *)
Theorem selected_revision_of_selected_document ui w :
  _selected_revision ui w = Ok (selected_revision_of ui w) w
  /\ (forall k, selected_revision_of ui w = Some k ->
      _selected_document_id ui = Some (document_id k)
      /\ List.head (rev_tree_selection ui) = Some (rev_id k)
      /\ List.In k (revisions w))
  /\ (_selected_document_id ui = None \/ rev_tree_selection ui = [] ->
      selected_revision_of ui w = None)
  /\ exists current,
      _get_current_revision ui w = Ok current w
      /\ (forall k, current = Some k ->
          _selected_document_id ui = Some (document_id k) /\ List.In k (revisions w))
      /\ (current = None <->
          match _selected_document_id ui with
          | Some id => Db.revisions_of w id = []
          | None => True
          end).
Proof.
  split; [apply selected_revision_eq|]. split; [|split].
  - intros k Hk. destruct (selected_revision_in ui w k Hk) as (id & rest & Hid & Hsel & Hin & Hdoc).
    subst id. split; [done|]. split; [by rewrite Hsel|].
    unfold Db.revisions_of in Hin. by apply List.filter_In in Hin as [? _].
  - unfold selected_revision_of. intros [-> | ->]; [done|].
    by destruct (_selected_document_id ui).
  - unfold _get_current_revision.
    destruct (_selected_document_id ui) as [id|]; [|by exists None].
    unfold mbind, M_bind, bind, Db.list_machine_document_revisions, ret.
    eexists. split; [reflexivity|]. split.
    + intros k Hk.
      assert (Hin : List.In k (List.rev (Db.revisions_of w id))).
      { destruct (List.rev (Db.revisions_of w id)); [done|].
        injection Hk as ->. by left. }
      apply List.in_rev in Hin. unfold Db.revisions_of in Hin.
      apply List.filter_In in Hin as [Hin Hid]. apply N.eqb_eq in Hid. by subst id.
    + destruct (Db.revisions_of w id) as [|r rs] eqn:E; [done|].
      split; [|done]. simpl. intros H.
      destruct (List.rev rs ++ [r]) eqn:E2; [|done].
      by apply app_eq_nil in E2 as [_ ?].
Qed.

Lemma selected_revision_witness :
  exists k, selected_revision_of Scenario.ui_sel Scenario.w2 = Some k
            /\ document_id k = 1%N /\ List.In k (revisions Scenario.w2).
Proof.
  pose (k := Scenario.selected_in Scenario.w2).
  assert (Hk : selected_revision_of Scenario.ui_sel Scenario.w2 = Some k)
    by (vm_compute; reflexivity).
  assert (Hone : document_id k = 1%N) by (vm_compute; reflexivity).
  destruct (proj1 (proj2 (selected_revision_of_selected_document Scenario.ui_sel Scenario.w2))
              k Hk) as (_ & _ & Hin).
  exists k. exact (conj Hk (conj Hone Hin)).
Defined.

(** ** The paths of one document *)

Section OneDocument.
Variable DATA_DIR : string.
Variable str_exc : exn -> string.

Lemma numbered_path_number r1 r2 :
  numbered_path r1 -> numbered_path r2 -> stored_path r1 = stored_path r2 ->
  revision_number r1 = revision_number r2.
Proof.
  intros (l1 & m1 & t1 & n1 & now1 & e1 & He1 & ->) (l2 & m2 & t2 & n2 & now2 & e2 & He2 & ->).
  rewrite !stored_path_text. intros Heq. apply join_good_inj in Heq.
  - apply app_inj_tail in Heq as [_ Hn]. by apply rev_file_name_inj in Hn.
  - apply Forall_app. split; [apply folder_parts_good|].
    repeat constructor. by apply rev_file_name_good.
  - apply Forall_app. split; [apply folder_parts_good|].
    repeat constructor. by apply rev_file_name_good.
Qed.

Lemma save_document_numbered now src line machine t user w :
  Forall numbered_path (revisions w) ->
  Forall numbered_path
    (revisions (final (_save_document DATA_DIR now src line machine t user w))).
Proof.
  intros Hw.
  pose proof (save_document_cases DATA_DIR now src line machine t user w) as H.
  cbv zeta in H. destruct (Fs.content w src) as [data|].
  - destruct (with_document_revisions now line machine t
                (_normalize_doc_name (PathLib.basename src)) user
                (Db.resolve w line machine t (_normalize_doc_name (PathLib.basename src))
                   (Sha256.hexdigest data)) w) as (Hrev & _).
    destruct H as [(e & w' & -> & Hd & _)|(p & dst & w2 & Hd & _ & _ & _ & _ & _ & ->)].
    + destruct Hd as (_ & _ & Hr & _). cbn. by rewrite Hr, Hrev.
    + cbn. apply Forall_app. split; [done|]. repeat constructor.
      eexists line, machine, t, _, now, _. split; [|reflexivity].
      apply suffix_no_slash, parse_wf.
  - by destruct H as [e ->].
Qed.

Lemma import_loop_numbered line machine t user picked : forall w,
  Forall numbered_path (revisions w) ->
  Forall numbered_path
    (revisions (final (for_each picked (fun p =>
       try_except (_save_document DATA_DIR (snd p) (fst p) line machine t user)
         (fun exc => showerror "Import Failed"
            ("Failed to import " +:+ fst p +:+ String "010" (str_exc exc)))) w))).
Proof.
  induction picked as [|p picked IH]; intros w Hw; [done|].
  simpl for_each. unfold mbind, M_bind, bind, try_except.
  pose proof (save_document_numbered (snd p) (fst p) line machine t user w Hw) as H.
  destruct (_save_document DATA_DIR (snd p) (fst p) line machine t user w) as [[] w1|e w1].
  - by apply IH.
  - unfold showerror, modify at 1. by apply IH.
Qed.

Lemma run_numbered w a :
  Forall numbered_path (revisions w) ->
  Forall numbered_path (revisions (run DATA_DIR str_exc w a)).
Proof.
  intros Hw. destruct a as [ui t picked|ui now|ui d|ui d|ui c]; simpl.
  - unfold _import_documents. destruct (readonly ui); [done|].
    unfold mbind, M_bind, bind.
    destruct (require_line_machine_cases ui w) as [-> | ->]; [done|].
    destruct picked as [|p picked]; [done|]. by apply import_loop_numbered.
  - destruct (recall_cases DATA_DIR ui now w)
      as [(_ & _ & H)
         |(id & k & p & data & dst & w2 & name & _ & _ & _ & _ & _ & _ & _ & _ & _ & _ & ->)].
    + by rewrite H.
    + cbn. apply Forall_app. split; [done|]. repeat constructor.
      eexists _, _, _, name, now, _. split; [|reflexivity].
      apply suffix_no_slash, resolve_path_wf.
  - by rewrite (proj1 (export_current_quiet DATA_DIR ui d w)).
  - by rewrite (proj1 (export_selected_quiet DATA_DIR ui d w)).
  - by destruct (delete_document_frame ui c w) as (_ & _ & ->).
Qed.

Lemma run_all_numbered acts : forall w,
  Forall numbered_path (revisions w) ->
  Forall numbered_path (revisions (run_all DATA_DIR str_exc acts w)).
Proof.
  induction acts as [|a acts IH]; intros w Hw; [done|].
  simpl. by apply IH, run_numbered.
Qed.

Lemma NoDup_one_to n : NoDup (one_to n).
Proof.
  unfold one_to. apply (NoDup_fmap_2 N.of_nat), NoDup_ListNoDup, List.seq_NoDup.
Qed.

End OneDocument.

(** X21: From an empty ledger, after any sequence of imports, recalls,
    exports and deactivations, two different rows of the same document
    never have the same stored path: their revision numbers differ, and
    the stored path of every row ends with the file name that carries its
    revision number.  (Rows of different documents can share a path.) *)
Theorem one_document_never_shares_a_path DATA_DIR str_exc acts fs ds dl l1 r1 l2 r2 l3 :
  let w := run_all DATA_DIR str_exc acts (mkWorld fs ds [] [] dl) in
  revisions w = l1 ++ r1 :: l2 ++ r2 :: l3 ->
  document_id r1 = document_id r2 ->
  revision_number r1 <> revision_number r2
  /\ stored_path r1 <> stored_path r2
  /\ Forall numbered_path (revisions w).
Proof.
  intros w Hrows Hdoc.
  assert (Hnum : Forall numbered_path (revisions w)).
  { apply run_all_numbered. by constructor. }
  assert (Hc : contiguous w) by (by apply run_all_contiguous, contiguous_empty).
  assert (Hne : revision_number r1 <> revision_number r2).
  { specialize (Hc (document_id r1)). unfold numbers_of, Db.revisions_of in Hc.
    pose proof (NoDup_one_to (length (List.filter
                  (fun r => N.eqb (document_id r) (document_id r1)) (revisions w)))) as Hnd.
    rewrite <- Hc, Hrows in Hnd.
    rewrite List.filter_app in Hnd. cbn [List.filter] in Hnd.
    rewrite N.eqb_refl in Hnd. rewrite List.filter_app in Hnd. cbn [List.filter] in Hnd.
    rewrite <- Hdoc, N.eqb_refl in Hnd.
    rewrite List.map_app in Hnd. cbn [List.map] in Hnd.
    rewrite List.map_app in Hnd. cbn [List.map] in Hnd.
    apply NoDup_app in Hnd as (_ & _ & Hnd). apply NoDup_cons in Hnd as [Hnotin _].
    intros Heq. apply Hnotin. rewrite Heq. apply elem_of_app. right. by left. }
  split; [exact Hne|]. split; [|exact Hnum].
  intros Heq. apply Hne.
  rewrite Hrows in Hnum.
  apply Forall_app in Hnum as [_ Hnum]. apply Forall_cons_1 in Hnum as [H1 Hnum].
  apply Forall_app in Hnum as [_ Hnum]. apply Forall_cons_1 in Hnum as [H2 _].
  by apply numbered_path_number.
Qed.

Lemma one_document_witness :
  let acts :=
    [ImportDocuments (Scenario.ui_on "L 1") Program [("/in/a.txt"%string, Scenario.T0)];
     RecallSelected Scenario.ui_sel Scenario.T1] in
  let w := run_all Scenario.DATA exn_str acts Scenario.w0 in
  exists r1 r2,
    revisions w = [] ++ r1 :: [] ++ r2 :: []
    /\ document_id r1 = document_id r2
    /\ revision_number r1 <> revision_number r2
    /\ stored_path r1 <> stored_path r2.
Proof.
  intros acts w.
  assert (Hrows : exists r1 r2, revisions w = [] ++ r1 :: [] ++ r2 :: []
                                /\ document_id r1 = document_id r2).
  { vm_compute. eexists _, _. split; reflexivity. }
  destruct Hrows as (r1 & r2 & Hrows & Hdoc).
  exists r1, r2. split; [exact Hrows|]. split; [exact Hdoc|].
  destruct (one_document_never_shares_a_path Scenario.DATA exn_str acts
              (files Scenario.w0) (dirs Scenario.w0) [] [] r1 [] r2 [] Hrows Hdoc)
    as (Hn & Hp & _).
  split; [exact Hn | exact Hp].
Defined.

(** ** Roles and login *)

Section Roles.
Import Login.

Lemma lstrip_idem s : Py.lstrip (Py.lstrip s) = Py.lstrip s.
Proof.
  induction s as [|c s IH]; [done|]. simpl.
  destruct (Py.is_space c) eqn:E; [exact IH|]. simpl. by rewrite E.
Qed.

Lemma rstrip_idem s : Py.rstrip (Py.rstrip s) = Py.rstrip s.
Proof.
  induction s as [|c s IH]; [done|].
  rewrite rstrip_cons. destruct (Py.rstrip s) as [|c' r] eqn:R.
  - destruct (Py.is_space c) eqn:E; [done|]. rewrite rstrip_cons. simpl. by rewrite E.
  - rewrite rstrip_cons, IH. reflexivity.
Qed.

Lemma strip_idem s : Py.strip (Py.strip s) = Py.strip s.
Proof.
  unfold Py.strip. by rewrite (lstrip_rstrip (Py.lstrip s)), lstrip_idem, rstrip_idem.
Qed.

Lemma lower_char_idem c : lower_char (lower_char c) = lower_char c.
Proof. destruct c as [[] [] [] [] [] [] [] []]; reflexivity. Qed.

Lemma is_space_lower_char c : Py.is_space (lower_char c) = Py.is_space c.
Proof. destruct c as [[] [] [] [] [] [] [] []]; reflexivity. Qed.

Lemma lower_idem s : lower (lower s) = lower s.
Proof. induction s as [|c s IH]; [done|]. simpl. by rewrite lower_char_idem, IH. Qed.

Lemma lower_lstrip s : lower (Py.lstrip s) = Py.lstrip (lower s).
Proof.
  induction s as [|c s IH]; [done|]. simpl. rewrite is_space_lower_char.
  by destruct (Py.is_space c).
Qed.

Lemma lower_rstrip s : lower (Py.rstrip s) = Py.rstrip (lower s).
Proof.
  induction s as [|c s IH]; [done|].
  change (lower (String c s)) with (String (lower_char c) (lower s)).
  rewrite !rstrip_cons, <- IH, is_space_lower_char.
  destruct (Py.rstrip s); [by destruct (Py.is_space c)|done].
Qed.

Lemma lower_strip s : lower (Py.strip s) = Py.strip (lower s).
Proof. unfold Py.strip. by rewrite lower_rstrip, lower_lstrip. Qed.

(** The key is the trimmed lower-case text. *)
Lemma role_key_lower v : role_key v = Py.strip (lower v).
Proof. unfold role_key. by rewrite lower_strip, strip_idem. Qed.

(** What the two tables say, checked row by row. *)
Definition alias_row_ok (row : string * string) : bool :=
  String.eqb (normalize_role (Some (snd row))) (snd row)
  && bool_decide (is_Some (ROLE_TO_UI !! snd row))
  && negb (String.eqb (fst row) EmptyString)
  && implb (String.eqb (snd row) "UIDE") (String.eqb (fst row) "uide").

Definition role_row_ok (row : string * UiClass) : bool :=
  bool_decide (ROLE_ALIASES !! role_key (fst row) = Some (fst row)).

Lemma alias_rows k c :
  ROLE_ALIASES !! k = Some c ->
  normalize_role (Some c) = c /\ is_Some (ROLE_TO_UI !! c) /\ k <> EmptyString
  /\ (c = "UIDE"%string -> k = "uide"%string).
Proof.
  intros Hk.
  assert (Hall : List.forallb alias_row_ok (map_to_list ROLE_ALIASES) = true)
    by (vm_compute; reflexivity).
  rewrite List.forallb_forall in Hall.
  apply elem_of_map_to_list, list_elem_of_In in Hk. specialize (Hall _ Hk).
  unfold alias_row_ok in Hall. cbn [fst snd] in Hall.
  apply andb_true_iff in Hall as [[[H1 H2]%andb_true_iff H3]%andb_true_iff H4].
  apply String.eqb_eq in H1. apply bool_decide_eq_true in H2.
  split; [done|]. split; [done|]. split.
  - intros ->. discriminate H3.
  - intros ->. change ("UIDE" =? "UIDE")%string with true in H4.
    by apply String.eqb_eq in H4.
Qed.

Lemma role_rows c cls : ROLE_TO_UI !! c = Some cls -> ROLE_ALIASES !! role_key c = Some c.
Proof.
  intros Hc.
  assert (Hall : List.forallb role_row_ok (map_to_list ROLE_TO_UI) = true)
    by (vm_compute; reflexivity).
  rewrite List.forallb_forall in Hall.
  apply elem_of_map_to_list, list_elem_of_In in Hc. specialize (Hall _ Hc).
  by apply bool_decide_eq_true in Hall.
Qed.

Lemma normalize_role_some v :
  normalize_role (Some v)
  = if String.eqb (Py.strip v) EmptyString then EmptyString
    else default (Py.strip v) (ROLE_ALIASES !! role_key v).
Proof. reflexivity. Qed.

Lemma role_key_strip v : role_key (Py.strip v) = role_key v.
Proof. unfold role_key. by rewrite strip_idem. Qed.

Lemma role_key_blank v : Py.strip v = EmptyString -> role_key v = EmptyString.
Proof. unfold role_key. by intros ->. Qed.

Lemma normalize_role_idem v : normalize_role (Some (normalize_role v)) = normalize_role v.
Proof.
  destruct v as [v|]; [|done]. rewrite (normalize_role_some v).
  destruct (String.eqb_spec (Py.strip v) "") as [He|Hne]; [done|].
  destruct (ROLE_ALIASES !! role_key v) as [c|] eqn:Hk; cbn [default].
  - by apply alias_rows in Hk as [? _].
  - rewrite normalize_role_some, strip_idem, role_key_strip, Hk.
    by destruct (String.eqb_spec (Py.strip v) "").
Qed.

Lemma normalize_role_mapped v :
  is_Some (ROLE_TO_UI !! normalize_role (Some v)) <-> is_Some (ROLE_ALIASES !! role_key v).
Proof.
  rewrite normalize_role_some. split.
  - destruct (String.eqb_spec (Py.strip v) "") as [He|Hne]; [by intros [? ?]|].
    destruct (ROLE_ALIASES !! role_key v) as [c|] eqn:Hk; [eauto|]. cbn [default].
    intros [cls Hcls]. apply role_rows in Hcls. rewrite role_key_strip in Hcls. congruence.
  - intros [c Hk]. pose proof (alias_rows _ _ Hk) as (_ & Hc & Hne & _).
    destruct (String.eqb_spec (Py.strip v) "") as [He|_].
    + by rewrite (role_key_blank v He) in Hne.
    + by rewrite Hk.
Qed.

End Roles.

(** X14: [normalize_role] maps its own results to themselves. *)
Theorem normalize_role_is_idempotent role_value :
  Login.normalize_role (Some (Login.normalize_role role_value))
  = Login.normalize_role role_value.
Proof. apply normalize_role_idem. Qed.

(** X15: A role text leads to a screen exactly when its trimmed lower-case form
    is one of the aliases; letter case and surrounding blanks never matter:
    two texts with the same lower-case form are accepted together and then
    give the same role. *)
Theorem role_is_matched_without_case v v' :
  Login.lower v = Login.lower v' ->
  (is_Some (Login.ROLE_TO_UI !! Login.normalize_role (Some v))
   <-> is_Some (Login.ROLE_ALIASES !! Py.strip (Login.lower v)))
  /\ (is_Some (Login.ROLE_TO_UI !! Login.normalize_role (Some v)) ->
      Login.normalize_role (Some v') = Login.normalize_role (Some v)
      /\ Login.normalize_role (Some ("  " +:+ v +:+ " ")) = Login.normalize_role (Some v)).
Proof.
  intros Hlow. rewrite <- role_key_lower. split; [apply normalize_role_mapped|].
  intros [c Hk]%normalize_role_mapped.
  pose proof (alias_rows _ _ Hk) as (_ & _ & Hne & _).
  assert (Hsame : forall x, Login.role_key x = Login.role_key v ->
                    Login.normalize_role (Some x) = c).
  { intros x Hx. rewrite normalize_role_some, Hx, Hk.
    destruct (String.eqb_spec (Py.strip x) "") as [He|_]; [|done].
    apply role_key_blank in He. congruence. }
  rewrite (Hsame v eq_refl). split; apply Hsame.
  - by rewrite !role_key_lower, Hlow.
  - unfold Login.role_key. f_equal. f_equal.
    change ("  " +:+ v +:+ " ") with (String " " (String " " (v +:+ " "))).
    unfold Py.strip. change (Py.lstrip (String " " (String " " (v +:+ " "))))
      with (Py.lstrip (v +:+ " ")).
    assert (Hr : forall x, Py.rstrip (x +:+ " ") = Py.rstrip x).
    { induction x as [|a x IH]; [done|]. by rewrite append_cons, !rstrip_cons, IH. }
    by rewrite <- !lstrip_rstrip, Hr.
Qed.

Lemma role_case_witness :
  Login.normalize_role (Some "top (super user)"%string)
  = Login.normalize_role (Some "Top (Super User)"%string).
Proof.
  refine (proj1 (proj2 (role_is_matched_without_case "Top (Super User)" "top (super user)"
                          eq_refl) _)).
  exists Login.SuperUI. vm_compute. reflexivity.
Defined.

(** X16: Only the role UIDE, under any spelling of its alias, may edit the
    layout. *)
Theorem can_edit_layout_only_for_uide a :
  Login.can_edit_layout a = true
  <-> exists v, Login.role a = Some v /\ Py.strip (Login.lower v) = "uide"%string.
Proof.
  unfold Login.can_edit_layout. rewrite String.eqb_eq. split.
  - destruct (Login.role a) as [v|]; [|done]. intros H. exists v. split; [done|].
    rewrite <- role_key_lower. revert H. rewrite normalize_role_some.
    destruct (String.eqb_spec (Py.strip v) "") as [He|Hne]; [done|].
    destruct (Login.ROLE_ALIASES !! Login.role_key v) as [c|] eqn:Hk; cbn [default].
    + intros H. change (c = "UIDE"%string) in H.
      apply alias_rows in Hk as (_ & _ & _ & Hu). exact (Hu H).
    + intros H. change (Py.strip v = "UIDE"%string) in H.
      rewrite <- role_key_strip, H in Hk. vm_compute in Hk. discriminate Hk.
  - intros (v & -> & Hv). rewrite <- role_key_lower in Hv.
    rewrite normalize_role_some, Hv.
    destruct (String.eqb_spec (Py.strip v) "") as [He|_]; [|done].
    apply role_key_blank in He. rewrite Hv in He. discriminate He.
Qed.

Lemma can_edit_layout_witness :
  Login.can_edit_layout (Login.mkApp (Some "ann"%string) (Some " Uide "%string) None
                           Login.LoginPage [] []) = true.
Proof.
  apply (proj2 (can_edit_layout_only_for_uide _)).
  exists " Uide "%string. split; reflexivity.
Defined.

Section LoginSteps.
Import Login.

Lemma route_role_mapped a cls :
  ROLE_TO_UI !! normalize_role (role a) = Some cls ->
  route_role a = mkApp (user a) (role a) (user_line a) (RolePage cls) (audit a) (shown a).
Proof. unfold route_role. by intros ->. Qed.

Lemma login_mapped username role_value line a cls :
  ROLE_TO_UI !! normalize_role role_value = Some cls ->
  login username role_value line a
  = mkApp (Some username) (Some (normalize_role role_value))
      (Some (if truthy line then default "Both"%string line else "Both"%string))
      (RolePage cls)
      (audit a ++ [(username, "Login as " +:+ normalize_role role_value)]) (shown a).
Proof.
  intros Hcls. unfold login. cbv zeta. rewrite (route_role_mapped _ cls); [done|].
  cbn [role]. by rewrite normalize_role_idem.
Qed.

Lemma login_unmapped username role_value line a :
  ROLE_TO_UI !! normalize_role role_value = None ->
  exists msg,
    login username role_value line a
    = mkApp None None None LoginPage
        ((audit a ++ [(username, "Login as " +:+ normalize_role role_value)])
         ++ (if String.eqb username EmptyString then [] else [(username, "Logout"%string)]))
        (shown a ++ [ShowError "Role Error" msg]).
Proof.
  intros Hcls. unfold login, route_role. cbv zeta. cbn [role].
  rewrite normalize_role_idem, Hcls. eexists. unfold logout, show_login.
  cbn [user role user_line page audit shown truthy].
  destruct (String.eqb username ""); cbn [negb]; [by rewrite app_nil_r|done].
Qed.

End LoginSteps.

(** X17: [App.login] with a role that has a screen shows that screen and keeps
    the normalized role; with any other role it shows one "Role Error" box
    and ends logged out on the login page, the audit log holding the login
    and, for a non-empty user name, the logout. *)
Theorem login_routes_or_logs_out username role_value line a :
  let r := Login.normalize_role role_value in
  let a1 := Login.login username role_value line a in
  match Login.ROLE_TO_UI !! r with
  | Some cls =>
      Login.user a1 = Some username /\ Login.role a1 = Some r
      /\ Login.user_line a1
         = Some (match line with
                 | Some l => if String.eqb l EmptyString then "Both" else l
                 | None => "Both"
                 end)%string
      /\ Login.page a1 = Login.RolePage cls
      /\ Login.audit a1 = Login.audit a ++ [(username, "Login as " +:+ r)]
      /\ Login.shown a1 = Login.shown a
  | None =>
      Login.user a1 = None /\ Login.role a1 = None /\ Login.user_line a1 = None
      /\ Login.page a1 = Login.LoginPage
      /\ Login.audit a1
         = Login.audit a ++ (username, "Login as " +:+ r)
             :: (if String.eqb username EmptyString then []
                 else [(username, "Logout"%string)])
      /\ exists msg, Login.shown a1 = Login.shown a ++ [ShowError "Role Error" msg]
  end.
Proof.
  cbv zeta. destruct (Login.ROLE_TO_UI !! Login.normalize_role role_value) as [cls|] eqn:Hcls.
  - rewrite (login_mapped _ _ line a cls Hcls). cbn.
    repeat split. unfold Login.truthy.
    destruct line as [l|]; [destruct (String.eqb l "")|]; reflexivity.
  - destruct (login_unmapped username role_value line a Hcls) as [msg ->]. cbn.
    rewrite <- app_assoc. repeat split. by exists msg.
Qed.

(** X18: [LoginPage.check] has two outcomes.  It logs the user in, on the screen
    of the role, only when the trimmed name is not empty, a non-empty record
    is found under it, the record's password equals the entry as typed and
    the record's role normalizes to a role with a screen.  In every other
    case it shows one error box and leaves the user, role, line, page and
    audit log as they were. *)
Theorem check_logs_in_or_only_reports get_user u_entry p_entry a :
  let u := Py.strip u_entry in
  let a' := Login.check get_user u_entry p_entry a in
  (exists rec cls,
      u <> EmptyString /\ get_user u = Some rec /\ rec <> ∅
      /\ default EmptyString (rec !! "password"%string) = p_entry
      /\ Login.ROLE_TO_UI
           !! Login.normalize_role (Some (default EmptyString (rec !! "role"%string)))
         = Some cls
      /\ Login.user a' = Some u
      /\ Login.role a'
         = Some (Login.normalize_role (Some (default EmptyString (rec !! "role"%string))))
      /\ Login.page a' = Login.RolePage cls
      /\ Login.audit a'
         = Login.audit a
           ++ [(u, "Login as " +:+ Login.normalize_role
                                     (Some (default EmptyString (rec !! "role"%string))))]
      /\ Login.shown a'
         = Login.shown a
           ++ [ShowInfo "Welcome" ("welcome '" +:+ default u (rec !! "name"%string) +:+ "'")])
  \/ (Login.user a' = Login.user a /\ Login.role a' = Login.role a
      /\ Login.user_line a' = Login.user_line a /\ Login.page a' = Login.page a
      /\ Login.audit a' = Login.audit a
      /\ exists title msg, Login.shown a' = Login.shown a ++ [ShowError title msg]).
Proof.
  cbv zeta. unfold Login.check. cbv zeta.
  destruct (String.eqb_spec (Py.strip u_entry) "") as [He|Hne].
  { right. cbn. repeat split. by eexists _, _. }
  destruct (get_user (Py.strip u_entry)) as [rec|] eqn:Hrec;
    [|right; cbn; repeat split; by eexists _, _].
  destruct (bool_decide (rec = ∅)) eqn:Hempty;
    [right; cbn; repeat split; by eexists _, _|].
  apply bool_decide_eq_false in Hempty.
  destruct (String.eqb_spec (default EmptyString (rec !! "password"%string)) p_entry)
    as [Hpw|Hpw]; cbn [negb];
    [|right; cbn; repeat split; by eexists _, _].
  destruct (Login.ROLE_TO_UI
              !! Login.normalize_role (Some (default EmptyString (rec !! "role"%string))))
    as [cls|] eqn:Hcls;
    [|right; cbn; repeat split; by eexists _, _].
  left. exists rec, cls.
  rewrite (login_mapped _ _ _ a cls) by (by rewrite normalize_role_idem).
  rewrite normalize_role_idem. cbn [Login.user Login.role Login.page Login.audit Login.shown].
  by repeat split.
Qed.

(** X19: An unknown user name and a wrong password for a known one are answered
    in the same way: the same box, and nothing else changes. *)
Theorem bad_credentials_look_alike get_user u1 p1 u2 p2 rec a :
  Py.strip u1 <> EmptyString -> get_user (Py.strip u1) = None ->
  Py.strip u2 <> EmptyString -> get_user (Py.strip u2) = Some rec ->
  default EmptyString (rec !! "password"%string) <> p2 ->
  Login.check get_user u1 p1 a = Login.check get_user u2 p2 a
  /\ Login.check get_user u2 p2 a = Login.show_error "Invalid credentials." a.
Proof.
  intros H1 Hnone H2 Hrec Hpw. unfold Login.check. cbv zeta. rewrite Hnone, Hrec.
  destruct (String.eqb_spec (Py.strip u1) "") as [|_]; [done|].
  destruct (String.eqb_spec (Py.strip u2) "") as [|_]; [done|].
  destruct (bool_decide (rec = ∅)); [done|].
  by destruct (String.eqb_spec (default EmptyString (rec !! "password"%string)) p2).
Qed.

Lemma bad_credentials_witness :
  Login.check More.users "zed" "pw" More.logged_out
  = Login.check More.users " ann" "PW" More.logged_out.
Proof.
  refine (proj1 (bad_credentials_look_alike More.users "zed" "pw" " ann" "PW"
                   (list_to_map [("password", "pw"); ("role", " ADMIN "); ("name", "Ann")]%string)
                   More.logged_out _ _ _ _ _));
    first [reflexivity | vm_compute; discriminate].
Defined.
